(** * Currency / temperature / calculator service (app.py)

    A shallow embedding of the request handlers of [app.py] and of the
    [CurrencyService] they share, together with the properties stated for
    them.

    Python values are modelled as follows:
    - [float] is IEEE 754 binary64, taken from the Standard Library's
      [SpecFloat] at precision 53 and maximal exponent 1024, so every
      arithmetic step rounds exactly as the interpreter's does;
    - [int] is [Z] (Python integers are unbounded);
    - a decoded JSON document is the inductive type [json]; JSON objects are
      finite maps from strings;
    - a raised exception is the [Raise] branch of the [result] monad;
    - the interpreter keeps its default limit of 4300 digits on the
      conversion between [int] and [str] (CPython 3.11 and later), which
      [jsonify] meets when it writes an integer. *)

From Stdlib Require Import ZArith String List Bool Lia.
From Stdlib Require Import SpecFloat.
From stdpp Require Import gmap strings.
From Stdlib Require Import Reals Lra.

Set Warnings "-register-all".

Open Scope Z_scope.

(* ===================================================================== *)
(** * Exceptions and the error monad *)
(* ===================================================================== *)

Inductive exn : Type :=
| ValueError (msg : string)
| TypeError
| KeyError (key : string)
| AttributeError
| OverflowError
| ZeroDivisionError.

Inductive result (A : Type) : Type :=
| Ok (a : A)
| Raise (e : exn).
Arguments Ok {A} a.
Arguments Raise {A} e.

Definition bind {A B : Type} (r : result A) (k : A -> result B) : result B :=
  match r with
  | Ok a => k a
  | Raise e => Raise e
  end.

Notation "'let*' x ':=' r 'in' k" := (bind r (fun x => k))
  (at level 10, x name, r at level 100, k at level 200).

(* ===================================================================== *)
(** * Python floats: binary64 *)
(* ===================================================================== *)

Module PyFloat.

Definition prec : Z := 53.
Definition emax : Z := 1024.

Abbreviation float := spec_float.

Definition valid (x : float) : Prop := valid_binary prec emax x = true.

Definition is_inf (x : float) : bool :=
  match x with S754_infinity _ => true | _ => false end.

Definition is_zero (x : float) : bool :=
  match x with S754_zero _ => true | _ => false end.

(** [x * y], [x + y], [x - y]: never raise. *)
Definition mul (x y : float) : float := SFmul prec emax x y.
Definition add (x y : float) : float := SFadd prec emax x y.
Definition sub (x y : float) : float := SFsub prec emax x y.

(** [x / y] on floats raises [ZeroDivisionError] when [y] is a zero. *)
Definition truediv (x y : float) : result float :=
  if is_zero y then Raise ZeroDivisionError else Ok (SFdiv prec emax x y).

(** The binary64 nearest to the rational [a / b] (ties to even), with the
    given sign.  This is the rounding performed by decimal-to-binary
    conversion and by integer true division. *)
Definition of_ratio (s : bool) (a b : positive) : float :=
  let '(q, e, l) := SFdiv_core_binary prec emax (Zpos a) 0 (Zpos b) 0 in
  binary_round_aux prec emax s q e l.

(** [float(n)] for an [int]: correctly rounded, [OverflowError] when the
    integer is too large. *)
Definition of_int (n : Z) : result float :=
  let r := binary_normalize prec emax n 0 false in
  if is_inf r then Raise OverflowError else Ok r.

(** [a / b] on ints: true division, correctly rounded. *)
Definition int_truediv (a b : Z) : result float :=
  match a, b with
  | _, Z0 => Raise ZeroDivisionError
  | Z0, _ => Ok (S754_zero (b <? 0))
  | _, _ =>
      let r := of_ratio (xorb (a <? 0) (b <? 0)) (Z.to_pos (Z.abs a)) (Z.to_pos (Z.abs b)) in
      if is_inf r then Raise OverflowError else Ok r
  end.

(** The integer nearest to [n / d], ties to the even integer
    ([n >= 0], [d > 0]). *)
Definition div_half_even (n d : Z) : Z :=
  let q := n / d in
  let r := n mod d in
  match 2 * r ?= d with
  | Lt => q
  | Gt => q + 1
  | Eq => if Z.even q then q else q + 1
  end.

Definition NDIGITS_MAX : Z := 323.
Definition NDIGITS_MIN : Z := -308.

(** [double_round]: round the finite non-zero [(-1)^s * m * 2^e] to
    [ndigits] decimal places by producing the correctly rounded decimal
    string and parsing it back. *)
Definition double_round (s : bool) (m : positive) (e ndigits : Z) : result float :=
  let num := Zpos m * 2 ^ Z.max e 0 * 10 ^ Z.max ndigits 0 in
  let den := 2 ^ Z.max (- e) 0 * 10 ^ Z.max (- ndigits) 0 in
  (* the decimal string holds the integer [n], scaled by [10^-ndigits] *)
  let n := div_half_even num den in
  match n with
  | Zpos p =>
      let r := of_ratio s (p * Z.to_pos (10 ^ Z.max (- ndigits) 0))
                          (Z.to_pos (10 ^ Z.max ndigits 0)) in
      if is_inf r then Raise OverflowError else Ok r
  | _ => Ok (S754_zero s)
  end.

(** [round(x, ndigits)] on a float. *)
Definition round (x : float) (ndigits : Z) : result float :=
  match x with
  | S754_finite s m e =>
      if ndigits >? NDIGITS_MAX then Ok x
      else if ndigits <? NDIGITS_MIN then Ok (S754_zero s)
      else double_round s m e ndigits
  | _ => Ok x
  end.

(** [int(x)] on a float: truncation towards zero. *)
Definition to_int (x : float) : result Z :=
  match x with
  | S754_zero _ => Ok 0
  | S754_nan => Raise (ValueError "cannot convert float NaN to integer")
  | S754_infinity _ => Raise OverflowError
  | S754_finite s m e =>
      let a := match e with
               | Zneg p => Zpos m / 2 ^ Zpos p
               | _ => Zpos m * 2 ^ e
               end in
      Ok (if s then - a else a)
  end.

(** Literals of the program. *)
Definition lit_0_0 : float := S754_zero false.
Definition lit_1_0 : float := Eval vm_compute in of_ratio false 1 1.
Definition lit_0_92 : float := Eval vm_compute in of_ratio false 92 100.
Definition lit_0_78 : float := Eval vm_compute in of_ratio false 78 100.
Definition lit_150_0 : float := Eval vm_compute in of_ratio false 150 1.
Definition lit_5 : float := Eval vm_compute in of_ratio false 5 1.
Definition lit_9 : float := Eval vm_compute in of_ratio false 9 1.
Definition lit_32 : float := Eval vm_compute in of_ratio false 32 1.

End PyFloat.

Abbreviation float := spec_float.

(* ===================================================================== *)
(** * Decoded JSON values and the builtins applied to them *)
(* ===================================================================== *)

(** What [request.json] hands to a handler, and what [jsonify] receives. *)
Inductive json : Type :=
| JNull
| JBool (b : bool)
| JInt (n : Z)
| JFloat (x : float)
| JStr (s : string)
| JArr (l : list json)
| JObj (d : gmap string json).

(** A response: the HTTP status and the value given to [jsonify]. *)
Record response : Type := mkResponse { status : Z; body : json }.

Module Py.

(** [v == s] for a string constant [s]. *)
Definition eq_str (v : json) (s : string) : bool :=
  match v with
  | JStr t => bool_decide (t = s)
  | _ => false
  end.

(** [data[key]] *)
Definition getitem (data : json) (key : string) : result json :=
  match data with
  | JObj d =>
      match d !! key with
      | Some v => Ok v
      | None => Raise (KeyError key)
      end
  | _ => Raise TypeError
  end.

(** [data.get(key, default)]; [data.get(key)] is the case [default = None]. *)
Definition get (data : json) (key : string) (dflt : json) : result json :=
  match data with
  | JObj d => Ok (default dflt (d !! key))
  | _ => Raise AttributeError
  end.

(** [jsonify({k1: v1, ...})]: a dict display inserts its items from left
    to right. *)
Definition dict (items : list (string * json)) : json :=
  JObj (fold_left (fun d kv => <[kv.1 := kv.2]> d) items ∅).

(** [jsonify] writes an [int] in decimal, and the interpreter (CPython 3.11
    and later, and the security releases of 3.7 to 3.10) raises
    [ValueError] when an integer of more than [sys.int_max_str_digits]
    digits is converted to or from a string. *)
Definition INT_MAX_STR_DIGITS : Z := 4300.

(** Serialising a value a handler has computed. *)
Definition serialise (v : json) : result unit :=
  match v with
  | JInt n =>
      if Z.abs n <? 10 ^ INT_MAX_STR_DIGITS then Ok tt
      else Raise (ValueError "Exceeds the limit (4300 digits) for integer string conversion")
  | _ => Ok tt
  end.

Section Builtins.
(** Parsing a numeral out of a [str] is left to the interpreter:
    [float_of_str s] and [int_of_str s] are [None] when [float(s)] and
    [int(s)] raise [ValueError]. *)
Variable float_of_str : string -> option float.
Variable int_of_str : string -> option Z.

(** [float(v)] *)
Definition float_ (v : json) : result float :=
  match v with
  | JNull => Raise TypeError
  | JBool b => Ok (if b then PyFloat.lit_1_0 else PyFloat.lit_0_0)
  | JInt n => PyFloat.of_int n
  | JFloat x => Ok x
  | JStr s =>
      match float_of_str s with
      | Some x => Ok x
      | None => Raise (ValueError "could not convert string to float")
      end
  | JArr _ | JObj _ => Raise TypeError
  end.

(** [int(v)] *)
Definition int_ (v : json) : result Z :=
  match v with
  | JNull => Raise TypeError
  | JBool b => Ok (if b then 1 else 0)
  | JInt n => Ok n
  | JFloat x => PyFloat.to_int x
  | JStr s =>
      match int_of_str s with
      | Some n => Ok n
      | None => Raise (ValueError "invalid literal for int() with base 10")
      end
  | JArr _ | JObj _ => Raise TypeError
  end.
End Builtins.

End Py.

(* ===================================================================== *)
(** * The SOAP service: [CurrencyService] *)
(* ===================================================================== *)

(** The SOAP data model [Rate]. *)
Record Rate : Type := mkRate { currency : string; rate : float }.

Module CurrencyService.

(** The class attribute [fallback_rates]; a dict keeps insertion order,
    which [items()] enumerates. *)
Definition fallback_rates : list (string * float) :=
  [ ("USD"%string, PyFloat.lit_1_0);
    ("EUR"%string, PyFloat.lit_0_92);
    ("GBP"%string, PyFloat.lit_0_78);
    ("JPY"%string, PyFloat.lit_150_0) ].

Fixpoint lookup_rate (key : string) (items : list (string * float)) : option float :=
  match items with
  | [] => None
  | (k, v) :: rest => if bool_decide (k = key) then Some v else lookup_rate key rest
  end.

(** [key not in fallback_rates]: hashing a list or a dict raises
    [TypeError]; every other non-string key is simply absent. *)
Definition not_in_rates (key : json) : result bool :=
  match key with
  | JStr s => Ok (negb (bool_decide (is_Some (lookup_rate s fallback_rates))))
  | JArr _ | JObj _ => Raise TypeError
  | _ => Ok true
  end.

(** [fallback_rates[key]] *)
Definition rate_of (key : json) : result float :=
  match key with
  | JStr s =>
      match lookup_rate s fallback_rates with
      | Some v => Ok v
      | None => Raise (KeyError s)
      end
  | JArr _ | JObj _ => Raise TypeError
  | _ => Raise (KeyError "")
  end.

Definition convert_currency (from_currency to_currency : json) (amount : float)
  : result float :=
  let* bad_from := not_in_rates from_currency in
  let* bad := (if bad_from then Ok true else not_in_rates to_currency) in
  if bad then Raise (ValueError "Invalid currency code.")
  else
    let* rto := rate_of to_currency in
    let* rfrom := rate_of from_currency in
    let* rate := PyFloat.truediv rto rfrom in
    PyFloat.round (PyFloat.mul amount rate) 2.

(** The body of the [for] loop of [get_rates], run over the remaining
    items; [acc] holds the records yielded so far, most recent first. *)
Fixpoint get_rates_loop (base : float) (items : list (string * float))
    (acc : list Rate) : result (list Rate) :=
  match items with
  | [] => Ok (rev acc)
  | (curr, r) :: rest =>
      let* q := PyFloat.truediv r base in
      let* v := PyFloat.round q 3 in
      get_rates_loop base rest (mkRate curr v :: acc)
  end.

(** [get_rates] is a generator; the model is the sequence it yields when
    run to exhaustion, or the exception that interrupts it. *)
Definition get_rates (base_currency : json) : result (list Rate) :=
  let* bad := not_in_rates base_currency in
  if bad then Raise (ValueError "Invalid base currency")
  else
    let* base := rate_of base_currency in
    get_rates_loop base fallback_rates [].

End CurrencyService.

(* ===================================================================== *)
(** * The REST handlers *)
(* ===================================================================== *)

Module Rest.

Section Handlers.
Variable float_of_str : string -> option float.
Variable int_of_str : string -> option Z.

Let float_ := Py.float_ float_of_str.
Let int_ := Py.int_ int_of_str.

(** [POST /convert] *)
Definition convert (data : json) : result response :=
  let* from_currency := Py.get data "from_currency" JNull in
  let* to_currency := Py.get data "to_currency" JNull in
  let* amount_field := Py.get data "amount" (JFloat PyFloat.lit_1_0) in
  let* amount := float_ amount_field in
  let* result := CurrencyService.convert_currency from_currency to_currency amount in
  Ok (mkResponse 200
        (Py.dict [ ("from_currency"%string, from_currency);
                   ("to_currency"%string, to_currency);
                   ("amount"%string, JFloat amount);
                   ("result"%string, JFloat result) ])).

(** [GET /rates]; [base_arg] is the query parameter [base_currency],
    when present. *)
Definition get_rates (base_arg : option string) : result response :=
  let base := default "USD"%string base_arg in
  let* rates := CurrencyService.get_rates (JStr base) in
  Ok (mkResponse 200
        (Py.dict [ ("base_currency"%string, JStr base);
                   ("rates"%string,
                    Py.dict (map (fun r => (currency r, JFloat (rate r))) rates)) ])).

(** [POST /convert_temp] *)
Definition convert_temp (data : json) : result response :=
  let* from_unit := Py.getitem data "from_unit" in
  let* to_unit := Py.getitem data "to_unit" in
  let* value_field := Py.getitem data "value" in
  let* value := float_ value_field in
  let* computed :=
    if Py.eq_str from_unit "C" && Py.eq_str to_unit "F" then
      let* q := PyFloat.truediv (PyFloat.mul value PyFloat.lit_9) PyFloat.lit_5 in
      Ok (Some (PyFloat.add q PyFloat.lit_32))
    else if Py.eq_str from_unit "F" && Py.eq_str to_unit "C" then
      let* q := PyFloat.truediv
                  (PyFloat.mul (PyFloat.sub value PyFloat.lit_32) PyFloat.lit_5)
                  PyFloat.lit_9 in
      Ok (Some q)
    else Ok None in
  match computed with
  | None =>
      Ok (mkResponse 400 (Py.dict [ ("error"%string, JStr "Invalid conversion units") ]))
  | Some result =>
      let* rounded := PyFloat.round result 2 in
      Ok (mkResponse 200
            (Py.dict [ ("from_unit"%string, from_unit);
                       ("to_unit"%string, to_unit);
                       ("value"%string, JFloat value);
                       ("result"%string, JFloat rounded) ]))
  end.

(** [POST /calculate].  The operands [a] and [b] come out of the JSON
    decoder or of [int], which keep them within the digit limit of
    [Py.serialise]; of the integers of the response only the computed
    [result] can exceed it. *)
Definition calculate (data : json) : result response :=
  let* op := Py.getitem data "operation" in
  let* a_field := Py.getitem data "intA" in
  let* a := int_ a_field in
  let* b_field := Py.getitem data "intB" in
  let* b := int_ b_field in
  let* computed :=
    if Py.eq_str op "add" then Ok (Some (JInt (a + b)))
    else if Py.eq_str op "subtract" then Ok (Some (JInt (a - b)))
    else if Py.eq_str op "multiply" then Ok (Some (JInt (a * b)))
    else if Py.eq_str op "divide" then
      if negb (b =? 0) then
        let* q := PyFloat.int_truediv a b in Ok (Some (JFloat q))
      else Ok (Some (JStr "Infinity"))
    else Ok None in
  match computed with
  | None => Ok (mkResponse 400 (Py.dict [ ("error"%string, JStr "Invalid operation") ]))
  | Some result =>
      let* _ := Py.serialise result in
      Ok (mkResponse 200
            (Py.dict [ ("operation"%string, op);
                       ("intA"%string, JInt a);
                       ("intB"%string, JInt b);
                       ("result"%string, result) ]))
  end.
End Handlers.

End Rest.

(* ===================================================================== *)
(** * The real value of a float *)
(* ===================================================================== *)

(** [2^e] as a real number. *)
Definition bpow (e : Z) : R := powerRZ 2 e.

Definition sign_R (s : bool) : R := if s then (-1)%R else 1%R.

(** The real number a finite float stands for; [0] for the others. *)
Definition F2R (x : float) : R :=
  match x with
  | S754_finite s m e => (sign_R s * IZR (Zpos m) * bpow e)%R
  | _ => 0%R
  end.

(** Zeros and finite non-zero floats, as opposed to infinities and NaN. *)
Definition is_finite (x : float) : bool :=
  match x with
  | S754_zero _ | S754_finite _ _ _ => true
  | _ => false
  end.

(** What the arithmetic produces: a finite result has at most 53 digits and
    an exponent of at most 971. *)
Definition well_formed (x : float) : Prop :=
  match x with
  | S754_finite _ m e => Zpos m < 2 ^ 53 /\ e <= 971
  | _ => True
  end.

(** The exponent at which [mx * 2^ex] is rounded. *)
Definition round_exp (mx ex : Z) : Z :=
  Z.max ex (fexp PyFloat.prec PyFloat.emax (Zdigits2 mx + ex)).

(** [in_range lo hi x]: [x] is a positive finite float with
    [2^lo <= x <= 2^hi], decided on its number of digits. *)
Definition in_range (lo hi : Z) (x : float) : bool :=
  match x with
  | S754_finite false m e =>
      (lo <=? Zpos (digits2_pos m) + e - 1) && (Zpos (digits2_pos m) + e <=? hi)
  | _ => false
  end.

(** [product_between lo hi den x y]: [x] and [y] are positive finite floats
    with [lo / den <= x * y <= hi / den], decided on the integers. *)
Definition product_between (lo hi den : Z) (x y : float) : bool :=
  match x, y with
  | S754_finite false mx ex, S754_finite false my ey =>
      let e := ex + ey in
      let p := Zpos mx * Zpos my * 2 ^ Z.max e 0 * den in
      let q := 2 ^ Z.max (- e) 0 in
      (lo * q <=? p) && (p <=? hi * q)
  | _, _ => false
  end.

(* ===================================================================== *)
(** * Specification of a yielded rate *)
(* ===================================================================== *)

(** What one yielded record must be, for the table entry [kv] and the rate
    [base] of the base currency. *)
Definition rate_entry (base : float) (r : Rate) (kv : string * float) : Prop :=
  currency r = kv.1 /\
  PyFloat.round (SFdiv PyFloat.prec PyFloat.emax kv.2 base) 3 = Ok (rate r).

(* ===================================================================== *)
(** * Notions used by the further properties *)
(* ===================================================================== *)

(** A currency code that is hashable and not a key of the table: [None]
    (a missing field), a number, a boolean, or an unlisted string. *)
Definition unknown_code (k : json) : Prop :=
  match k with
  | JStr s => CurrencyService.lookup_rate s CurrencyService.fallback_rates = None
  | JArr _ | JObj _ => False
  | _ => True
  end.

(** The result of an operation, negated when it is a value. *)
Definition opp_result (r : result float) : result float :=
  match r with
  | Ok c => Ok (SFopp c)
  | Raise e => Raise e
  end.

(** The float that the decimal numeral [n / 100] denotes: what [float] and
    the JSON decoder return for a number written with two decimals. *)
Definition hundredths (n : Z) : float :=
  match n with
  | Z0 => S754_zero false
  | Zpos p => PyFloat.of_ratio false p 100
  | Zneg p => PyFloat.of_ratio true p 100
  end.

(* ===================================================================== *)
(** * Sample values *)
(* ===================================================================== *)

Module Sample.
(** The floats written [1.234], [1.23], [100.0], [92.0], ... in Python. *)
Definition f1_234 : float := Eval vm_compute in PyFloat.of_ratio false 1234 1000.
Definition f1_23 : float := Eval vm_compute in PyFloat.of_ratio false 123 100.
Definition f100 : float := Eval vm_compute in PyFloat.of_ratio false 100 1.
Definition f92 : float := Eval vm_compute in PyFloat.of_ratio false 92 1.
Definition f212 : float := Eval vm_compute in PyFloat.of_ratio false 212 1.
Definition f0_01 : float := Eval vm_compute in PyFloat.of_ratio false 1 100.
Definition f15000 : float := Eval vm_compute in PyFloat.of_ratio false 15000 1.
Definition f50 : float := Eval vm_compute in PyFloat.of_ratio false 50 1.
Definition f3_5 : float := Eval vm_compute in PyFloat.of_ratio false 7 2.
Definition f163_043 : float := Eval vm_compute in PyFloat.of_ratio false 163043 1000.

(** Parsers for the witnesses: no string is a numeral. *)
Definition no_float : string -> option float := fun _ => None.
Definition no_int : string -> option Z := fun _ => None.

(** Request bodies. *)
Definition temp_body : gmap string json :=
  list_to_map [ ("from_unit"%string, JStr "C"); ("to_unit"%string, JStr "F");
                ("value"%string, JInt 0) ].
Definition temp_back_body : gmap string json :=
  list_to_map [ ("from_unit"%string, JStr "F"); ("to_unit"%string, JStr "C");
                ("value"%string, JInt 212) ].
Definition temp_same_body : gmap string json :=
  list_to_map [ ("from_unit"%string, JStr "C"); ("to_unit"%string, JStr "C");
                ("value"%string, JInt 20) ].
Definition calc_body (op : string) (a b : Z) : gmap string json :=
  list_to_map [ ("operation"%string, JStr op); ("intA"%string, JInt a);
                ("intB"%string, JInt b) ].
Definition convert_body : gmap string json :=
  list_to_map [ ("from_currency"%string, JStr "USD"); ("to_currency"%string, JStr "EUR");
                ("amount"%string, JInt 100) ].
Definition convert_body_no_amount : gmap string json :=
  list_to_map [ ("from_currency"%string, JStr "USD"); ("to_currency"%string, JStr "JPY") ].
End Sample.

(* ===================================================================== *)
(** * Properties *)
(* ===================================================================== *)

Import CurrencyService.

(** ** Floating-point arithmetic *)

(** *** Multiplying by [1.0] is exact *)

Lemma canonical_fexp (m : positive) (e : Z) :
  SpecFloat.bounded PyFloat.prec PyFloat.emax m e = true ->
  fexp PyFloat.prec PyFloat.emax (Zpos (digits2_pos m) + e) = e /\ e <= 971.
Proof.
  unfold SpecFloat.bounded, canonical_mantissa. intros H.
  apply andb_prop in H as [H1 H2].
  apply Z.eqb_eq in H1. apply Z.leb_le in H2.
  split; [exact H1 | exact H2].
Qed.


Lemma mul_one_finite (s : bool) (m : positive) (e : Z) :
  SpecFloat.bounded PyFloat.prec PyFloat.emax m e = true ->
  binary_round_aux PyFloat.prec PyFloat.emax s
    (Zpos (m * 4503599627370496)) (e + -52) loc_Exact = S754_finite s m e.
Proof.
  intros Hb. destruct (canonical_fexp m e Hb) as [Hc He].
  rewrite Pos.mul_comm. cbv beta iota delta [Pos.mul].
  unfold binary_round_aux, shr_fexp. cbn [Zdigits2 shr_record_of_loc digits2_pos].
  rewrite !Pos2Z.inj_succ.
  replace (fexp PyFloat.prec PyFloat.emax _ - (e + -52)) with 52.
  2:{ revert Hc. unfold fexp, emin, PyFloat.prec, PyFloat.emax. lia. }
  cbn [shr SpecFloat.iter_pos shr_1 orb shr_m loc_of_shr_record
         round_nearest_even Zdigits2].
  replace (e + -52 + 52) with e by lia.
  rewrite Hc, Z.sub_diag. cbn [shr shr_m].
  replace (e <=? PyFloat.emax - PyFloat.prec) with true; [reflexivity|].
  symmetry. apply Z.leb_le. exact He.
Qed.

Lemma mul_one_r (x : float) :
  PyFloat.valid x -> PyFloat.mul x PyFloat.lit_1_0 = x.
Proof.
  destruct x as [s|s| |s m e]; intros Hv; cbn.
  - now rewrite xorb_false_r.
  - now rewrite xorb_false_r.
  - reflexivity.
  - rewrite xorb_false_r. apply mul_one_finite. exact Hv.
Qed.

(** *** Digits and shifts *)

Lemma digits2_pos_bounds (p : positive) :
  2 ^ (Zpos (digits2_pos p) - 1) <= Zpos p < 2 ^ Zpos (digits2_pos p).
Proof.
  induction p as [p IH|p IH|]; cbn [digits2_pos].
  - rewrite Pos2Z.inj_succ, Z.pow_succ_r by lia.
    replace (Z.succ (Zpos (digits2_pos p)) - 1) with (Z.succ (Zpos (digits2_pos p) - 1)) by lia.
    rewrite Z.pow_succ_r by lia. lia.
  - rewrite Pos2Z.inj_succ, Z.pow_succ_r by lia.
    replace (Z.succ (Zpos (digits2_pos p)) - 1) with (Z.succ (Zpos (digits2_pos p) - 1)) by lia.
    rewrite Z.pow_succ_r by lia. lia.
  - cbn. lia.
Qed.

Lemma Zdigits2_nonneg (m : Z) : 0 <= Zdigits2 m.
Proof. destruct m; cbn; lia. Qed.

Lemma Zdigits2_upper (m : Z) : 0 <= m -> m < 2 ^ Zdigits2 m.
Proof.
  destruct m as [|p|p]; intros H; cbn [Zdigits2]; [cbn; lia | | lia].
  apply digits2_pos_bounds.
Qed.

Lemma Zdigits2_lower (m : Z) : 0 < m -> 2 ^ (Zdigits2 m - 1) <= m.
Proof.
  destruct m as [|p|p]; intros H; cbn [Zdigits2]; try lia.
  apply digits2_pos_bounds.
Qed.

Lemma Zdigits2_le (m k : Z) : 0 <= m -> 0 <= k -> m < 2 ^ k -> Zdigits2 m <= k.
Proof.
  intros Hm Hk Hlt. destruct (Z.eq_dec m 0) as [->|Hne]; [cbn; lia|].
  assert (H := Zdigits2_lower m ltac:(lia)).
  destruct (Z_le_gt_dec (Zdigits2 m) k) as [|Hgt]; [assumption|exfalso].
  assert (2 ^ k <= 2 ^ (Zdigits2 m - 1)) by (apply Z.pow_le_mono_r; lia).
  lia.
Qed.

Lemma shr_m_shr_1 (mrs : shr_record) :
  0 <= shr_m mrs -> shr_m (shr_1 mrs) = shr_m mrs / 2.
Proof.
  destruct mrs as [m r s]. cbn [shr_m]. intros Hm.
  destruct m as [|[p|p|]|p]; cbn [shr_1 shr_m].
  - reflexivity.
  - apply Z.div_unique with (r := 1); lia.
  - apply Z.div_unique with (r := 0); lia.
  - reflexivity.
  - lia.
Qed.

Lemma shr_m_iter_pos (p : positive) (mrs : shr_record) :
  0 <= shr_m mrs ->
  shr_m (SpecFloat.iter_pos shr_1 p mrs) = shr_m mrs / 2 ^ Zpos p.
Proof.
  revert mrs. induction p as [p IH|p IH|]; intros mrs Hm; cbn [SpecFloat.iter_pos].
  - assert (H1 : 0 <= shr_m (shr_1 mrs)).
    { rewrite shr_m_shr_1 by assumption. apply Z.div_pos; lia. }
    assert (H2 : 0 <= shr_m (SpecFloat.iter_pos shr_1 p (shr_1 mrs))).
    { rewrite IH by assumption. apply Z.div_pos; lia. }
    rewrite IH, IH, shr_m_shr_1 by assumption.
    rewrite !Z.div_div by lia.
    f_equal. rewrite (Pos2Z.inj_xI p).
    replace (2 * Zpos p + 1) with (1 + Zpos p + Zpos p) by lia.
    rewrite !Z.pow_add_r by lia. lia.
  - assert (H2 : 0 <= shr_m (SpecFloat.iter_pos shr_1 p mrs)).
    { rewrite IH by assumption. apply Z.div_pos; lia. }
    rewrite IH, IH by assumption.
    rewrite !Z.div_div by lia.
    f_equal. rewrite (Pos2Z.inj_xO p).
    replace (2 * Zpos p) with (Zpos p + Zpos p) by lia.
    rewrite !Z.pow_add_r by lia. lia.
  - rewrite shr_m_shr_1 by assumption. reflexivity.
Qed.

Lemma fexp_eq (e : Z) : fexp PyFloat.prec PyFloat.emax e = Z.max (e - 53) (-1074).
Proof. reflexivity. Qed.

Lemma shr_m_of_loc (m : Z) (l : location) : shr_m (shr_record_of_loc m l) = m.
Proof. destruct l as [|[]]; reflexivity. Qed.

Lemma round_nearest_even_range (m : Z) (l : location) :
  m <= round_nearest_even m l <= m + 1.
Proof. destruct l as [|[]]; cbn; try lia. destruct (Z.even m); lia. Qed.

Lemma shr_1_double (m : Z) :
  0 <= m ->
  shr_1 {| shr_m := 2 * m; shr_r := false; shr_s := false |}
  = {| shr_m := m; shr_r := false; shr_s := false |}.
Proof. destruct m; [reflexivity | reflexivity | lia]. Qed.

(** Shifting out zeros leaves no trace in the round and sticky bits. *)
Lemma iter_shr_exact (p : positive) (m : Z) :
  0 <= m ->
  SpecFloat.iter_pos shr_1 p {| shr_m := m * 2 ^ Zpos p; shr_r := false; shr_s := false |}
  = {| shr_m := m; shr_r := false; shr_s := false |}.
Proof.
  revert m. induction p as [p IH|p IH|]; intros m Hm; cbn [SpecFloat.iter_pos].
  - assert (Hp : 0 < 2 ^ Zpos p) by (apply Z.pow_pos_nonneg; lia).
    replace (m * 2 ^ Zpos p~1) with (2 * ((m * 2 ^ Zpos p) * 2 ^ Zpos p)).
    + rewrite shr_1_double by nia. rewrite IH by nia. apply IH. exact Hm.
    + rewrite (Pos2Z.inj_xI p).
      replace (2 * Zpos p + 1) with (1 + Zpos p + Zpos p) by lia.
      rewrite !Z.pow_add_r by lia. change (2 ^ 1) with 2. ring.
  - assert (Hp : 0 < 2 ^ Zpos p) by (apply Z.pow_pos_nonneg; lia).
    replace (m * 2 ^ Zpos p~0) with ((m * 2 ^ Zpos p) * 2 ^ Zpos p).
    + rewrite IH by nia. apply IH. exact Hm.
    + rewrite (Pos2Z.inj_xO p).
      replace (2 * Zpos p) with (Zpos p + Zpos p) by lia.
      rewrite !Z.pow_add_r by lia. ring.
  - change (2 ^ 1) with 2. rewrite Z.mul_comm. apply shr_1_double. exact Hm.
Qed.

Lemma shr_fexp_spec (mx ex : Z) (lx : location) :
  0 <= mx ->
  exists mrs,
    shr_fexp PyFloat.prec PyFloat.emax mx ex lx = (mrs, round_exp mx ex) /\
    shr_m mrs = mx / 2 ^ (round_exp mx ex - ex) /\
    (round_exp mx ex = ex -> mrs = shr_record_of_loc mx lx) /\
    (lx = loc_Exact -> mx mod 2 ^ (round_exp mx ex - ex) = 0 ->
     mrs = {| shr_m := mx / 2 ^ (round_exp mx ex - ex);
              shr_r := false; shr_s := false |}).
Proof.
  intros Hmx. unfold shr_fexp, shr, round_exp.
  destruct (fexp PyFloat.prec PyFloat.emax (Zdigits2 mx + ex) - ex) as [|p|p] eqn:Hn.
  - eexists. split; [f_equal; lia|].
    replace (Z.max _ _ - ex) with 0 by lia. rewrite Z.pow_0_r, Z.div_1_r.
    split; [apply shr_m_of_loc|]. split; [reflexivity|]. now intros -> _.
  - eexists. split; [f_equal; lia|].
    replace (Z.max _ _ - ex) with (Zpos p) by lia.
    split; [|split; [lia|]].
    + rewrite shr_m_iter_pos by (rewrite shr_m_of_loc; assumption).
      now rewrite shr_m_of_loc.
    + intros -> Hmod. cbn [shr_record_of_loc].
      assert (Hp : 0 < 2 ^ Zpos p) by (apply Z.pow_pos_nonneg; lia).
      pose proof (Z.div_mod mx (2 ^ Zpos p) ltac:(lia)) as Hdm.
      rewrite Hmod, Z.add_0_r, Z.mul_comm in Hdm.
      rewrite Hdm at 1. apply iter_shr_exact. apply Z.div_pos; lia.
  - eexists. split; [f_equal; lia|].
    replace (Z.max _ _ - ex) with 0 by lia. rewrite Z.pow_0_r, Z.div_1_r.
    split; [apply shr_m_of_loc|]. split; [reflexivity|]. now intros -> _.
Qed.

(** The possible outcomes of the final rounding step, for a non-negative
    mantissa: a zero, an infinity when the exponent is out of range, or a
    finite float with at most 53 digits. *)
Lemma binary_round_aux_cases (s : bool) (mx ex : Z) (lx : location) :
  0 <= mx ->
  exists m1,
    mx / 2 ^ (round_exp mx ex - ex) <= m1 <= mx / 2 ^ (round_exp mx ex - ex) + 1 /\
    (lx = loc_Exact -> round_exp mx ex = ex -> m1 = mx) /\
    (lx = loc_Exact -> mx mod 2 ^ (round_exp mx ex - ex) = 0 ->
     m1 = mx / 2 ^ (round_exp mx ex - ex)) /\
    match binary_round_aux PyFloat.prec PyFloat.emax s mx ex lx with
    | S754_zero s' => s' = s /\ m1 = 0
    | S754_finite s' m2 e2 =>
        s' = s /\ round_exp mx ex <= e2 /\ Zpos m2 * 2 ^ (e2 - round_exp mx ex) = m1 /\
        Zpos m2 < 2 ^ 53 /\ e2 <= 971
    | S754_infinity s' =>
        s' = s /\ (971 < round_exp mx ex \/ (round_exp mx ex = 971 /\ m1 = 2 ^ 53))
    | S754_nan => False
    end.
Proof.
  intros Hmx.
  destruct (shr_fexp_spec mx ex lx Hmx) as (mrs & Hshr & Hm & Hsame & Hdiv).
  set (E := round_exp mx ex) in *.
  assert (HE : ex <= E /\ Zdigits2 mx + ex - 53 <= E /\ -1074 <= E).
  { unfold E, round_exp. rewrite fexp_eq. lia. }
  set (m' := mx / 2 ^ (E - ex)) in *.
  assert (Hm' : 0 <= m' < 9007199254740992).
  { unfold m'. split; [apply Z.div_pos; lia|].
    apply Z.div_lt_upper_bound; [lia|].
    change 9007199254740992 with (2 ^ 53). rewrite <- Z.pow_add_r by lia.
    eapply Z.lt_le_trans; [apply Zdigits2_upper; assumption|].
    apply Z.pow_le_mono_r; [lia|]. pose proof (Zdigits2_nonneg mx). lia. }
  set (m1 := round_nearest_even (shr_m mrs) (loc_of_shr_record mrs)).
  assert (Hm1 : m' <= m1 <= m' + 1).
  { unfold m1. rewrite Hm. apply round_nearest_even_range. }
  exists m1. split; [exact Hm1|]. split; [|split].
  { intros -> HEex. unfold m1. rewrite (Hsame HEex). cbn. reflexivity. }
  { intros Hl Hmod. unfold m1. rewrite (Hdiv Hl Hmod). reflexivity. }
  unfold binary_round_aux. rewrite Hshr. fold m1.
  destruct (shr_fexp_spec m1 E loc_Exact ltac:(lia)) as (mrs2 & Hshr2 & Hm2 & _).
  rewrite Hshr2.
  change (PyFloat.emax - PyFloat.prec) with 971.
  change (2 ^ 53) with 9007199254740992.
  destruct (Z_lt_le_dec m1 9007199254740992) as [Hlt|Hge].
  - assert (Hd : Zdigits2 m1 <= 53) by (apply Zdigits2_le; [lia | lia | exact Hlt]).
    assert (HE2 : round_exp m1 E = E) by (unfold round_exp; rewrite fexp_eq; lia).
    rewrite HE2 in *. rewrite Z.sub_diag, Z.pow_0_r, Z.div_1_r in Hm2. rewrite Hm2.
    destruct m1 as [|p|p]; [split; reflexivity| |lia].
    destruct (Z.leb_spec E 971) as [Hle|Hgt].
    + split; [reflexivity|]. split; [lia|]. rewrite Z.sub_diag, Z.pow_0_r. lia.
    + split; [reflexivity | lia].
  - assert (Hm1eq : m1 = 9007199254740992) by lia.
    assert (HE2 : round_exp m1 E = E + 1).
    { unfold round_exp. rewrite fexp_eq, Hm1eq.
      change (Zdigits2 9007199254740992) with 54. lia. }
    rewrite HE2 in *. replace (E + 1 - E) with 1 in Hm2 by lia.
    rewrite Hm2, Hm1eq. change (9007199254740992 / 2 ^ 1) with 4503599627370496.
    cbv iota.
    destruct (Z.leb_spec (E + 1) 971) as [Hle|Hgt].
    + split; [reflexivity|]. split; [lia|].
      replace (E + 1 - E) with 1 by lia. split; [reflexivity | lia].
    + split; [reflexivity | lia].
Qed.

Lemma binary_round_aux_spec (s : bool) (mx ex : Z) (lx : location) :
  0 <= mx -> ex <= 900 -> Zdigits2 mx + ex <= 1000 ->
  exists m1,
    mx / 2 ^ (round_exp mx ex - ex) <= m1 <= mx / 2 ^ (round_exp mx ex - ex) + 1 /\
    (lx = loc_Exact -> round_exp mx ex = ex -> m1 = mx) /\
    match binary_round_aux PyFloat.prec PyFloat.emax s mx ex lx with
    | S754_zero s' => s' = s /\ m1 = 0
    | S754_finite s' m2 e2 =>
        s' = s /\ round_exp mx ex <= e2 /\ Zpos m2 * 2 ^ (e2 - round_exp mx ex) = m1
    | _ => False
    end.
Proof.
  intros Hmx Hex Hmag.
  destruct (binary_round_aux_cases s mx ex lx Hmx) as (m1 & Hm1 & Hexact & _ & Hv).
  exists m1. split; [exact Hm1|]. split; [exact Hexact|].
  assert (HE : round_exp mx ex <= 947) by (unfold round_exp; rewrite fexp_eq; lia).
  destruct (binary_round_aux PyFloat.prec PyFloat.emax s mx ex lx);
    [exact Hv | lia | exact Hv | intuition].
Qed.

(** *** The division step *)

Lemma new_location_exact (n r : Z) : new_location n r = loc_Exact -> r = 0%Z.
Proof.
  unfold new_location, new_location_even, new_location_odd.
  destruct (Z.even n); destruct (Z.eqb_spec r 0); congruence.
Qed.

Lemma SFdiv_core_spec (a b : positive) :
  exists q r e',
    SFdiv_core_binary PyFloat.prec PyFloat.emax (Zpos a) 0 (Zpos b) 0
      = (q, e', new_location (Zpos b) r) /\
    e' = Z.min (fexp PyFloat.prec PyFloat.emax
                  (Zpos (digits2_pos a) - Zpos (digits2_pos b))) 0 /\
    (Zpos a * 2 ^ (- e') = Zpos b * q + r)%Z /\ (0 <= r < Zpos b)%Z.
Proof.
  unfold SFdiv_core_binary. cbn [Zdigits2].
  rewrite !Z.add_0_r, Z.sub_diag.
  set (e' := Z.min _ 0). assert (He' : (e' <= 0)%Z) by (unfold e'; lia).
  set (m' := match (0 - e')%Z with
             | 0%Z => Zpos a
             | Zpos _ => Z.shiftl (Zpos a) (0 - e')
             | Zneg _ => 0%Z
             end).
  assert (Hm' : m' = (Zpos a * 2 ^ (- e'))%Z).
  { unfold m'. destruct (0 - e')%Z as [|p|p] eqn:Hs.
    - replace (- e')%Z with 0%Z by lia. lia.
    - rewrite Z.shiftl_mul_pow2 by lia. f_equal. f_equal. lia.
    - lia. }
  pose proof (Z_div_mod m' (Zpos b) ltac:(lia)) as Hdiv.
  destruct (Z.div_eucl m' (Zpos b)) as [q r].
  exists q, r, e'. rewrite <- Hm'. intuition.
Qed.

(** *** Results of the arithmetic are well formed *)

Lemma valid_well_formed (x : float) : PyFloat.valid x -> well_formed x.
Proof.
  destruct x as [| | |s m e]; cbn; try trivial. intros Hb.
  destruct (canonical_fexp m e Hb) as [Hc He]. rewrite fexp_eq in Hc.
  split; [|exact He].
  pose proof (digits2_pos_bounds m) as [_ Hhi].
  eapply Z.lt_le_trans; [exact Hhi|]. apply Z.pow_le_mono_r; lia.
Qed.

Lemma well_formed_round_aux (s : bool) (mx ex : Z) (lx : location) :
  0 <= mx -> well_formed (binary_round_aux PyFloat.prec PyFloat.emax s mx ex lx).
Proof.
  intros Hmx.
  destruct (binary_round_aux_cases s mx ex lx Hmx) as (m1 & _ & _ & _ & Hv).
  destruct (binary_round_aux PyFloat.prec PyFloat.emax s mx ex lx); cbn; try trivial.
  destruct Hv as (_ & _ & _ & Hm & He). split; assumption.
Qed.

Lemma well_formed_mul (x y : float) : well_formed (PyFloat.mul x y).
Proof.
  destruct x as [| | |sx mx ex]; destruct y as [| | |sy my ey]; cbn; try trivial.
  apply well_formed_round_aux. lia.
Qed.

Lemma SFdiv_core_nonneg (mx my : positive) (ex ey : Z) :
  0 <= (SFdiv_core_binary PyFloat.prec PyFloat.emax (Zpos mx) ex (Zpos my) ey).1.1.
Proof.
  unfold SFdiv_core_binary.
  set (e' := Z.min _ _). set (sh := ex - ey - e').
  set (m' := match sh with
             | 0 => Zpos mx
             | Zpos _ => Z.shiftl (Zpos mx) sh
             | Zneg _ => 0
             end).
  assert (Hm' : 0 <= m').
  { unfold m'. destruct sh; [lia | | lia]. apply Z.shiftl_nonneg. lia. }
  pose proof (Z_div_mod m' (Zpos my) ltac:(lia)) as Hdiv.
  destruct (Z.div_eucl m' (Zpos my)) as [q r]. cbn. nia.
Qed.

Lemma well_formed_div (x y : float) :
  well_formed (SFdiv PyFloat.prec PyFloat.emax x y).
Proof.
  destruct x as [| | |sx mx ex]; destruct y as [| | |sy my ey]; cbn [SFdiv well_formed];
    try trivial.
  pose proof (SFdiv_core_nonneg mx my ex ey) as Hq.
  destruct (SFdiv_core_binary PyFloat.prec PyFloat.emax (Zpos mx) ex (Zpos my) ey)
    as [[q e] l].
  apply well_formed_round_aux. exact Hq.
Qed.

Lemma well_formed_normalize (m e : Z) (szero : bool) :
  well_formed (binary_normalize PyFloat.prec PyFloat.emax m e szero).
Proof.
  destruct m as [|p|p]; cbn [binary_normalize well_formed]; try trivial;
    unfold binary_round; destruct (shl_align _ _ _) as [mz ez];
    apply well_formed_round_aux; lia.
Qed.

Lemma well_formed_add (x y : float) :
  well_formed x -> well_formed y -> well_formed (PyFloat.add x y).
Proof.
  intros Hx Hy.
  destruct x as [sx|sx| |sx mx ex]; destruct y as [sy|sy| |sy my ey];
    cbn [PyFloat.add SFadd]; try (destruct sx, sy); try trivial; try assumption;
    apply well_formed_normalize.
Qed.

(** *** Rounding a large float to two decimals *)

Lemma Zdigits2_shift (m k : Z) :
  0 < m -> 0 <= k -> Zdigits2 (m * 2 ^ k) = Zdigits2 m + k.
Proof.
  intros Hm Hk.
  assert (Hp : 0 < 2 ^ k) by (apply Z.pow_pos_nonneg; lia).
  pose proof (Zdigits2_lower m Hm) as Hlo.
  pose proof (Zdigits2_upper m ltac:(lia)) as Hhi.
  assert (Hd : 1 <= Zdigits2 m) by (destruct m; cbn in *; lia).
  apply Z.le_antisymm.
  - apply Zdigits2_le; [nia | lia |]. rewrite Z.pow_add_r by lia. nia.
  - pose proof (Zdigits2_upper (m * 2 ^ k) ltac:(nia)) as Hhi'.
    destruct (Z_le_gt_dec (Zdigits2 m + k) (Zdigits2 (m * 2 ^ k))) as [|Hgt];
      [assumption|exfalso].
    assert (2 ^ Zdigits2 (m * 2 ^ k) <= 2 ^ (Zdigits2 m - 1 + k)).
    { apply Z.pow_le_mono_r; [lia|]. lia. }
    rewrite Z.pow_add_r in H by lia. nia.
Qed.

(** A large float is an integer, and rounding it to two decimals returns
    it. *)
Lemma double_round_large (s : bool) (m : positive) (e : Z) :
  Zpos m < 2 ^ 53 -> 747 < e <= 971 ->
  exists c, PyFloat.double_round s m e 2 = Ok c.
Proof.
  intros Hm He. unfold PyFloat.double_round.
  change (10 ^ Z.max 2 0) with 100.
  change (10 ^ Z.max (Z.opp 2) 0) with 1.
  change (Z.to_pos 1) with 1%positive. change (Z.to_pos 100) with 100%positive.
  replace (Z.max e 0) with e by lia. replace (Z.max (- e) 0) with 0 by lia.
  change (2 ^ 0 * 1) with 1.
  set (M := Zpos m * 2 ^ e).
  assert (Hpe : 2 ^ 747 <= 2 ^ e) by (apply Z.pow_le_mono_r; lia).
  assert (HM : 2 ^ 747 <= M) by (unfold M; nia).
  assert (Hk : PyFloat.div_half_even (M * 100) 1 = M * 100).
  { unfold PyFloat.div_half_even. rewrite Z.div_1_r, Z.mod_1_r. reflexivity. }
  rewrite Hk.
  assert (H747 : 0 < 2 ^ 747) by (apply Z.pow_pos_nonneg; lia).
  destruct (M * 100) as [|p|p] eqn:Hp; [lia | | lia].
  rewrite Pos.mul_1_r. unfold PyFloat.of_ratio.
  destruct (SFdiv_core_spec p 100) as (q & r & e' & -> & He' & Hdiv & Hr).
  (* the division is exact at exponent 0 *)
  assert (Hdp : 748 <= Zpos (digits2_pos p)).
  { pose proof (digits2_pos_bounds p) as [_ Hhi].
    destruct (Z_le_gt_dec 748 (Zpos (digits2_pos p))) as [|Hgt]; [assumption|exfalso].
    assert (2 ^ Zpos (digits2_pos p) <= 2 ^ 747) by (apply Z.pow_le_mono_r; lia).
    lia. }
  change (Zpos (digits2_pos 100)) with 7 in He'. rewrite fexp_eq in He'.
  assert (He'0 : e' = 0) by lia. clear He'. subst e'.
  change (2 ^ (- 0)) with 1 in Hdiv.
  assert (Hq : q = M /\ r = 0) by lia. destruct Hq as [-> ->].
  change (new_location 100 0) with loc_Exact.
  (* and the quotient is representable *)
  set (dm := Zdigits2 (Zpos m)).
  assert (Hdm : 1 <= dm <= 53).
  { unfold dm. split; [cbn; lia|]. apply Zdigits2_le; [lia | lia | exact Hm]. }
  assert (HE : round_exp M 0 = dm + e - 53).
  { unfold round_exp, M. rewrite Zdigits2_shift by lia. fold dm. rewrite fexp_eq. lia. }
  assert (Hsplit : M = Zpos m * 2 ^ (53 - dm) * 2 ^ (dm + e - 53)).
  { unfold M. rewrite <- Z.mul_assoc, <- Z.pow_add_r by lia. f_equal. f_equal. lia. }
  assert (Hpow : 0 < 2 ^ (dm + e - 53)) by (apply Z.pow_pos_nonneg; lia).
  destruct (binary_round_aux_cases s M 0 loc_Exact ltac:(lia))
    as (m1 & _ & _ & Hexact & Hv).
  rewrite HE in Hexact, Hv. rewrite Z.sub_0_r in Hexact.
  assert (Hm1 : m1 = Zpos m * 2 ^ (53 - dm)).
  { rewrite (Hexact eq_refl).
    - rewrite Hsplit at 1. apply Z.div_mul. lia.
    - rewrite Hsplit at 1. apply Z.mod_mul. lia. }
  assert (Hm1lt : m1 < 2 ^ 53).
  { rewrite Hm1. pose proof (Zdigits2_upper (Zpos m) ltac:(lia)) as Hup. fold dm in Hup.
    replace 53 with (dm + (53 - dm)) at 2 by lia. rewrite Z.pow_add_r by lia.
    assert (0 < 2 ^ (53 - dm)) by (apply Z.pow_pos_nonneg; lia). nia. }
  destruct (binary_round_aux PyFloat.prec PyFloat.emax s M 0 loc_Exact) as [z|z| |z mz ez];
    try (eexists; reflexivity).
  destruct Hv as (_ & [Hgt|[_ Heq]]); lia.
Qed.

(** *** Rounding errors, over the reals *)

Section RoundingError.
Local Open Scope R_scope.

Lemma Rabs_le_between (a b : R) : Rabs a <= b -> - b <= a <= b.
Proof. unfold Rabs. destruct (Rcase_abs a); lra. Qed.

Lemma bpow_pos (e : Z) : 0 < bpow e.
Proof. apply powerRZ_lt. lra. Qed.

Lemma bpow_add (a b : Z) : bpow (a + b) = bpow a * bpow b.
Proof. apply powerRZ_add. lra. Qed.

Lemma bpow_IZR (n : Z) : (0 <= n)%Z -> bpow n = IZR (2 ^ n).
Proof.
  intros Hn. destruct n as [|p|p]; [reflexivity| |lia].
  unfold bpow. cbn [powerRZ]. rewrite pow_IZR. f_equal.
  now rewrite positive_nat_Z.
Qed.

Lemma bpow_le (a b : Z) : (a <= b)%Z -> bpow a <= bpow b.
Proof.
  intros H. replace b with (a + (b - a))%Z by lia. rewrite bpow_add.
  rewrite (bpow_IZR (b - a)) by lia.
  assert (1 <= IZR (2 ^ (b - a))).
  { apply IZR_le. pose proof (Z.pow_pos_nonneg 2 (b - a)). lia. }
  pose proof (bpow_pos a). nra.
Qed.


Lemma sign_R_abs (s : bool) (x : R) : Rabs (sign_R s * x) = Rabs x.
Proof.
  destruct s; cbn [sign_R].
  - replace (-1 * x) with (- x) by lra. apply Rabs_Ropp.
  - now rewrite Rmult_1_l.
Qed.

Lemma binary_round_aux_error (s : bool) (mx ex : Z) (lx : location) (Y : R) :
  (0 <= mx)%Z -> (ex <= 900)%Z -> (Zdigits2 mx + ex <= 1000)%Z ->
  IZR mx <= Y < IZR mx + 1 ->
  (lx = loc_Exact -> Y = IZR mx) ->
  let v := binary_round_aux PyFloat.prec PyFloat.emax s mx ex lx in
  is_finite v = true /\
  Rabs (F2R v - sign_R s * (Y * bpow ex)) <= bpow (round_exp mx ex) /\
  (lx = loc_Exact -> round_exp mx ex = ex -> F2R v = sign_R s * (Y * bpow ex)).
Proof.
  intros Hmx Hex Hmag HY Hexact v.
  destruct (binary_round_aux_spec s mx ex lx Hmx Hex Hmag) as (m1 & Hm1 & Hm1x & Hv).
  fold v in Hv. set (E := round_exp mx ex) in *.
  assert (HE : (ex <= E)%Z) by (unfold E, round_exp; lia).
  assert (HF : F2R v = sign_R s * (IZR m1 * bpow E) /\ is_finite v = true).
  { destruct v as [s'|s'| |s' m2 e2]; try contradiction.
    - destruct Hv as [-> ->]. cbn. split; [lra|reflexivity].
    - destruct Hv as (-> & He2 & <-). cbn [F2R is_finite]. split; [|reflexivity].
      rewrite mult_IZR, <- bpow_IZR by lia.
      replace (bpow e2) with (bpow (e2 - E) * bpow E); [lra|].
      rewrite <- bpow_add. f_equal. lia. }
  destruct HF as [HF Hfin]. split; [exact Hfin|].
  set (n := (E - ex)%Z) in *.
  assert (HP : bpow E = IZR (2 ^ n) * bpow ex).
  { rewrite <- bpow_IZR, <- bpow_add by lia. f_equal. lia. }
  assert (Hpow : (0 < 2 ^ n)%Z) by (apply Z.pow_pos_nonneg; lia).
  assert (Hlo : (mx / 2 ^ n * 2 ^ n <= mx)%Z).
  { rewrite Z.mul_comm. apply Z.mul_div_le. lia. }
  assert (Hhi : (mx + 1 <= (mx / 2 ^ n + 1) * 2 ^ n)%Z).
  { pose proof (Z.mul_succ_div_gt mx (2 ^ n) Hpow). lia. }
  apply IZR_le in Hlo, Hhi. rewrite mult_IZR in Hlo. rewrite mult_IZR, !plus_IZR in Hhi.
  destruct Hm1 as [Hm1a Hm1b]. apply IZR_le in Hm1a, Hm1b. rewrite plus_IZR in Hm1b.
  apply IZR_lt in Hpow.
  pose proof (bpow_pos ex) as Hbex.
  set (P := IZR (2 ^ n)) in *. set (q := IZR (mx / 2 ^ n)) in *.
  split.
  - rewrite HF, <- Rmult_minus_distr_l, sign_R_abs, HP.
    replace (IZR m1 * (P * bpow ex) - Y * bpow ex) with ((IZR m1 * P - Y) * bpow ex) by lra.
    rewrite Rabs_mult, (Rabs_pos_eq (bpow ex)) by lra.
    apply Rmult_le_compat_r; [lra|].
    apply Rabs_le. split; nra.
  - intros Hl HEex. rewrite HF, (Hm1x Hl HEex), (Hexact Hl), HEex. reflexivity.
Qed.

Lemma bpow_lt (a b : Z) : (a < b)%Z -> bpow a < bpow b.
Proof.
  intros H. replace b with (a + (b - a))%Z by lia. rewrite bpow_add.
  rewrite (bpow_IZR (b - a)) by lia.
  assert (2 <= IZR (2 ^ (b - a))).
  { apply IZR_le. replace (b - a)%Z with (Z.succ (b - a - 1)) by lia.
    rewrite Z.pow_succ_r by lia.
    pose proof (Z.pow_pos_nonneg 2 (b - a - 1)). lia. }
  pose proof (bpow_pos a). nra.
Qed.

Lemma bpow_le_inv (a b : Z) : bpow a <= bpow b -> (a <= b)%Z.
Proof.
  intros H. destruct (Z_le_gt_dec a b) as [|Hgt]; [assumption|].
  assert (bpow b < bpow a) by (apply bpow_lt; lia). lra.
Qed.

(** The rounding exponent is at most one unit in the last place of the
    value, or the exponent of the smallest subnormal. *)
Lemma round_exp_ulp (mx ex : Z) :
  (0 < mx)%Z -> (ex < round_exp mx ex)%Z ->
  bpow (round_exp mx ex) <= bpow (-52) * (IZR mx * bpow ex) + bpow (-1074).
Proof.
  intros Hmx Hlt. unfold round_exp in *. rewrite fexp_eq in *.
  pose proof (bpow_pos (-1074)). pose proof (bpow_pos (-52)). pose proof (bpow_pos ex).
  assert (0 < IZR mx) by (apply IZR_lt; lia).
  assert (0 < IZR mx * bpow ex) by (apply Rmult_lt_0_compat; lra).
  assert (0 < bpow (-52) * (IZR mx * bpow ex)) by (apply Rmult_lt_0_compat; lra).
  destruct (Z_le_gt_dec (Zdigits2 mx + ex - 53) (-1074)) as [Hsub|Hnorm].
  - replace (Z.max ex (Z.max (Zdigits2 mx + ex - 53) (-1074))) with (-1074)%Z by lia.
    lra.
  - replace (Z.max ex (Z.max (Zdigits2 mx + ex - 53) (-1074)))
      with (-52 + ((Zdigits2 mx - 1) + ex))%Z by lia.
    rewrite !bpow_add.
    assert (Hlow : bpow (Zdigits2 mx - 1) <= IZR mx).
    { pose proof (Zdigits2_lower mx Hmx) as Hl.
      assert (1 <= Zdigits2 mx)%Z by (destruct mx; cbn in *; lia).
      rewrite bpow_IZR by lia. now apply IZR_le. }
    assert (bpow (Zdigits2 mx - 1) * bpow ex <= IZR mx * bpow ex) by nra.
    nra.
Qed.

Lemma round_exact_error (s : bool) (mx ex : Z) :
  (0 < mx)%Z -> (ex <= 900)%Z -> (Zdigits2 mx + ex <= 1000)%Z ->
  let v := binary_round_aux PyFloat.prec PyFloat.emax s mx ex loc_Exact in
  is_finite v = true /\
  Rabs (F2R v - sign_R s * (IZR mx * bpow ex))
    <= bpow (-52) * (IZR mx * bpow ex) + bpow (-1074).
Proof.
  intros Hmx Hex Hmag v.
  destruct (binary_round_aux_error s mx ex loc_Exact (IZR mx))
    as (Hfin & Herr & Hexact); [lia | lia | lia | lra | reflexivity |].
  fold v in Hfin, Herr, Hexact. split; [exact Hfin|].
  pose proof (bpow_pos (-1074)). pose proof (bpow_pos (-52)). pose proof (bpow_pos ex).
  assert (0 < IZR mx) by (apply IZR_lt; lia).
  assert (0 < IZR mx * bpow ex) by (apply Rmult_lt_0_compat; lra).
  assert (0 < bpow (-52) * (IZR mx * bpow ex)) by (apply Rmult_lt_0_compat; lra).
  destruct (Z.eq_dec (round_exp mx ex) ex) as [Heq|Hne].
  - rewrite (Hexact eq_refl Heq). rewrite Rminus_diag, Rabs_R0.
    lra.
  - eapply Rle_trans; [exact Herr|]. apply round_exp_ulp; [lia|].
    unfold round_exp in *. lia.
Qed.

Lemma sign_R_xorb (a b : bool) : sign_R (xorb a b) = sign_R a * sign_R b.
Proof. destruct a, b; cbn; lra. Qed.

Lemma F2R_abs (s : bool) (m : positive) (e : Z) :
  Rabs (F2R (S754_finite s m e)) = IZR (Zpos m) * bpow e.
Proof.
  cbn [F2R]. rewrite Rmult_assoc, sign_R_abs. apply Rabs_pos_eq.
  pose proof (bpow_pos e). assert (0 < IZR (Zpos m)) by (apply IZR_lt; lia). nra.
Qed.

Lemma F2R_mag (m : positive) (e : Z) :
  bpow (Zpos (digits2_pos m) + e - 1) <= IZR (Zpos m) * bpow e
  < bpow (Zpos (digits2_pos m) + e).
Proof.
  pose proof (digits2_pos_bounds m) as [Hlo Hhi].
  pose proof (bpow_pos e).
  replace (Zpos (digits2_pos m) + e - 1)%Z with ((Zpos (digits2_pos m) - 1) + e)%Z by lia.
  rewrite !bpow_add.
  rewrite (bpow_IZR (Zpos (digits2_pos m) - 1)), (bpow_IZR (Zpos (digits2_pos m))) by lia.
  apply IZR_le in Hlo. apply IZR_lt in Hhi. split.
  - apply Rmult_le_compat_r; lra.
  - apply Rmult_lt_compat_r; lra.
Qed.

(** A float of magnitude at most [2^k] has [digits + exponent <= k + 1]. *)
Lemma mag_le (s : bool) (m : positive) (e k : Z) :
  Rabs (F2R (S754_finite s m e)) <= bpow k ->
  (Zpos (digits2_pos m) + e <= k + 1)%Z /\ (e <= k)%Z.
Proof.
  rewrite F2R_abs. intros H. pose proof (F2R_mag m e) as [Hlo _].
  assert (Hk : (Zpos (digits2_pos m) + e - 1 <= k)%Z) by (apply bpow_le_inv; lra).
  split; lia.
Qed.

Lemma Zdigits2_mul (a b : positive) :
  (Zdigits2 (Zpos (a * b)) <= Zpos (digits2_pos a) + Zpos (digits2_pos b))%Z.
Proof.
  apply Zdigits2_le; [lia | lia |].
  rewrite Z.pow_add_r by lia.
  pose proof (digits2_pos_bounds a). pose proof (digits2_pos_bounds b).
  rewrite Pos2Z.inj_mul. nia.
Qed.

Lemma mul_error (x y : float) (kx ky : Z) :
  is_finite x = true -> is_finite y = true ->
  Rabs (F2R x) <= bpow kx -> Rabs (F2R y) <= bpow ky -> (kx + ky <= 890)%Z ->
  is_finite (PyFloat.mul x y) = true /\
  Rabs (F2R (PyFloat.mul x y) - F2R x * F2R y)
    <= bpow (-52) * Rabs (F2R x * F2R y) + bpow (-1074).
Proof.
  intros Hx Hy Hkx Hky Hk.
  pose proof (bpow_pos (-1074)). pose proof (bpow_pos (-52)).
  assert (Hzero : forall a b : R, a * b = 0 ->
            Rabs (0 - a * b) <= bpow (-52) * Rabs (a * b) + bpow (-1074)).
  { intros a b ->. rewrite Rminus_diag, Rabs_R0. lra. }
  destruct x as [sx|sx| |sx mx ex]; try discriminate;
    destruct y as [sy|sy| |sy my ey]; try discriminate;
    try (split; [reflexivity | cbn [PyFloat.mul SFmul F2R]; apply Hzero; lra]).
  apply mag_le in Hkx as [Hmx Hex]. apply mag_le in Hky as [Hmy Hey].
  pose proof (Zdigits2_mul mx my) as Hd.
  destruct (round_exact_error (xorb sx sy) (Zpos (mx * my)) (ex + ey))
    as (Hfin & Herr); [lia | lia | lia |].
  split; [exact Hfin|].
  assert (Hprod : F2R (S754_finite sx mx ex) * F2R (S754_finite sy my ey)
                  = sign_R (xorb sx sy) * (IZR (Zpos (mx * my)) * bpow (ex + ey))).
  { cbn [F2R]. rewrite sign_R_xorb, Pos2Z.inj_mul, mult_IZR, bpow_add. ring. }
  rewrite Hprod, sign_R_abs,
    (Rabs_pos_eq (IZR (Zpos (mx * my)) * bpow (ex + ey))).
  - exact Herr.
  - pose proof (bpow_pos (ex + ey)).
    assert (0 < IZR (Zpos (mx * my))) by (apply IZR_lt; lia). nra.
Qed.

Lemma of_ratio_error (s : bool) (a b : positive) :
  (Zpos a <= Zpos b * 2 ^ 900)%Z ->
  is_finite (PyFloat.of_ratio s a b) = true /\
  Rabs (F2R (PyFloat.of_ratio s a b) - sign_R s * (IZR (Zpos a) / IZR (Zpos b)))
    <= bpow (-52) * (IZR (Zpos a) / IZR (Zpos b)) + bpow (-1074).
Proof.
  intros Hab. unfold PyFloat.of_ratio.
  destruct (SFdiv_core_spec a b) as (q & r & e' & -> & He' & Hdiv & Hr).
  set (da := Zpos (digits2_pos a)) in *. set (db := Zpos (digits2_pos b)) in *.
  rewrite fexp_eq in He'.
  assert (He'0 : (e' <= 0)%Z) by lia.
  assert (Hpow : (0 < 2 ^ (- e'))%Z) by (apply Z.pow_pos_nonneg; lia).
  assert (Hq : (0 <= q)%Z) by nia.
  assert (Ha : 0 < IZR (Zpos a)) by (apply IZR_lt; lia).
  assert (Hb : 0 < IZR (Zpos b)) by (apply IZR_lt; lia).
  pose proof (bpow_pos e') as Hbe. pose proof (bpow_pos (-52)) as Hb52.
  pose proof (bpow_pos (-1074)) as Hbmin.
  set (A := IZR (Zpos a)) in *. set (B := IZR (Zpos b)) in *.
  assert (Hinv : bpow (- e') * bpow e' = 1).
  { rewrite <- bpow_add. replace (- e' + e')%Z with 0%Z by lia. reflexivity. }
  (* the exact quotient, in units of [2^e'] *)
  set (Y := A * bpow (- e') / B).
  assert (HYe : Y * bpow e' = A / B).
  { unfold Y. field_simplify; [|lra|lra].
    replace (A * bpow (- e') * bpow e') with (A * (bpow (- e') * bpow e')) by ring.
    rewrite Hinv. field. lra. }
  assert (HdivR : A * bpow (- e') = B * IZR q + IZR r).
  { unfold A, B. rewrite bpow_IZR by lia.
    rewrite <- mult_IZR, Hdiv, plus_IZR, mult_IZR. reflexivity. }
  assert (HrR : 0 <= IZR r < B).
  { destruct Hr as [Hr0 Hr1]. apply IZR_le in Hr0. apply IZR_lt in Hr1.
    fold B in Hr1. lra. }
  assert (HY : IZR q <= Y < IZR q + 1).
  { unfold Y. rewrite HdivR. split.
    - apply Rmult_le_reg_r with B; [lra|]. field_simplify; [|lra]. lra.
    - apply Rmult_lt_reg_r with B; [lra|]. field_simplify; [|lra]. lra. }
  assert (Hdq : (Zdigits2 q + e' <= 1000)%Z).
  { assert (Zdigits2 q <= 901 - e')%Z; [|lia].
    apply Zdigits2_le; [lia | lia |].
    replace (901 - e')%Z with (1 + 900 + - e')%Z by lia.
    rewrite !Z.pow_add_r by lia.
    set (K := (2 ^ 900)%Z) in *. set (P := (2 ^ (- e'))%Z) in *.
    assert (HK : (0 < K)%Z) by (apply Z.pow_pos_nonneg; lia).
    assert (H1 : (Zpos a * P <= Zpos b * K * P)%Z)
      by (apply Z.mul_le_mono_nonneg_r; lia).
    assert (H2 : (Zpos b * q <= Zpos b * (K * P))%Z) by lia.
    apply Z.mul_le_mono_pos_l in H2; [|lia].
    assert (0 < K * P)%Z by (apply Z.mul_pos_pos; lia).
    change (2 ^ 1)%Z with 2%Z. lia. }
  destruct (binary_round_aux_error s q e' (new_location (Zpos b) r) Y)
    as (Hfin & Herr & _); [lia | lia | lia | exact HY | |].
  { intros Hl. apply new_location_exact in Hl. subst r.
    unfold Y. rewrite HdivR. field. lra. }
  split; [exact Hfin|].
  rewrite HYe in Herr. eapply Rle_trans; [exact Herr|].
  assert (HAB : 0 < A / B) by (apply Rdiv_lt_0_compat; lra).
  destruct (Z_lt_le_dec e' (round_exp q e')) as [Hlt|Hge].
  - (* the quotient was shifted: one unit in the last place of [q] *)
    assert (Hqpos : (0 < q)%Z).
    { destruct (Z.eq_dec q 0) as [->|]; [|lia].
      unfold round_exp in Hlt. rewrite fexp_eq in Hlt. cbn [Zdigits2] in Hlt. lia. }
    eapply Rle_trans; [apply round_exp_ulp; assumption|].
    assert (IZR q * bpow e' <= A / B).
    { rewrite <- HYe. apply Rmult_le_compat_r; lra. }
    nra.
  - (* no shift: the exponent chosen by the division *)
    assert (HE : round_exp q e' = e') by (unfold round_exp in *; lia).
    rewrite HE.
    destruct (Z_le_gt_dec (da - db - 53) (-1074)) as [Hsub|Hnorm].
    + assert (bpow e' <= bpow (-1074)) by (apply bpow_le; lia).
      assert (0 < bpow (-52) * (A / B)) by (apply Rmult_lt_0_compat; lra). lra.
    + assert (Hle : bpow e' <= bpow (-52 + ((da - 1) + - db))) by (apply bpow_le; lia).
      rewrite !bpow_add in Hle.
      pose proof (F2R_mag a 0) as [HaL _]. pose proof (F2R_mag b 0) as [_ HbU].
      change (bpow 0) with 1 in *. rewrite Rmult_1_r, Z.add_0_r in *.
      fold da in HaL. fold db in HbU. fold A in HaL. fold B in HbU.
      replace (da + 0 - 1)%Z with (da - 1)%Z in HaL by lia.
      assert (Hdb : bpow (- db) * bpow db = 1).
      { rewrite <- bpow_add. replace (- db + db)%Z with 0%Z by lia. reflexivity. }
      pose proof (bpow_pos (- db)). pose proof (bpow_pos db). pose proof (bpow_pos (da - 1)).
      assert (bpow (da - 1) * bpow (- db) <= A / B).
      { apply Rmult_le_reg_r with B; [lra|].
        replace (A / B * B) with A by (field; lra).
        assert (bpow (- db) * B <= 1) by nra. nra. }
      nra.
Qed.

Lemma div_half_even_error (n d : Z) :
  (0 <= n)%Z -> (0 < d)%Z ->
  (0 <= PyFloat.div_half_even n d)%Z /\
  Rabs (IZR (PyFloat.div_half_even n d) - IZR n / IZR d) <= 1 / 2.
Proof.
  intros Hn Hd. unfold PyFloat.div_half_even.
  pose proof (Z.div_mod n d ltac:(lia)) as Hdm.
  pose proof (Z.mod_pos_bound n d Hd) as Hr.
  pose proof (Z.div_pos n d Hn Hd) as Hq.
  set (q := (n / d)%Z) in *. set (r := (n mod d)%Z) in *.
  assert (HnR : IZR n = IZR d * IZR q + IZR r).
  { rewrite Hdm, plus_IZR, mult_IZR. reflexivity. }
  assert (HdR : 0 < IZR d) by (apply IZR_lt; lia).
  assert (Hkey : forall k : Z,
            (- d <= 2 * (k * d - n) <= d)%Z -> Rabs (IZR k - IZR n / IZR d) <= 1 / 2).
  { intros k [H1 H2]. apply IZR_le in H1, H2.
    rewrite opp_IZR in H1. rewrite mult_IZR, minus_IZR, mult_IZR in H1, H2.
    apply Rabs_le. split.
    - apply Rmult_le_reg_r with (IZR d); [lra|]. field_simplify; [|lra]. lra.
    - apply Rmult_le_reg_r with (IZR d); [lra|]. field_simplify; [|lra]. lra. }
  destruct (Z.compare_spec (2 * r) d) as [Heq|Hlt|Hgt].
  - destruct (Z.even q); (split; [lia | apply Hkey; nia]).
  - split; [lia | apply Hkey; nia].
  - split; [lia | apply Hkey; nia].
Qed.

Lemma scaled_value (m : positive) (e : Z) :
  IZR (Zpos m * 2 ^ Z.max e 0 * 100) / IZR (2 ^ Z.max (- e) 0 * 1)
  = 100 * (IZR (Zpos m) * bpow e).
Proof.
  rewrite !mult_IZR, <- !bpow_IZR by lia.
  pose proof (bpow_pos (Z.max (- e) 0)).
  replace (bpow e) with (bpow (Z.max e 0) / bpow (Z.max (- e) 0)).
  - field. lra.
  - apply Rmult_eq_reg_r with (bpow (Z.max (- e) 0)); [|lra].
    replace (bpow (Z.max e 0) / bpow (Z.max (- e) 0) * bpow (Z.max (- e) 0))
      with (bpow (Z.max e 0)) by (field; lra).
    rewrite <- bpow_add. f_equal. lia.
Qed.

(** [round(x, 2)] on a finite float of moderate size returns a finite float
    within half a cent of [x], up to the final conversion to binary. *)
Lemma round2_error (x : float) (kx : Z) :
  is_finite x = true -> Rabs (F2R x) <= bpow kx -> (kx <= 800)%Z ->
  exists c,
    PyFloat.round x 2 = Ok c /\ is_finite c = true /\
    Rabs (F2R c - F2R x)
      <= 1 / 200 + bpow (-52) * (Rabs (F2R x) + 1 / 200) + bpow (-1074).
Proof.
  intros Hfin Hx Hkx.
  pose proof (bpow_pos (-52)) as Hb52. pose proof (bpow_pos (-1074)) as Hbmin.
  destruct x as [s|s| |s m e]; try discriminate.
  { exists (S754_zero s). split; [reflexivity|]. split; [reflexivity|].
    cbn [F2R]. rewrite Rminus_diag, Rabs_R0. lra. }
  rewrite F2R_abs in *. cbn [PyFloat.round].
  change (2 >? PyFloat.NDIGITS_MAX)%Z with false.
  change (2 <? PyFloat.NDIGITS_MIN)%Z with false. cbv iota.
  unfold PyFloat.double_round.
  change (10 ^ Z.max 2 0)%Z with 100%Z.
  change (10 ^ Z.max (Z.opp 2) 0)%Z with 1%Z.
  change (Z.to_pos 1) with 1%positive. change (Z.to_pos 100) with 100%positive.
  set (num := (Zpos m * 2 ^ Z.max e 0 * 100)%Z).
  set (den := (2 ^ Z.max (- e) 0 * 1)%Z).
  assert (Hnum : (0 <= num)%Z).
  { unfold num. pose proof (Z.pow_pos_nonneg 2 (Z.max e 0)). nia. }
  assert (Hden : (0 < den)%Z).
  { unfold den. pose proof (Z.pow_pos_nonneg 2 (Z.max (- e) 0)). lia. }
  destruct (div_half_even_error num den Hnum Hden) as [Hk0 Hk].
  assert (Hsv : IZR num / IZR den = 100 * (IZR (Zpos m) * bpow e))
    by apply scaled_value.
  rewrite Hsv in Hk.
  set (k := PyFloat.div_half_even num den) in *.
  set (X := IZR (Zpos m) * bpow e) in *.
  assert (HX : 0 < X).
  { unfold X. pose proof (bpow_pos e).
    assert (0 < IZR (Zpos m)) by (apply IZR_lt; lia). nra. }
  apply Rabs_le_between in Hk as [Hk1 Hk2].
  assert (HF : F2R (S754_finite s m e) = sign_R s * X).
  { cbn [F2R]. unfold X. ring. }
  destruct k as [|p|p] eqn:Hkeq; [| |lia].
  - (* the decimal string is zero *)
    exists (S754_zero s). split; [reflexivity|]. split; [reflexivity|].
    rewrite HF. cbn [F2R]. rewrite Rminus_0_l, Rabs_Ropp, sign_R_abs, Rabs_pos_eq by lra.
    assert (0 < bpow (-52) * (X + 1 / 200)) by (apply Rmult_lt_0_compat; lra). lra.
  - rewrite Pos.mul_1_r.
    assert (Hp : (Zpos p <= 100 * 2 ^ 900)%Z).
    { assert (Hb : bpow kx <= bpow 800) by (apply bpow_le; lia).
      rewrite (bpow_IZR 800) in Hb by lia.
      set (K := (2 ^ 800)%Z) in *.
      assert (HK : (0 < K)%Z) by (apply Z.pow_pos_nonneg; lia).
      assert (IZR (Zpos p) < IZR (100 * K + 1)).
      { rewrite plus_IZR, mult_IZR. lra. }
      apply lt_IZR in H.
      assert (K <= 2 ^ 900)%Z by (apply Z.pow_le_mono_r; lia). lia. }
    destruct (of_ratio_error s p 100 Hp) as (Hcfin & Hcerr).
    set (c := PyFloat.of_ratio s p 100) in *.
    assert (Hinf : PyFloat.is_inf c = false) by (destruct c; try discriminate; reflexivity).
    rewrite Hinf. exists c. split; [reflexivity|]. split; [exact Hcfin|].
    rewrite HF.
    replace (F2R c - sign_R s * X)
      with ((F2R c - sign_R s * (IZR (Zpos p) / 100))
            + sign_R s * (IZR (Zpos p) / 100 - X)) by lra.
    eapply Rle_trans; [apply Rabs_triang|].
    rewrite sign_R_abs.
    assert (Rabs (IZR (Zpos p) / 100 - X) <= 1 / 200) by (apply Rabs_le; lra).
    assert (bpow (-52) * (IZR (Zpos p) / 100) <= bpow (-52) * (X + 1 / 200))
      by (apply Rmult_le_compat_l; lra).
    lra.
Qed.

(** [round(x, 2)] never raises on a float the arithmetic has produced. *)
Lemma round2_total (x : float) :
  well_formed x -> exists c, PyFloat.round x 2 = Ok c.
Proof.
  destruct x as [s|s| |s m e]; try (intros _; eexists; reflexivity).
  intros [Hm He]. destruct (Z_le_gt_dec e 747) as [Hsmall|Hlarge].
  - destruct (round2_error (S754_finite s m e) 800) as (c & Hc & _); [reflexivity | | lia |].
    + rewrite F2R_abs. change 800%Z with (53 + 747)%Z. rewrite bpow_add.
      assert (IZR (Zpos m) <= bpow 53).
      { rewrite bpow_IZR by lia. apply IZR_le. lia. }
      assert (bpow e <= bpow 747) by (apply bpow_le; lia).
      pose proof (bpow_pos e). assert (0 < IZR (Zpos m)) by (apply IZR_lt; lia).
      apply Rmult_le_compat; lra.
    + exists c. exact Hc.
  - cbn [PyFloat.round].
    change (2 >? PyFloat.NDIGITS_MAX)%Z with false.
    change (2 <? PyFloat.NDIGITS_MIN)%Z with false. cbv iota.
    apply double_round_large; [exact Hm | lia].
Qed.

(** Integer true division: when the quotient is of moderate size the result
    is the quotient itself, up to one rounding to binary64. *)
Lemma int_truediv_error (a b : Z) :
  a <> 0%Z -> b <> 0%Z -> (Z.abs a <= Z.abs b * 2 ^ 900)%Z ->
  exists q,
    PyFloat.int_truediv a b = Ok q /\ is_finite q = true /\
    Rabs (F2R q - IZR a / IZR b)
      <= bpow (-52) * Rabs (IZR a / IZR b) + bpow (-1074).
Proof.
  intros Ha Hb Hab.
  set (s := xorb (a <? 0)%Z (b <? 0)%Z).
  set (pa := Z.to_pos (Z.abs a)). set (pb := Z.to_pos (Z.abs b)).
  assert (Hpa : Zpos pa = Z.abs a) by (unfold pa; lia).
  assert (Hpb : Zpos pb = Z.abs b) by (unfold pb; lia).
  assert (HpaR : 0 < IZR (Zpos pa)) by (apply IZR_lt; lia).
  assert (HpbR : 0 < IZR (Zpos pb)) by (apply IZR_lt; lia).
  assert (Hsign : forall z : Z, IZR z = sign_R (z <? 0)%Z * IZR (Z.abs z)).
  { intros [|z|z]; cbn [Z.ltb Z.compare sign_R]; unfold Z.abs; [lra | lra |].
    change (Zneg z) with (- Zpos z)%Z. rewrite opp_IZR. lra. }
  assert (Hquot : IZR a / IZR b = sign_R s * (IZR (Zpos pa) / IZR (Zpos pb))).
  { rewrite (Hsign a), (Hsign b), Hpa, Hpb. rewrite <- Hpa, <- Hpb. unfold s.
    destruct (a <? 0)%Z, (b <? 0)%Z; cbn [sign_R xorb]; field; lra. }
  destruct (of_ratio_error s pa pb) as (Hfin & Herr);
    [rewrite Hpa, Hpb; exact Hab|].
  exists (PyFloat.of_ratio s pa pb). split; [|split; [exact Hfin|]].
  - unfold PyFloat.int_truediv. fold s pa pb.
    assert (Hinf : PyFloat.is_inf (PyFloat.of_ratio s pa pb) = false)
      by (destruct (PyFloat.of_ratio s pa pb); try discriminate; reflexivity).
    clear Hab Hquot Herr Hsign Hfin.
    destruct a as [|a'|a']; [exfalso; now apply Ha| |];
      (destruct b as [|b'|b']; [exfalso; now apply Hb| |]);
      rewrite Hinf; reflexivity.
  - rewrite Hquot, sign_R_abs, (Rabs_pos_eq (IZR (Zpos pa) / IZR (Zpos pb)));
      [exact Herr|].
    apply Rlt_le, Rdiv_lt_0_compat; assumption.
Qed.

End RoundingError.

(** *** Quotients in the normal range *)

Section RelativeError.
Local Open Scope R_scope.

(** A quotient in the normal range is rounded with a relative error of at
    most [2^-52]. *)
Lemma of_ratio_relative_error (s : bool) (a b : positive) :
  (Zpos b <= Zpos a * 2 ^ 1022)%Z -> (Zpos a <= Zpos b * 2 ^ 900)%Z ->
  Rabs (F2R (PyFloat.of_ratio s a b) - sign_R s * (IZR (Zpos a) / IZR (Zpos b)))
    <= bpow (-52) * (IZR (Zpos a) / IZR (Zpos b)).
Proof.
  intros Hlow Hab. unfold PyFloat.of_ratio.
  destruct (SFdiv_core_spec a b) as (q & r & e' & -> & He' & Hdiv & Hr).
  set (da := Zpos (digits2_pos a)) in *. set (db := Zpos (digits2_pos b)) in *.
  rewrite fexp_eq in He'.
  assert (He'0 : (e' <= 0)%Z) by lia.
  assert (Hpow : (0 < 2 ^ (- e'))%Z) by (apply Z.pow_pos_nonneg; lia).
  assert (Hq : (0 <= q)%Z) by nia.
  assert (Ha : 0 < IZR (Zpos a)) by (apply IZR_lt; lia).
  assert (Hb : 0 < IZR (Zpos b)) by (apply IZR_lt; lia).
  pose proof (bpow_pos e') as Hbe. pose proof (bpow_pos (-52)) as Hb52.
  (* the quotient is in the normal range *)
  assert (Hnorm : bpow (-1022) <= IZR (Zpos a) / IZR (Zpos b)).
  { apply IZR_le in Hlow. rewrite mult_IZR, <- (bpow_IZR 1022) in Hlow by lia.
    assert (Hinv : bpow (-1022) * bpow 1022 = 1).
    { rewrite <- bpow_add. reflexivity. }
    pose proof (bpow_pos 1022). pose proof (bpow_pos (-1022)).
    apply Rmult_le_reg_r with (IZR (Zpos b)); [lra|].
    replace (IZR (Zpos a) / IZR (Zpos b) * IZR (Zpos b)) with (IZR (Zpos a)) by (field; lra).
    apply Rmult_le_reg_r with (bpow 1022); [lra|]. nra. }
  set (A := IZR (Zpos a)) in *. set (B := IZR (Zpos b)) in *.
  assert (Hinv : bpow (- e') * bpow e' = 1).
  { rewrite <- bpow_add. replace (- e' + e')%Z with 0%Z by lia. reflexivity. }
  set (Y := A * bpow (- e') / B).
  assert (HYe : Y * bpow e' = A / B).
  { unfold Y. field_simplify; [|lra|lra].
    replace (A * bpow (- e') * bpow e') with (A * (bpow (- e') * bpow e')) by ring.
    rewrite Hinv. field. lra. }
  assert (HdivR : A * bpow (- e') = B * IZR q + IZR r).
  { unfold A, B. rewrite bpow_IZR by lia.
    rewrite <- mult_IZR, Hdiv, plus_IZR, mult_IZR. reflexivity. }
  assert (HrR : 0 <= IZR r < B).
  { destruct Hr as [Hr0 Hr1]. apply IZR_le in Hr0. apply IZR_lt in Hr1.
    fold B in Hr1. lra. }
  assert (HY : IZR q <= Y < IZR q + 1).
  { unfold Y. rewrite HdivR. split.
    - apply Rmult_le_reg_r with B; [lra|]. field_simplify; [|lra]. lra.
    - apply Rmult_lt_reg_r with B; [lra|]. field_simplify; [|lra]. lra. }
  assert (Hdq : (Zdigits2 q + e' <= 1000)%Z).
  { assert (Zdigits2 q <= 901 - e')%Z; [|lia].
    apply Zdigits2_le; [lia | lia |].
    replace (901 - e')%Z with (1 + 900 + - e')%Z by lia.
    rewrite !Z.pow_add_r by lia.
    clear Hlow.
    set (K := (2 ^ 900)%Z) in *. set (P := (2 ^ (- e'))%Z) in *.
    assert (HK : (0 < K)%Z) by (apply Z.pow_pos_nonneg; lia).
    assert (H1 : (Zpos a * P <= Zpos b * K * P)%Z)
      by (apply Z.mul_le_mono_nonneg_r; lia).
    assert (H2 : (Zpos b * q <= Zpos b * (K * P))%Z) by lia.
    apply Z.mul_le_mono_pos_l in H2; [|lia].
    assert (0 < K * P)%Z by (apply Z.mul_pos_pos; lia).
    change (2 ^ 1)%Z with 2%Z. lia. }
  destruct (binary_round_aux_error s q e' (new_location (Zpos b) r) Y)
    as (_ & Herr & _); [lia | lia | lia | exact HY | |].
  { intros Hl. apply new_location_exact in Hl. subst r.
    unfold Y. rewrite HdivR. field. lra. }
  rewrite HYe in Herr. eapply Rle_trans; [exact Herr|].
  assert (HAB : 0 < A / B) by (apply Rdiv_lt_0_compat; lra).
  assert (Hmin : bpow (-1074) <= bpow (-52) * (A / B)).
  { change (-1074)%Z with (-52 + -1022)%Z. rewrite bpow_add.
    apply Rmult_le_compat_l; lra. }
  destruct (Z_lt_le_dec e' (round_exp q e')) as [Hlt|Hge].
  - destruct (Z.eq_dec q 0) as [Hq0|Hq0].
    { assert (HE : round_exp q e' = (-1074)%Z).
      { rewrite Hq0 in *. unfold round_exp in *. rewrite fexp_eq in *.
        cbn [Zdigits2] in *. lia. }
      rewrite HE. exact Hmin. }
    assert (Hqe : IZR q * bpow e' <= A / B).
    { rewrite <- HYe. apply Rmult_le_compat_r; lra. }
    destruct (Z_le_gt_dec (Zdigits2 q + e' - 53) (-1074)) as [Hsub|Hnormal].
    + assert (HE : round_exp q e' = (-1074)%Z).
      { unfold round_exp in *. rewrite fexp_eq in *. lia. }
      rewrite HE. exact Hmin.
    + assert (HE : round_exp q e' = (-52 + ((Zdigits2 q - 1) + e'))%Z).
      { unfold round_exp in *. rewrite fexp_eq in *. lia. }
      rewrite HE, !bpow_add.
      assert (Hlowq : bpow (Zdigits2 q - 1) <= IZR q).
      { pose proof (Zdigits2_lower q ltac:(lia)) as Hl.
        assert (1 <= Zdigits2 q)%Z by (destruct q; cbn in *; lia).
        rewrite bpow_IZR by lia. now apply IZR_le. }
      apply Rmult_le_compat_l; [lra|].
      eapply Rle_trans; [|exact Hqe]. apply Rmult_le_compat_r; lra.
  - assert (HE : round_exp q e' = e') by (unfold round_exp in *; lia).
    rewrite HE.
    destruct (Z_le_gt_dec (da - db - 53) (-1074)) as [Hsub|Hnormal].
    + assert (bpow e' <= bpow (-1074)) by (apply bpow_le; lia). lra.
    + assert (Hle : bpow e' <= bpow (-52 + ((da - 1) + - db))) by (apply bpow_le; lia).
      rewrite !bpow_add in Hle.
      pose proof (F2R_mag a 0) as [HaL _]. pose proof (F2R_mag b 0) as [_ HbU].
      change (bpow 0) with 1 in *. rewrite Rmult_1_r, Z.add_0_r in *.
      fold da in HaL. fold db in HbU. fold A in HaL. fold B in HbU.
      replace (da + 0 - 1)%Z with (da - 1)%Z in HaL by lia.
      assert (Hdb : bpow (- db) * bpow db = 1).
      { rewrite <- bpow_add. replace (- db + db)%Z with 0%Z by lia. reflexivity. }
      pose proof (bpow_pos (- db)). pose proof (bpow_pos db). pose proof (bpow_pos (da - 1)).
      assert (bpow (da - 1) * bpow (- db) <= A / B).
      { apply Rmult_le_reg_r with B; [lra|].
        replace (A / B * B) with A by (field; lra).
        assert (bpow (- db) * B <= 1) by nra. nra. }
      nra.
Qed.

(** Integer true division of a quotient in the normal range. *)
Lemma int_truediv_relative_error (a b : Z) :
  a <> 0%Z -> b <> 0%Z ->
  (Z.abs b <= Z.abs a * 2 ^ 1022)%Z -> (Z.abs a <= Z.abs b * 2 ^ 900)%Z ->
  exists q,
    PyFloat.int_truediv a b = Ok q /\ is_finite q = true /\
    Rabs (F2R q - IZR a / IZR b) <= bpow (-52) * Rabs (IZR a / IZR b).
Proof.
  intros Ha Hb Hlow Hab.
  set (s := xorb (a <? 0)%Z (b <? 0)%Z).
  set (pa := Z.to_pos (Z.abs a)). set (pb := Z.to_pos (Z.abs b)).
  assert (Hpa : Zpos pa = Z.abs a) by (unfold pa; lia).
  assert (Hpb : Zpos pb = Z.abs b) by (unfold pb; lia).
  assert (HpaR : 0 < IZR (Zpos pa)) by (apply IZR_lt; lia).
  assert (HpbR : 0 < IZR (Zpos pb)) by (apply IZR_lt; lia).
  assert (Hsign : forall z : Z, IZR z = sign_R (z <? 0)%Z * IZR (Z.abs z)).
  { intros [|z|z]; cbn [Z.ltb Z.compare sign_R]; unfold Z.abs; [lra | lra |].
    change (Zneg z) with (- Zpos z)%Z. rewrite opp_IZR. lra. }
  assert (Hquot : IZR a / IZR b = sign_R s * (IZR (Zpos pa) / IZR (Zpos pb))).
  { rewrite (Hsign a), (Hsign b), Hpa, Hpb. rewrite <- Hpa, <- Hpb. unfold s.
    destruct (a <? 0)%Z, (b <? 0)%Z; cbn [sign_R xorb]; field; lra. }
  destruct (of_ratio_error s pa pb) as (Hfin & _);
    [rewrite Hpa, Hpb; exact Hab|].
  pose proof (of_ratio_relative_error s pa pb) as Herr.
  rewrite Hpa, Hpb in Herr. specialize (Herr Hlow Hab). rewrite <- Hpa, <- Hpb in Herr.
  exists (PyFloat.of_ratio s pa pb). split; [|split; [exact Hfin|]].
  - unfold PyFloat.int_truediv. fold s pa pb.
    assert (Hinf : PyFloat.is_inf (PyFloat.of_ratio s pa pb) = false)
      by (destruct (PyFloat.of_ratio s pa pb); try discriminate; reflexivity).
    clear Hab Hlow Hquot Herr Hsign Hfin.
    destruct a as [|a'|a']; [exfalso; now apply Ha| |];
      (destruct b as [|b'|b']; [exfalso; now apply Hb| |]);
      rewrite Hinf; reflexivity.
  - rewrite Hquot, sign_R_abs, (Rabs_pos_eq (IZR (Zpos pa) / IZR (Zpos pb)));
      [exact Herr|].
    apply Rlt_le, Rdiv_lt_0_compat; assumption.
Qed.

End RelativeError.

(** *** One conversion and the product with the back-rate *)

Section RoundTrip.
Local Open Scope R_scope.

Lemma in_range_spec (lo hi : Z) (x : float) :
  in_range lo hi x = true ->
  is_finite x = true /\ bpow lo <= F2R x <= bpow hi.
Proof.
  destruct x as [| | |[] m e]; try discriminate. cbn [in_range].
  intros [H1%Z.leb_le H2%Z.leb_le]%andb_prop. split; [reflexivity|].
  cbn [F2R sign_R]. rewrite Rmult_1_l.
  pose proof (F2R_mag m e) as [Hlo Hhi].
  apply bpow_le in H1, H2. lra.
Qed.

Lemma product_between_spec (lo hi den : Z) (x y : float) :
  product_between lo hi den x y = true -> (0 < den)%Z ->
  IZR lo / IZR den <= F2R x * F2R y <= IZR hi / IZR den.
Proof.
  destruct x as [| | |[] mx ex]; try discriminate.
  destruct y as [| | |[] my ey]; try discriminate.
  cbn [product_between]. cbv zeta.
  intros [H1%Z.leb_le H2%Z.leb_le]%andb_prop Hden.
  set (e := (ex + ey)%Z) in *.
  apply IZR_le in H1, H2. rewrite !mult_IZR in H1, H2.
  rewrite <- !bpow_IZR in H1, H2 by lia.
  apply IZR_lt in Hden.
  pose proof (bpow_pos (Z.max (- e) 0)) as Hq.
  assert (He : bpow e * bpow (Z.max (- e) 0) = bpow (Z.max e 0)).
  { rewrite <- bpow_add. f_equal. lia. }
  assert (Hxy : F2R (S754_finite false mx ex) * F2R (S754_finite false my ey)
                = IZR (Zpos mx) * IZR (Zpos my) * bpow e).
  { cbn [F2R sign_R]. unfold e. rewrite bpow_add. ring. }
  rewrite Hxy. rewrite <- He in H1, H2.
  set (v := IZR (Zpos mx) * IZR (Zpos my) * bpow e) in *.
  replace (IZR (Zpos mx) * IZR (Zpos my) * (bpow e * bpow (Z.max (- e) 0)) * IZR den)
    with (v * IZR den * bpow (Z.max (- e) 0)) in H1, H2 by (unfold v; ring).
  apply Rmult_le_reg_r in H1; [|exact Hq]. apply Rmult_le_reg_r in H2; [|exact Hq].
  split.
  - apply Rmult_le_reg_r with (IZR den); [lra|]. field_simplify; lra.
  - apply Rmult_le_reg_r with (IZR den); [lra|]. field_simplify; lra.
Qed.

Lemma bpow_consts :
  bpow (-52) <= 1 / 8 /\ bpow (-50) = 4 * bpow (-52) /\
  128000 * bpow (-1074) <= bpow (-52) /\
  bpow 708 = bpow 700 * bpow 8 /\ bpow 709 = 2 * bpow 708 /\ bpow 710 = 2 * bpow 709 /\
  1 <= bpow 708 /\ bpow (-7) = 1 / 128 /\ bpow 8 = 256.
Proof.
  assert (Hneg : forall n : Z, (0 <= n)%Z -> bpow (- n) * IZR (2 ^ n) = 1).
  { intros n Hn. rewrite <- bpow_IZR, <- bpow_add by assumption.
    replace (- n + n)%Z with 0%Z by lia. reflexivity. }
  assert (H3 : bpow (-3) = 1 / 8).
  { pose proof (Hneg 3%Z ltac:(lia)) as H. change (2 ^ 3)%Z with 8%Z in H.
    change (- (3))%Z with (-3)%Z in H. lra. }
  assert (H7 : bpow (-7) = 1 / 128).
  { pose proof (Hneg 7%Z ltac:(lia)) as H. change (2 ^ 7)%Z with 128%Z in H.
    change (- (7))%Z with (-7)%Z in H. lra. }
  assert (H1 : bpow 1 = 2) by (now rewrite bpow_IZR by lia).
  assert (H2 : bpow 2 = 4) by (now rewrite bpow_IZR by lia).
  assert (H17 : bpow 17 = 131072) by (now rewrite bpow_IZR by lia).
  assert (H8 : bpow 8 = 256) by (now rewrite bpow_IZR by lia).
  pose proof (bpow_pos (-1074)). pose proof (bpow_pos (-52)).
  assert (Ha : bpow (-52) <= 1 / 8) by (rewrite <- H3; apply bpow_le; lia).
  assert (Hb : bpow (-50) = 4 * bpow (-52)).
  { change (-50)%Z with (2 + -52)%Z. now rewrite bpow_add, H2. }
  assert (Hc : 128000 * bpow (-1074) <= bpow (-52)).
  { assert (bpow 17 * bpow (-1074) <= bpow (-52))
      by (rewrite <- bpow_add; apply bpow_le; lia).
    rewrite H17 in *. lra. }
  assert (Hd : bpow 708 = bpow 700 * bpow 8).
  { change 708%Z with (700 + 8)%Z. now rewrite bpow_add. }
  assert (He : bpow 709 = 2 * bpow 708).
  { change 709%Z with (1 + 708)%Z. now rewrite bpow_add, H1. }
  assert (Hf : bpow 710 = 2 * bpow 709).
  { change 710%Z with (1 + 709)%Z. now rewrite bpow_add, H1. }
  assert (Hg : 1 <= bpow 708) by (change 1 with (bpow 0); apply bpow_le; lia).
  exact (conj Ha (conj Hb (conj Hc (conj Hd (conj He (conj Hf (conj Hg (conj H7 H8)))))))).
Qed.

Lemma round_trip_arith (u eta G w X C e1 e2 e3 : R) :
  0 < u <= 1 / 8 -> 0 < eta -> 128000 * eta <= u -> 1 / 128 <= G ->
  0 <= w -> 0 <= X -> 0 <= C -> 0 <= e1 -> 0 <= e2 ->
  e1 <= u * w + eta ->
  X <= w + e1 ->
  e2 <= 1 / 200 + u * (X + 1 / 200) + eta ->
  C <= X + e2 ->
  e3 <= u * (C * G) + eta ->
  e3 + G * e2 + G * e1 <= G * (1 / 200) + 4 * u * (G * (w + 1)).
Proof.
  intros [Hu0 Hu] Heta Hetau HG Hw HX HC He1 He2 H1 H2 H3 H4 H5.
  assert (Huw : u * w <= w / 8) by nra.
  assert (HXb : X <= 9 / 8 * w + eta) by lra.
  assert (HuX : u * X <= X / 8) by nra.
  assert (HCb : C <= 81 / 64 * w + 9 / 1600 + 17 / 8 * eta) by lra.
  assert (HS : w + X + C + 1 / 200 <= 7 / 2 * w + 1 / 50 + 4 * eta) by lra.
  assert (HuG : 0 < u * G) by (apply Rmult_lt_0_compat; lra).
  (* the three error terms *)
  assert (T1 : G * e1 <= u * G * w + G * eta) by nra.
  assert (T2 : G * e2 <= G * (1 / 200) + u * G * (X + 1 / 200) + G * eta) by nra.
  assert (T3 : e3 <= u * G * C + eta) by nra.
  assert (T : e3 + G * e2 + G * e1
              <= G * (1 / 200) + u * G * (w + X + C + 1 / 200) + eta * (2 * G + 1))
    by nra.
  assert (TS : u * G * (w + X + C + 1 / 200)
               <= u * G * (7 / 2 * w + 1 / 50 + 4 * eta))
    by (apply Rmult_le_compat_l; lra).
  assert (Eta1 : eta <= u * G / 1000) by nra.
  assert (Eta2 : eta * (2 * G) <= u * G / 64000) by nra.
  assert (Eta3 : u * G * (4 * eta) <= u * G / 1000) by nra.
  assert (W : 0 <= u * G * w) by (apply Rmult_le_pos; lra).
  nra.
Qed.

Lemma Rabs_le_add (x y : R) : Rabs x <= Rabs (x - y) + Rabs y.
Proof. replace x with ((x - y) + y) at 1 by lra. apply Rabs_triang. Qed.

(** One conversion at rate [r] followed by a multiplication with the
    back-rate [c2]. *)
Lemma round_trip_generic (amt r c2 : float) :
  is_finite amt = true -> Rabs (F2R amt) <= bpow 700 ->
  in_range (-8) 8 r = true -> in_range (-7) 8 c2 = true ->
  exists c1,
    PyFloat.round (PyFloat.mul amt r) 2 = Ok c1 /\
    Rabs (F2R (PyFloat.mul c1 c2) - F2R amt * (F2R r * F2R c2))
      <= F2R c2 * (1 / 200)
         + bpow (-50) * (F2R c2 * (Rabs (F2R amt) * F2R r + 1)).
Proof.
  intros Hfin Hamt Hr Hc2.
  apply in_range_spec in Hr as (Hrfin & Hr1 & Hr2).
  apply in_range_spec in Hc2 as (Hcfin & Hc1 & Hc2).
  destruct bpow_consts as (Hu & Ht & Heta & H58 & H59 & H60 & H58' & H7 & H8).
  pose proof (bpow_pos (-1074)) as Heta0. pose proof (bpow_pos (-52)) as Hu0.
  pose proof (bpow_pos (-8)) as Hb8.
  set (a := Rabs (F2R amt)) in *. set (rr := F2R r) in *. set (g := F2R c2) in *.
  assert (Ha : 0 <= a) by apply Rabs_pos.
  assert (Habs_r : Rabs rr = rr) by (apply Rabs_pos_eq; lra).
  assert (Habs_g : Rabs g = g) by (apply Rabs_pos_eq; lra).
  (* x = amt * r *)
  destruct (mul_error amt r 700 8) as (Hxfin & Hxerr);
    [assumption | assumption | assumption | fold rr; lra | lia |].
  set (x := PyFloat.mul amt r) in *.
  fold rr in Hxerr. rewrite (Rabs_mult (F2R amt)), Habs_r in Hxerr. fold a in Hxerr.
  assert (Hw : a * rr <= bpow 708).
  { rewrite H58. apply Rmult_le_compat; lra. }
  assert (Huw : bpow (-52) * (a * rr) <= a * rr / 8).
  { assert (0 <= a * rr) by (apply Rmult_le_pos; lra). nra. }
  pose proof (Rabs_le_add (F2R x) (F2R amt * rr)) as HX.
  rewrite (Rabs_mult (F2R amt)), Habs_r in HX. fold a in HX.
  assert (HX59 : Rabs (F2R x) <= bpow 709) by lra.
  (* c1 = round(x, 2) *)
  destruct (round2_error x 709 Hxfin HX59 ltac:(lia)) as (c1 & Hc1eq & Hc1fin & Hc1err).
  exists c1. split; [exact Hc1eq|].
  pose proof (Rabs_le_add (F2R c1) (F2R x)) as HC.
  assert (HuX : bpow (-52) * Rabs (F2R x) <= Rabs (F2R x) / 8).
  { pose proof (Rabs_pos (F2R x)). nra. }
  assert (HC60 : Rabs (F2R c1) <= bpow 710) by lra.
  (* p = c1 * c2 *)
  destruct (mul_error c1 c2 710 8) as (Hpfin & Hperr);
    [assumption | assumption | assumption | fold g; lra | lia |].
  fold g in Hperr. rewrite (Rabs_mult (F2R c1)), Habs_g in Hperr.
  replace (F2R (PyFloat.mul c1 c2) - F2R amt * (rr * g))
    with ((F2R (PyFloat.mul c1 c2) - F2R c1 * g)
          + (g * (F2R c1 - F2R x) + g * (F2R x - F2R amt * rr))) by ring.
  eapply Rle_trans; [apply Rabs_triang|].
  eapply Rle_trans; [apply Rplus_le_compat_l, Rabs_triang|].
  rewrite !Rabs_mult, Habs_g, Ht.
  rewrite <- Rplus_assoc.
  apply (round_trip_arith (bpow (-52)) (bpow (-1074)) g (a * rr)
           (Rabs (F2R x)) (Rabs (F2R c1))
           (Rabs (F2R x - F2R amt * rr)) (Rabs (F2R c1 - F2R x))
           (Rabs (F2R (PyFloat.mul c1 c2) - F2R c1 * g)));
    try lra; try apply Rabs_pos.
  apply Rmult_le_pos; lra.
Qed.

End RoundTrip.

(** ** The rate table *)

Lemma lookup_rate_cases (key : string) (v : float) :
  lookup_rate key fallback_rates = Some v ->
  (key = "USD"%string /\ v = PyFloat.lit_1_0) \/
  (key = "EUR"%string /\ v = PyFloat.lit_0_92) \/
  (key = "GBP"%string /\ v = PyFloat.lit_0_78) \/
  (key = "JPY"%string /\ v = PyFloat.lit_150_0).
Proof.
  unfold fallback_rates; simpl.
  repeat case_bool_decide; intros [= <-]; subst; auto 10.
Qed.

Lemma lookup_rate_nonzero (key : string) (v : float) :
  lookup_rate key fallback_rates = Some v -> PyFloat.is_zero v = false.
Proof.
  intros H. destruct (lookup_rate_cases _ _ H) as [[_ ->]|[[_ ->]|[[_ ->]|[_ ->]]]];
    reflexivity.
Qed.

Lemma not_in_rates_str (key : string) :
  not_in_rates (JStr key) =
    Ok (match lookup_rate key fallback_rates with Some _ => false | None => true end).
Proof.
  unfold not_in_rates. destruct (lookup_rate key fallback_rates) eqn:E.
  - rewrite bool_decide_eq_true_2; eauto.
  - rewrite bool_decide_eq_false_2; [reflexivity | intros [? ?]; discriminate].
Qed.

(** ** C1: [convert_currency] *)

Lemma convert_currency_eq (from_currency to_currency : string) (amount : float) :
  convert_currency (JStr from_currency) (JStr to_currency) amount =
    match lookup_rate from_currency fallback_rates,
          lookup_rate to_currency fallback_rates with
    | Some rfrom, Some rto =>
        PyFloat.round
          (PyFloat.mul amount (SFdiv PyFloat.prec PyFloat.emax rto rfrom)) 2
    | _, _ => Raise (ValueError "Invalid currency code.")
    end.
Proof.
  unfold convert_currency. rewrite !not_in_rates_str.
  destruct (lookup_rate from_currency fallback_rates) as [rfrom|] eqn:Hfrom;
    [|reflexivity].
  destruct (lookup_rate to_currency fallback_rates) as [rto|] eqn:Hto;
    [|reflexivity].
  cbn [bind]. unfold rate_of. rewrite Hfrom, Hto. cbn [bind].
  unfold PyFloat.truediv. rewrite (lookup_rate_nonzero _ _ Hfrom). reflexivity.
Qed.

(** C1. [convert_currency] raises the invalid-currency error when either
    code is not a key of the rate table; otherwise it returns
    [round(amount * ratio, 2)] with [ratio = table[to] / table[from]]. *)
Theorem convert_currency_spec (from_currency to_currency : string) (amount : float) :
  match lookup_rate from_currency fallback_rates,
        lookup_rate to_currency fallback_rates with
  | Some rfrom, Some rto =>
      exists c,
        convert_currency (JStr from_currency) (JStr to_currency) amount = Ok c /\
        PyFloat.round
          (PyFloat.mul amount (SFdiv PyFloat.prec PyFloat.emax rto rfrom)) 2 = Ok c
  | _, _ =>
      convert_currency (JStr from_currency) (JStr to_currency) amount
      = Raise (ValueError "Invalid currency code.")
  end.
Proof.
  rewrite convert_currency_eq.
  destruct (lookup_rate from_currency fallback_rates) as [rfrom|]; [|reflexivity].
  destruct (lookup_rate to_currency fallback_rates) as [rto|]; [|reflexivity].
  destruct (round2_total
              (PyFloat.mul amount (SFdiv PyFloat.prec PyFloat.emax rto rfrom))
              (well_formed_mul _ _)) as [c Hc].
  exists c. split; exact Hc.
Qed.

(** ** C2: identity conversion *)

(** C2, as stated, fails: converting 1.234 from USD to USD yields 1.23. *)
Lemma identity_conversion_rounds :
  convert_currency (JStr "USD") (JStr "USD") Sample.f1_234 = Ok Sample.f1_23 /\
  SFeqb Sample.f1_23 Sample.f1_234 = false.
Proof. split; vm_compute; reflexivity. Qed.

(** C2, amended. Converting a currency to itself returns the amount rounded
    to two decimal places: the ratio is exactly [1.0] and the product with it
    is exact. *)
Theorem convert_currency_identity (X : string) (amount : float) :
  is_Some (lookup_rate X fallback_rates) ->
  PyFloat.valid amount ->
  exists c,
    convert_currency (JStr X) (JStr X) amount = Ok c /\
    PyFloat.round amount 2 = Ok c.
Proof.
  intros [r Hr] Hv. rewrite convert_currency_eq, Hr.
  replace (SFdiv PyFloat.prec PyFloat.emax r r) with PyFloat.lit_1_0.
  - rewrite mul_one_r by exact Hv.
    destruct (round2_total amount (valid_well_formed amount Hv)) as [c Hc].
    exists c. split; exact Hc.
  - destruct (lookup_rate_cases _ _ Hr) as [[_ ->]|[[_ ->]|[[_ ->]|[_ ->]]]];
      vm_compute; reflexivity.
Qed.

Lemma convert_currency_identity_witness :
  is_Some (lookup_rate "GBP" fallback_rates) /\
  PyFloat.valid Sample.f1_234 /\
  exists c,
    convert_currency (JStr "GBP") (JStr "GBP") Sample.f1_234 = Ok c /\
    PyFloat.round Sample.f1_234 2 = Ok c.
Proof.
  assert (H1 : is_Some (lookup_rate "GBP" fallback_rates)) by (vm_compute; eauto).
  assert (H2 : PyFloat.valid Sample.f1_234) by reflexivity.
  split; [exact H1 | split; [exact H2 |]].
  exact (convert_currency_identity "GBP" Sample.f1_234 H1 H2).
Defined.

(** ** C3, C7: [get_rates] *)

Lemma get_rates_loop_spec (base : float) (items : list (string * float)) :
  PyFloat.is_zero base = false ->
  forall (acc rs : list Rate),
    get_rates_loop base items acc = Ok rs ->
    exists ys, rs = rev acc ++ ys /\ Forall2 (rate_entry base) ys items.
Proof.
  intros Hbase. induction items as [|[curr r] rest IH]; intros acc rs; cbn [get_rates_loop].
  - intros [= <-]. exists []. split; [now rewrite app_nil_r | constructor].
  - unfold PyFloat.truediv. rewrite Hbase. cbn [bind].
    destruct (PyFloat.round (SFdiv PyFloat.prec PyFloat.emax r base) 3) as [v|e] eqn:Hv;
      cbn [bind]; [|discriminate].
    intros H. apply IH in H as (ys & -> & Hys).
    exists (mkRate curr v :: ys). split.
    + cbn [rev]. now rewrite <- app_assoc.
    + constructor; [split; [reflexivity | exact Hv] | exact Hys].
Qed.

Lemma get_rates_succeeds (base : string) :
  is_Some (lookup_rate base fallback_rates) ->
  exists rs, get_rates (JStr base) = Ok rs.
Proof.
  intros [b Hb].
  destruct (lookup_rate_cases _ _ Hb) as [[-> _]|[[-> _]|[[-> _]|[-> _]]]];
    eexists; vm_compute; reflexivity.
Qed.

(** C3. [get_rates] raises the invalid-currency error when the base is not a
    key of the rate table; otherwise it yields one record per table entry,
    in the table's insertion order USD, EUR, GBP, JPY, each holding
    [round(rate / table[base], 3)]. *)
Theorem get_rates_spec (base : string) :
  match lookup_rate base fallback_rates with
  | None => get_rates (JStr base) = Raise (ValueError "Invalid base currency")
  | Some b =>
      exists rs,
        get_rates (JStr base) = Ok rs /\
        map currency rs = ["USD"; "EUR"; "GBP"; "JPY"]%string /\
        Forall2 (rate_entry b) rs fallback_rates
  end.
Proof.
  destruct (lookup_rate base fallback_rates) as [b|] eqn:Hb.
  - destruct (get_rates_succeeds base) as [rs Hrs]; [eauto|].
    exists rs. split; [exact Hrs|].
    assert (Hent : Forall2 (rate_entry b) rs fallback_rates).
    { revert Hrs. unfold get_rates. rewrite not_in_rates_str, Hb. cbn [bind].
      unfold rate_of. rewrite Hb. cbn [bind]. intros Hloop.
      apply get_rates_loop_spec in Hloop as (ys & -> & Hys);
        [exact Hys | exact (lookup_rate_nonzero _ _ Hb)]. }
    split; [|exact Hent].
    clear Hrs. unfold fallback_rates in Hent.
    repeat match goal with
           | H : Forall2 _ _ (_ :: _) |- _ =>
               apply Forall2_cons_inv_r in H as (? & ? & [? _] & ? & ->)
           | H : Forall2 _ _ [] |- _ => apply Forall2_nil_inv_r in H as ->
           end.
    cbn [map]. cbn in *. congruence.
  - unfold get_rates. rewrite not_in_rates_str, Hb. reflexivity.
Qed.

(** C7. For a base that is a key of the rate table, the sequence yielded by
    [get_rates] contains the record of the base itself, with rate [1.0]. *)
Theorem get_rates_includes_base (base : string) :
  is_Some (lookup_rate base fallback_rates) ->
  exists rs,
    get_rates (JStr base) = Ok rs /\ In (mkRate base PyFloat.lit_1_0) rs.
Proof.
  intros [b Hb].
  destruct (lookup_rate_cases _ _ Hb) as [[-> _]|[[-> _]|[[-> _]|[-> _]]]];
    eexists; (split; [vm_compute; reflexivity | cbn; auto 10]).
Qed.

Lemma get_rates_includes_base_witness :
  is_Some (lookup_rate "EUR" fallback_rates) /\
  exists rs,
    get_rates (JStr "EUR") = Ok rs /\ In (mkRate "EUR" PyFloat.lit_1_0) rs.
Proof.
  assert (H : is_Some (lookup_rate "EUR" fallback_rates)) by (vm_compute; eauto).
  split; [exact H | exact (get_rates_includes_base "EUR" H)].
Defined.

(** ** C8: the round trip *)

(** C8, as stated, fails: 100 dollars convert to 15000 yen, one yen converts
    to 0.01 dollars, and the product is 150, which is 50 away from 100. *)
Lemma round_trip_usd_jpy :
  convert_currency (JStr "USD") (JStr "JPY") Sample.f100 = Ok Sample.f15000 /\
  convert_currency (JStr "JPY") (JStr "USD") PyFloat.lit_1_0 = Ok Sample.f0_01 /\
  PyFloat.mul Sample.f15000 Sample.f0_01 = PyFloat.lit_150_0 /\
  PyFloat.sub PyFloat.lit_150_0 Sample.f100 = Sample.f50.
Proof. repeat split; vm_compute; reflexivity. Qed.


(** For every pair of codes, the rate and the back-rate of one unit are
    positive floats between [2^-8] and [2^8]; the back-rate is at most 193,
    and its product with the rate is within 0.29% of 1 unless the round trip
    goes through a rate into JPY. *)
Lemma pair_rates (A B : string) (tA tB : float) :
  lookup_rate A fallback_rates = Some tA ->
  lookup_rate B fallback_rates = Some tB ->
  in_range (-8) 8 (SFdiv PyFloat.prec PyFloat.emax tB tA) = true /\
  exists c2,
    convert_currency (JStr B) (JStr A) PyFloat.lit_1_0 = Ok c2 /\
    in_range (-7) 8 c2 = true /\
    product_between 0 193 1 c2 PyFloat.lit_1_0 = true /\
    (A = "JPY"%string \/ B <> "JPY"%string ->
     product_between 9971 10029 10000
       (SFdiv PyFloat.prec PyFloat.emax tB tA) c2 = true).
Proof.
  intros HA HB.
  destruct (lookup_rate_cases _ _ HA) as [[-> ->]|[[-> ->]|[[-> ->]|[-> ->]]]];
    destruct (lookup_rate_cases _ _ HB) as [[-> ->]|[[-> ->]|[[-> ->]|[-> ->]]]];
    (split; [vm_compute; reflexivity|]);
    eexists; (split; [vm_compute; reflexivity|]);
    (split; [vm_compute; reflexivity|]);
    (split; [vm_compute; reflexivity|]);
    intros [H|H];
    first [ discriminate H | exfalso; apply H; reflexivity | vm_compute; reflexivity ].
Qed.

(** C8, amended. For codes [A], [B] of the rate table and a finite amount of
    magnitude at most [2^700], both conversions succeed and the product
    [convert_currency(A, B, amt) * convert_currency(B, A, 1)] differs from
    [amt] by at most [|amt| * (|rho - 1| + 2^-50 * rho) + c2 * (0.005 + 2^-50)],
    where [c2 = convert_currency(B, A, 1)] and
    [rho = (table[B] / table[A]) * c2].  Unless [B] is JPY and [A] is not,
    this is at most [0.003 * |amt| + 0.97]. *)
Theorem round_trip_bound (A B : string) (amt : float) :
  is_Some (lookup_rate A fallback_rates) ->
  is_Some (lookup_rate B fallback_rates) ->
  is_finite amt = true ->
  (Rabs (F2R amt) <= bpow 700)%R ->
  exists c1 c2 tA tB,
    lookup_rate A fallback_rates = Some tA /\
    lookup_rate B fallback_rates = Some tB /\
    convert_currency (JStr A) (JStr B) amt = Ok c1 /\
    convert_currency (JStr B) (JStr A) PyFloat.lit_1_0 = Ok c2 /\
    (Rabs (F2R (PyFloat.mul c1 c2) - F2R amt)
     <= Rabs (F2R amt)
        * (Rabs (F2R (SFdiv PyFloat.prec PyFloat.emax tB tA) * F2R c2 - 1)
           + bpow (-50) * (F2R (SFdiv PyFloat.prec PyFloat.emax tB tA) * F2R c2))
        + F2R c2 * (1 / 200 + bpow (-50)))%R /\
    (A = "JPY"%string \/ B <> "JPY"%string ->
     (Rabs (F2R (PyFloat.mul c1 c2) - F2R amt)
      <= 3 / 1000 * Rabs (F2R amt) + 97 / 100)%R).
Proof.
  intros [tA HA] [tB HB] Hfin Hamt.
  destruct (pair_rates A B tA tB HA HB) as (Hr & c2 & Hc2 & Hc2r & Hc2max & Hrho).
  destruct (round_trip_generic amt _ c2 Hfin Hamt Hr Hc2r) as (c1 & Hc1 & Herr).
  exists c1, c2, tA, tB. repeat (split; [assumption|]).
  split; [rewrite convert_currency_eq, HA, HB; exact Hc1|].
  split; [exact Hc2|].
  set (rr := F2R (SFdiv PyFloat.prec PyFloat.emax tB tA)) in *.
  set (g := F2R c2) in *.
  apply in_range_spec in Hr as (_ & Hr1 & _). fold rr in Hr1.
  apply in_range_spec in Hc2r as (_ & Hg1 & _). fold g in Hg1.
  pose proof (bpow_pos (-8)). pose proof (bpow_pos (-7)). pose proof (bpow_pos (-50)).
  pose proof (Rabs_pos (F2R amt)) as Ha.
  assert (Hrg : (0 <= Rabs (F2R amt) * (rr * g))%R)
    by (apply Rmult_le_pos; [lra | apply Rmult_le_pos; lra]).
  assert (Hmain :
    (Rabs (F2R (PyFloat.mul c1 c2) - F2R amt)
     <= Rabs (F2R amt) * (Rabs (rr * g - 1) + bpow (-50) * (rr * g))
        + g * (1 / 200 + bpow (-50)))%R).
  { replace (F2R (PyFloat.mul c1 c2) - F2R amt)%R
      with ((F2R (PyFloat.mul c1 c2) - F2R amt * (rr * g))
            + F2R amt * (rr * g - 1))%R by ring.
    eapply Rle_trans; [apply Rabs_triang|].
    rewrite (Rabs_mult (F2R amt)). lra. }
  split; [exact Hmain|].
  intros Hpair. specialize (Hrho Hpair).
  apply product_between_spec in Hrho; [|lia]. fold rr g in Hrho.
  apply product_between_spec in Hc2max; [|lia]. fold g in Hc2max.
  change (F2R PyFloat.lit_1_0) with (sign_R false * IZR 4503599627370496 * bpow (-52))%R
    in Hc2max.
  assert (Hone : (sign_R false * IZR 4503599627370496 * bpow (-52) = 1)%R).
  { cbn [sign_R]. change 4503599627370496%Z with (2 ^ 52)%Z.
    rewrite <- bpow_IZR, Rmult_1_l, <- bpow_add by lia. reflexivity. }
  rewrite Hone, Rmult_1_r in Hc2max.
  assert (Ht : (bpow (-50) <= 1 / 1000000)%R).
  { assert (Hle : (bpow (-50) <= bpow (-20))%R) by (apply bpow_le; lia).
    assert (H20 : (bpow (-20) * IZR (2 ^ 20) = 1)%R).
    { rewrite <- bpow_IZR, <- bpow_add by lia. reflexivity. }
    change (2 ^ 20)%Z with 1048576%Z in H20. lra. }
  assert (Hdev : (Rabs (rr * g - 1) <= 29 / 10000)%R) by (apply Rabs_le; lra).
  assert (Hk : (Rabs (rr * g - 1) + bpow (-50) * (rr * g) <= 3 / 1000)%R).
  { assert (bpow (-50) * (rr * g) <= 1 / 1000000 * (10029 / 10000))%R
      by (apply Rmult_le_compat; lra).
    lra. }
  eapply Rle_trans; [exact Hmain|].
  apply Rplus_le_compat.
  - rewrite Rmult_comm. apply Rmult_le_compat_r; [exact Ha | exact Hk].
  - assert (g * (1 / 200 + bpow (-50)) <= 193 * (1 / 200 + 1 / 1000000))%R
      by (apply Rmult_le_compat; lra).
    lra.
Qed.

Lemma round_trip_bound_witness :
  exists c1 c2 tA tB,
    lookup_rate "USD" fallback_rates = Some tA /\
    lookup_rate "EUR" fallback_rates = Some tB /\
    convert_currency (JStr "USD") (JStr "EUR") Sample.f100 = Ok c1 /\
    convert_currency (JStr "EUR") (JStr "USD") PyFloat.lit_1_0 = Ok c2 /\
    (Rabs (F2R (PyFloat.mul c1 c2) - F2R Sample.f100)
     <= Rabs (F2R Sample.f100)
        * (Rabs (F2R (SFdiv PyFloat.prec PyFloat.emax tB tA) * F2R c2 - 1)
           + bpow (-50) * (F2R (SFdiv PyFloat.prec PyFloat.emax tB tA) * F2R c2))
        + F2R c2 * (1 / 200 + bpow (-50)))%R /\
    ("USD" = "JPY" \/ "EUR" <> "JPY" ->
     (Rabs (F2R (PyFloat.mul c1 c2) - F2R Sample.f100)
      <= 3 / 1000 * Rabs (F2R Sample.f100) + 97 / 100)%R).
Proof.
  apply (round_trip_bound "USD" "EUR" Sample.f100).
  - vm_compute. eauto.
  - vm_compute. eauto.
  - reflexivity.
  - destruct (in_range_spec 6 7 Sample.f100 eq_refl) as (_ & H6 & H7).
    pose proof (bpow_pos 6). pose proof (bpow_le 7 700 ltac:(lia)).
    rewrite Rabs_pos_eq; lra.
Defined.

(** ** The REST handlers *)

(** Converting one unit between two codes of the table succeeds. *)
Lemma convert_currency_unit_succeeds (from_currency to_currency : string) :
  is_Some (lookup_rate from_currency fallback_rates) ->
  is_Some (lookup_rate to_currency fallback_rates) ->
  exists r,
    convert_currency (JStr from_currency) (JStr to_currency) PyFloat.lit_1_0 = Ok r.
Proof.
  intros [rf Hf] [rt Ht].
  destruct (lookup_rate_cases _ _ Hf) as [[-> _]|[[-> _]|[[-> _]|[-> _]]]];
    destruct (lookup_rate_cases _ _ Ht) as [[-> _]|[[-> _]|[[-> _]|[-> _]]]];
    eexists; vm_compute; reflexivity.
Qed.

Section RestProperties.
Variable float_of_str : string -> option float.
Variable int_of_str : string -> option Z.

Let float_ := Py.float_ float_of_str.
Let int_ := Py.int_ int_of_str.
Let convert := Rest.convert float_of_str.
Let convert_temp := Rest.convert_temp float_of_str.
Let calculate := Rest.calculate int_of_str.

Lemma eq_str_true (v : json) (s : string) : Py.eq_str v s = true <-> v = JStr s.
Proof.
  destruct v; cbn; try (split; [discriminate | intros [=]]).
  rewrite bool_decide_eq_true. split; [now intros -> | now intros [= ->]].
Qed.

Lemma eq_str_false (v : json) (s : string) : Py.eq_str v s = false <-> v <> JStr s.
Proof.
  rewrite <- eq_str_true. destruct (Py.eq_str v s); split; congruence.
Qed.

(** The handler, once the fields are read. *)
Lemma convert_temp_eq (d : gmap string json) (from_unit to_unit v : json)
    (value : float) :
  d !! "from_unit"%string = Some from_unit ->
  d !! "to_unit"%string = Some to_unit ->
  d !! "value"%string = Some v ->
  float_ v = Ok value ->
  (from_unit = JStr "C" -> to_unit = JStr "F" ->
   convert_temp (JObj d) =
     let* result :=
       PyFloat.round
         (PyFloat.add
            (SFdiv PyFloat.prec PyFloat.emax
               (PyFloat.mul value PyFloat.lit_9) PyFloat.lit_5)
            PyFloat.lit_32) 2 in
     Ok (mkResponse 200
           (Py.dict [ ("from_unit"%string, JStr "C"); ("to_unit"%string, JStr "F");
                      ("value"%string, JFloat value);
                      ("result"%string, JFloat result) ]))) /\
  (from_unit = JStr "F" -> to_unit = JStr "C" ->
   convert_temp (JObj d) =
     let* result :=
       PyFloat.round
         (SFdiv PyFloat.prec PyFloat.emax
            (PyFloat.mul (PyFloat.sub value PyFloat.lit_32) PyFloat.lit_5)
            PyFloat.lit_9) 2 in
     Ok (mkResponse 200
           (Py.dict [ ("from_unit"%string, JStr "F"); ("to_unit"%string, JStr "C");
                      ("value"%string, JFloat value);
                      ("result"%string, JFloat result) ]))) /\
  (~ (from_unit = JStr "C" /\ to_unit = JStr "F") ->
   ~ (from_unit = JStr "F" /\ to_unit = JStr "C") ->
   convert_temp (JObj d) =
     Ok (mkResponse 400
           (Py.dict [ ("error"%string, JStr "Invalid conversion units") ]))).
Proof.
  intros Hfrom Hto Hv Hvalue.
  unfold convert_temp, Rest.convert_temp. cbn [Py.getitem].
  rewrite Hfrom, Hto, Hv. cbn [bind]. fold float_. rewrite Hvalue. cbn [bind].
  split; [|split].
  - intros -> ->. reflexivity.
  - intros -> ->. reflexivity.
  - intros Hcf Hfc.
    destruct (Py.eq_str from_unit "C" && Py.eq_str to_unit "F") eqn:E1.
    { apply andb_prop in E1 as [H1%eq_str_true H2%eq_str_true].
    destruct Hcf; split; assumption. }
    destruct (Py.eq_str from_unit "F" && Py.eq_str to_unit "C") eqn:E2.
    { apply andb_prop in E2 as [H1%eq_str_true H2%eq_str_true].
    destruct Hfc; split; assumption. }
    reflexivity.
Qed.

(** C4. On a request whose [value] converts to a float, [convert_temp]
    supports exactly C to F and F to C, with the result rounded to two
    decimals; every other pair of units, identical ones included, is
    answered with status 400 and the error body. *)
Theorem convert_temp_spec (d : gmap string json) (from_unit to_unit v : json)
    (value : float) :
  d !! "from_unit"%string = Some from_unit ->
  d !! "to_unit"%string = Some to_unit ->
  d !! "value"%string = Some v ->
  float_ v = Ok value ->
  (from_unit = JStr "C" -> to_unit = JStr "F" ->
   exists result,
     PyFloat.round
       (PyFloat.add
          (SFdiv PyFloat.prec PyFloat.emax
             (PyFloat.mul value PyFloat.lit_9) PyFloat.lit_5)
          PyFloat.lit_32) 2 = Ok result /\
     convert_temp (JObj d) =
       Ok (mkResponse 200
             (Py.dict [ ("from_unit"%string, JStr "C"); ("to_unit"%string, JStr "F");
                        ("value"%string, JFloat value);
                        ("result"%string, JFloat result) ]))) /\
  (from_unit = JStr "F" -> to_unit = JStr "C" ->
   exists result,
     PyFloat.round
       (SFdiv PyFloat.prec PyFloat.emax
          (PyFloat.mul (PyFloat.sub value PyFloat.lit_32) PyFloat.lit_5)
          PyFloat.lit_9) 2 = Ok result /\
     convert_temp (JObj d) =
       Ok (mkResponse 200
             (Py.dict [ ("from_unit"%string, JStr "F"); ("to_unit"%string, JStr "C");
                        ("value"%string, JFloat value);
                        ("result"%string, JFloat result) ]))) /\
  (~ (from_unit = JStr "C" /\ to_unit = JStr "F") ->
   ~ (from_unit = JStr "F" /\ to_unit = JStr "C") ->
   convert_temp (JObj d) =
     Ok (mkResponse 400
           (Py.dict [ ("error"%string, JStr "Invalid conversion units") ]))).
Proof.
  intros Hfrom Hto Hv Hvalue.
  destruct (convert_temp_eq d from_unit to_unit v value Hfrom Hto Hv Hvalue)
    as (Hcf & Hfc & Hother).
  split; [|split].
  - intros Hf Ht.
    destruct (round2_total
                (PyFloat.add
                   (SFdiv PyFloat.prec PyFloat.emax
                      (PyFloat.mul value PyFloat.lit_9) PyFloat.lit_5)
                   PyFloat.lit_32)) as [c Hc].
    { apply well_formed_add; [apply well_formed_div | cbn; lia]. }
    exists c. split; [exact Hc|]. rewrite (Hcf Hf Ht), Hc. reflexivity.
  - intros Hf Ht.
    destruct (round2_total
                (SFdiv PyFloat.prec PyFloat.emax
                   (PyFloat.mul (PyFloat.sub value PyFloat.lit_32) PyFloat.lit_5)
                   PyFloat.lit_9) (well_formed_div _ _)) as [c Hc].
    exists c. split; [exact Hc|]. rewrite (Hfc Hf Ht), Hc. reflexivity.
  - exact Hother.
Qed.

(** The first steps of [calculate]: reading and converting the fields. *)
Lemma calculate_fields (d : gmap string json) (op av bv : json) (a b : Z) :
  d !! "operation"%string = Some op ->
  d !! "intA"%string = Some av ->
  d !! "intB"%string = Some bv ->
  int_ av = Ok a ->
  int_ bv = Ok b ->
  calculate (JObj d) =
    let* computed :=
      if Py.eq_str op "add" then Ok (Some (JInt (a + b)))
      else if Py.eq_str op "subtract" then Ok (Some (JInt (a - b)))
      else if Py.eq_str op "multiply" then Ok (Some (JInt (a * b)))
      else if Py.eq_str op "divide" then
        if negb (b =? 0) then
          let* q := PyFloat.int_truediv a b in Ok (Some (JFloat q))
        else Ok (Some (JStr "Infinity"))
      else Ok None in
    match computed with
    | None => Ok (mkResponse 400 (Py.dict [ ("error"%string, JStr "Invalid operation") ]))
    | Some result =>
        let* _ := Py.serialise result in
        Ok (mkResponse 200
              (Py.dict [ ("operation"%string, op); ("intA"%string, JInt a);
                         ("intB"%string, JInt b); ("result"%string, result) ]))
    end.
Proof.
  intros Hop Ha Hb Hia Hib.
  unfold calculate, Rest.calculate. cbn [Py.getitem].
  rewrite Hop, Ha, Hb. cbn [bind]. fold int_. rewrite Hia. cbn [bind].
  rewrite Hib. reflexivity.
Qed.

(** C6, amended. An operation that is none of [add], [subtract],
    [multiply], [divide] is answered with status 400 and the error body.
    With integer operands, [add], [subtract] and [multiply] answer with the
    exact sum, difference and product when that result has at most 4300
    decimal digits; a longer result cannot be written into the response,
    and the handler raises [ValueError]. *)
Theorem calculate_spec (d : gmap string json) (op av bv : json) (a b : Z) :
  d !! "operation"%string = Some op ->
  d !! "intA"%string = Some av ->
  d !! "intB"%string = Some bv ->
  int_ av = Ok a ->
  int_ bv = Ok b ->
  (op = JStr "add" ->
   calculate (JObj d) =
     if Z.abs (a + b) <? 10 ^ Py.INT_MAX_STR_DIGITS then
       Ok (mkResponse 200
             (Py.dict [ ("operation"%string, op); ("intA"%string, JInt a);
                        ("intB"%string, JInt b); ("result"%string, JInt (a + b)) ]))
     else
       Raise (ValueError "Exceeds the limit (4300 digits) for integer string conversion")) /\
  (op = JStr "subtract" ->
   calculate (JObj d) =
     if Z.abs (a - b) <? 10 ^ Py.INT_MAX_STR_DIGITS then
       Ok (mkResponse 200
             (Py.dict [ ("operation"%string, op); ("intA"%string, JInt a);
                        ("intB"%string, JInt b); ("result"%string, JInt (a - b)) ]))
     else
       Raise (ValueError "Exceeds the limit (4300 digits) for integer string conversion")) /\
  (op = JStr "multiply" ->
   calculate (JObj d) =
     if Z.abs (a * b) <? 10 ^ Py.INT_MAX_STR_DIGITS then
       Ok (mkResponse 200
             (Py.dict [ ("operation"%string, op); ("intA"%string, JInt a);
                        ("intB"%string, JInt b); ("result"%string, JInt (a * b)) ]))
     else
       Raise (ValueError "Exceeds the limit (4300 digits) for integer string conversion")) /\
  (op <> JStr "add" -> op <> JStr "subtract" ->
   op <> JStr "multiply" -> op <> JStr "divide" ->
   calculate (JObj d) =
     Ok (mkResponse 400 (Py.dict [ ("error"%string, JStr "Invalid operation") ]))).
Proof.
  intros Hop Ha Hb Hia Hib.
  rewrite (calculate_fields d op av bv a b Hop Ha Hb Hia Hib).
  split; [|split; [|split]].
  - intros ->. cbn [Py.eq_str]. rewrite bool_decide_eq_true_2 by reflexivity.
    cbn [bind Py.serialise].
    destruct (Z.abs (a + b) <? 10 ^ Py.INT_MAX_STR_DIGITS); reflexivity.
  - intros ->. cbn [Py.eq_str]. rewrite bool_decide_eq_false_2 by discriminate.
    rewrite bool_decide_eq_true_2 by reflexivity. cbn [bind Py.serialise].
    destruct (Z.abs (a - b) <? 10 ^ Py.INT_MAX_STR_DIGITS); reflexivity.
  - intros ->. cbn [Py.eq_str]. rewrite !bool_decide_eq_false_2 by discriminate.
    rewrite bool_decide_eq_true_2 by reflexivity. cbn [bind Py.serialise].
    destruct (Z.abs (a * b) <? 10 ^ Py.INT_MAX_STR_DIGITS); reflexivity.
  - intros H1%eq_str_false H2%eq_str_false H3%eq_str_false H4%eq_str_false.
    rewrite H1, H2, H3, H4. reflexivity.
Qed.

(** C5, amended. Dividing by zero answers with the string ["Infinity"].
    Dividing by a non-zero integer raises [OverflowError] when the quotient
    is too large for a float; otherwise it answers with the binary64 nearest
    to the quotient.  For a non-zero quotient of magnitude at most [2^900]
    the answer is within [2^-52 * |a / b| + 2^-1074] of the true quotient,
    and within [2^-52 * |a / b|] alone when the magnitude is at least
    [2^-1022]; a smaller quotient may be answered with a subnormal number
    or with zero. *)
Theorem calculate_divide (d : gmap string json) (av bv : json) (a b : Z) :
  d !! "operation"%string = Some (JStr "divide") ->
  d !! "intA"%string = Some av ->
  d !! "intB"%string = Some bv ->
  int_ av = Ok a ->
  int_ bv = Ok b ->
  (b = 0 ->
   calculate (JObj d) =
     Ok (mkResponse 200
           (Py.dict [ ("operation"%string, JStr "divide"); ("intA"%string, JInt a);
                      ("intB"%string, JInt 0);
                      ("result"%string, JStr "Infinity") ]))) /\
  (b <> 0 ->
   let q := PyFloat.of_ratio (xorb (a <? 0) (b <? 0))
              (Z.to_pos (Z.abs a)) (Z.to_pos (Z.abs b)) in
   calculate (JObj d) =
     if a =? 0 then
       Ok (mkResponse 200
             (Py.dict [ ("operation"%string, JStr "divide"); ("intA"%string, JInt 0);
                        ("intB"%string, JInt b);
                        ("result"%string, JFloat (S754_zero (b <? 0))) ]))
     else if PyFloat.is_inf q then Raise OverflowError
     else
       Ok (mkResponse 200
             (Py.dict [ ("operation"%string, JStr "divide"); ("intA"%string, JInt a);
                        ("intB"%string, JInt b); ("result"%string, JFloat q) ]))) /\
  (b <> 0 -> a <> 0 -> Z.abs a <= Z.abs b * 2 ^ 900 ->
   exists q,
     calculate (JObj d) =
       Ok (mkResponse 200
             (Py.dict [ ("operation"%string, JStr "divide"); ("intA"%string, JInt a);
                        ("intB"%string, JInt b); ("result"%string, JFloat q) ])) /\
     (Rabs (F2R q - IZR a / IZR b)
      <= bpow (-52) * Rabs (IZR a / IZR b) + bpow (-1074))%R) /\
  (b <> 0 -> a <> 0 -> Z.abs b <= Z.abs a * 2 ^ 1022 -> Z.abs a <= Z.abs b * 2 ^ 900 ->
   exists q,
     calculate (JObj d) =
       Ok (mkResponse 200
             (Py.dict [ ("operation"%string, JStr "divide"); ("intA"%string, JInt a);
                        ("intB"%string, JInt b); ("result"%string, JFloat q) ])) /\
     (Rabs (F2R q - IZR a / IZR b) <= bpow (-52) * Rabs (IZR a / IZR b))%R).
Proof.
  intros Hop Ha Hb Hia Hib.
  rewrite (calculate_fields d _ av bv a b Hop Ha Hb Hia Hib).
  cbn [Py.eq_str]. rewrite !bool_decide_eq_false_2 by discriminate.
  rewrite bool_decide_eq_true_2 by reflexivity.
  split; [|split; [|split]].
  - intros ->. reflexivity.
  - intros Hnz. cbv zeta. apply Z.eqb_neq in Hnz as Hnz'. rewrite Hnz'. cbn [negb].
    unfold PyFloat.int_truediv.
    destruct a as [|pa|pa]; destruct b as [|pb|pb]; try congruence;
      try reflexivity; cbn [Z.eqb bind];
      destruct (PyFloat.is_inf _); reflexivity.
  - intros Hbnz Hanz Hsize. apply Z.eqb_neq in Hbnz as Hnz'. rewrite Hnz'. cbn [negb].
    destruct (int_truediv_error a b Hanz Hbnz Hsize) as (q & -> & _ & Herr).
    exists q. split; [reflexivity | exact Herr].
  - intros Hbnz Hanz Hlow Hsize. apply Z.eqb_neq in Hbnz as Hnz'. rewrite Hnz'. cbn [negb].
    destruct (int_truediv_relative_error a b Hanz Hbnz Hlow Hsize) as (q & -> & _ & Herr).
    exists q. split; [reflexivity | exact Herr].
Qed.

(** The first steps of [convert]: reading the fields of the body. *)
Lemma convert_fields (d : gmap string json) (amount : float) :
  float_ (default (JFloat PyFloat.lit_1_0) (d !! "amount"%string)) = Ok amount ->
  convert (JObj d) =
    let* result :=
      convert_currency (default JNull (d !! "from_currency"%string))
                       (default JNull (d !! "to_currency"%string)) amount in
    Ok (mkResponse 200
          (Py.dict [ ("from_currency"%string, default JNull (d !! "from_currency"%string));
                     ("to_currency"%string, default JNull (d !! "to_currency"%string));
                     ("amount"%string, JFloat amount);
                     ("result"%string, JFloat result) ])).
Proof.
  intros Hamount. unfold convert, Rest.convert. cbn [Py.get bind].
  fold float_. rewrite Hamount. reflexivity.
Qed.

Lemma dict_result_field (a b c : string * json) (v : json) :
  Py.getitem (Py.dict [a; b; c; ("result"%string, v)]) "result" = Ok v.
Proof.
  unfold Py.dict, Py.getitem. cbn [fold_left fst snd].
  now rewrite lookup_insert_eq.
Qed.

Lemma dict_amount_field (a b : string * json) (v w : json) :
  Py.getitem (Py.dict [a; b; ("amount"%string, v); ("result"%string, w)]) "amount"
  = Ok v.
Proof.
  unfold Py.dict, Py.getitem. cbn [fold_left fst snd].
  rewrite lookup_insert_ne by discriminate. now rewrite lookup_insert_eq.
Qed.

(** C9. On the same currencies and amount, [POST /convert] computes what
    the service's [convert_currency] computes: when the service returns
    [r], the response has status 200 and its [result] field is [r]; when
    the service raises, so does the handler. *)
Theorem convert_agrees_with_service (d : gmap string json) (amount : float) :
  float_ (default (JFloat PyFloat.lit_1_0) (d !! "amount"%string)) = Ok amount ->
  (forall r,
      convert_currency (default JNull (d !! "from_currency"%string))
                       (default JNull (d !! "to_currency"%string)) amount = Ok r ->
      exists resp,
        convert (JObj d) = Ok resp /\ status resp = 200 /\
        Py.getitem (body resp) "result" = Ok (JFloat r)) /\
  (forall e,
      convert_currency (default JNull (d !! "from_currency"%string))
                       (default JNull (d !! "to_currency"%string)) amount = Raise e ->
      convert (JObj d) = Raise e).
Proof.
  intros Hamount. rewrite (convert_fields d amount Hamount). split.
  - intros r ->. cbn [bind]. eexists. split; [reflexivity|]. split; [reflexivity|].
    cbn [body]. apply dict_result_field.
  - intros e ->. reflexivity.
Qed.

(** C10. When the body has no [amount] field, [POST /convert] converts the
    default amount [1.0] and echoes it in the [amount] field; for currency
    codes of the rate table the request succeeds. *)
Theorem convert_default_amount (d : gmap string json) :
  d !! "amount"%string = None ->
  convert (JObj d) =
    (let* result :=
       convert_currency (default JNull (d !! "from_currency"%string))
                        (default JNull (d !! "to_currency"%string))
                        PyFloat.lit_1_0 in
     Ok (mkResponse 200
           (Py.dict [ ("from_currency"%string, default JNull (d !! "from_currency"%string));
                      ("to_currency"%string, default JNull (d !! "to_currency"%string));
                      ("amount"%string, JFloat PyFloat.lit_1_0);
                      ("result"%string, JFloat result) ]))) /\
  (forall from_currency to_currency : string,
      d !! "from_currency"%string = Some (JStr from_currency) ->
      d !! "to_currency"%string = Some (JStr to_currency) ->
      is_Some (lookup_rate from_currency fallback_rates) ->
      is_Some (lookup_rate to_currency fallback_rates) ->
      exists resp,
        convert (JObj d) = Ok resp /\ status resp = 200 /\
        Py.getitem (body resp) "amount" = Ok (JFloat PyFloat.lit_1_0)).
Proof.
  intros Hnone.
  assert (Hamount : float_ (default (JFloat PyFloat.lit_1_0) (d !! "amount"%string))
                    = Ok PyFloat.lit_1_0) by (rewrite Hnone; reflexivity).
  rewrite (convert_fields d _ Hamount). split; [reflexivity|].
  intros from_currency to_currency -> -> Hf Ht. cbn [default from_option Datatypes.id].
  destruct (convert_currency_unit_succeeds from_currency to_currency Hf Ht) as [r ->].
  cbn [bind].
  eexists. split; [reflexivity|]. split; [reflexivity|].
  cbn [body]. apply dict_amount_field.
Qed.

End RestProperties.

(** ** Witnesses and scenarios of the REST handlers *)

Lemma convert_temp_spec_witness :
  Rest.convert_temp Sample.no_float (JObj Sample.temp_body) =
    Ok (mkResponse 200
          (Py.dict [ ("from_unit"%string, JStr "C"); ("to_unit"%string, JStr "F");
                     ("value"%string, JFloat PyFloat.lit_0_0);
                     ("result"%string, JFloat PyFloat.lit_32) ])).
Proof.
  destruct (convert_temp_spec Sample.no_float Sample.temp_body
              (JStr "C") (JStr "F") (JInt 0) PyFloat.lit_0_0
              eq_refl eq_refl eq_refl eq_refl) as (H & _ & _).
  destruct (H eq_refl eq_refl) as (result & Hround & ->).
  vm_compute in Hround. injection Hround as <-. reflexivity.
Defined.

(** [multiply] on a body that holds two integers. *)
Lemma calculate_multiply_body (a b : Z) :
  Rest.calculate Sample.no_int (JObj (Sample.calc_body "multiply" a b)) =
    let* _ := Py.serialise (JInt (a * b)) in
    Ok (mkResponse 200
          (Py.dict [ ("operation"%string, JStr "multiply"); ("intA"%string, JInt a);
                     ("intB"%string, JInt b); ("result"%string, JInt (a * b)) ])).
Proof.
  rewrite (calculate_fields Sample.no_int (Sample.calc_body "multiply" a b)
             (JStr "multiply") (JInt a) (JInt b) a b
             eq_refl eq_refl eq_refl eq_refl eq_refl).
  reflexivity.
Qed.

(** C6, as stated, fails: two operands of 2201 digits, which a request can
    carry, have a product of 4401 digits, and the handler raises instead of
    answering with the product. *)
Lemma calculate_product_too_long :
  (Z.abs (10 ^ 2200) <? 10 ^ Py.INT_MAX_STR_DIGITS) = true /\
  Rest.calculate Sample.no_int
    (JObj (Sample.calc_body "multiply" (10 ^ 2200) (10 ^ 2200))) =
    Raise (ValueError "Exceeds the limit (4300 digits) for integer string conversion").
Proof.
  split.
  - apply Z.ltb_lt. rewrite Z.abs_eq by (apply Z.pow_nonneg; lia).
    apply Z.pow_lt_mono_r; [lia | unfold Py.INT_MAX_STR_DIGITS; lia
                           | unfold Py.INT_MAX_STR_DIGITS; lia].
  - rewrite calculate_multiply_body. cbn [Py.serialise].
    assert (H : (Z.abs (10 ^ 2200 * 10 ^ 2200) <? 10 ^ Py.INT_MAX_STR_DIGITS) = false).
    { apply Z.ltb_ge. rewrite <- Z.pow_add_r by lia.
      rewrite Z.abs_eq by (apply Z.pow_nonneg; lia).
      apply Z.pow_le_mono_r; [lia | unfold Py.INT_MAX_STR_DIGITS; lia]. }
    rewrite H. reflexivity.
Qed.

Lemma calculate_spec_witness :
  Rest.calculate Sample.no_int (JObj (Sample.calc_body "multiply" 6 (-7))) =
    Ok (mkResponse 200
          (Py.dict [ ("operation"%string, JStr "multiply"); ("intA"%string, JInt 6);
                     ("intB"%string, JInt (-7)); ("result"%string, JInt (-42)) ])).
Proof.
  destruct (calculate_spec Sample.no_int (Sample.calc_body "multiply" 6 (-7))
              (JStr "multiply") (JInt 6) (JInt (-7)) 6 (-7)
              eq_refl eq_refl eq_refl eq_refl eq_refl) as (_ & _ & H & _).
  rewrite (H eq_refl).
  assert (Hsmall : (Z.abs (6 * -7) <? 10 ^ Py.INT_MAX_STR_DIGITS) = true).
  { apply Z.ltb_lt. change (Z.abs (6 * -7)) with 42.
    apply Z.lt_le_trans with (10 ^ 2); [reflexivity|].
    apply Z.pow_le_mono_r; [lia | unfold Py.INT_MAX_STR_DIGITS; lia]. }
  rewrite Hsmall. reflexivity.
Defined.

(** C5, as stated, fails: [2^1024 / 1] is too large for a float, and the
    handler raises instead of returning a quotient. *)
Lemma calculate_divide_overflows :
  Rest.calculate Sample.no_int (JObj (Sample.calc_body "divide" (2 ^ 1024) 1)) =
    Raise OverflowError.
Proof. vm_compute. reflexivity. Qed.

Lemma calculate_divide_witness :
  Rest.calculate Sample.no_int (JObj (Sample.calc_body "divide" 7 2)) =
    Ok (mkResponse 200
          (Py.dict [ ("operation"%string, JStr "divide"); ("intA"%string, JInt 7);
                     ("intB"%string, JInt 2); ("result"%string, JFloat Sample.f3_5) ])) /\
  Rest.calculate Sample.no_int (JObj (Sample.calc_body "divide" 7 0)) =
    Ok (mkResponse 200
          (Py.dict [ ("operation"%string, JStr "divide"); ("intA"%string, JInt 7);
                     ("intB"%string, JInt 0); ("result"%string, JStr "Infinity") ])).
Proof.
  split.
  - destruct (calculate_divide Sample.no_int (Sample.calc_body "divide" 7 2)
                (JInt 7) (JInt 2) 7 2 eq_refl eq_refl eq_refl eq_refl eq_refl)
      as (_ & H & _).
    rewrite H by discriminate. reflexivity.
  - destruct (calculate_divide Sample.no_int (Sample.calc_body "divide" 7 0)
                (JInt 7) (JInt 0) 7 0 eq_refl eq_refl eq_refl eq_refl eq_refl)
      as (H & _ & _).
    exact (H eq_refl).
Defined.

Lemma convert_agrees_with_service_witness :
  exists resp,
    Rest.convert Sample.no_float (JObj Sample.convert_body) = Ok resp /\
    status resp = 200 /\
    Py.getitem (body resp) "result" = Ok (JFloat Sample.f92).
Proof.
  destruct (convert_agrees_with_service Sample.no_float Sample.convert_body
              Sample.f100 eq_refl) as (H & _).
  apply H. vm_compute. reflexivity.
Defined.

Lemma convert_default_amount_witness :
  exists resp,
    Rest.convert Sample.no_float (JObj Sample.convert_body_no_amount) = Ok resp /\
    status resp = 200 /\
    Py.getitem (body resp) "amount" = Ok (JFloat PyFloat.lit_1_0).
Proof.
  destruct (convert_default_amount Sample.no_float Sample.convert_body_no_amount
              eq_refl) as (_ & H).
  apply (H "USD"%string "JPY"%string eq_refl eq_refl); vm_compute; eauto.
Defined.

(** ** Scenarios *)

Example convert_100_usd_to_eur :
  convert_currency (JStr "USD") (JStr "EUR") Sample.f100 = Ok Sample.f92.
Proof. vm_compute. reflexivity. Qed.

Example rates_eur_jpy :
  exists resp rates,
    Rest.get_rates (Some "EUR"%string) = Ok resp /\
    Py.getitem (body resp) "rates" = Ok rates /\
    Py.getitem rates "JPY" = Ok (JFloat Sample.f163_043).
Proof. do 2 eexists. repeat split; vm_compute; reflexivity. Qed.

Example rates_default_base :
  Rest.get_rates None = Rest.get_rates (Some "USD"%string).
Proof. reflexivity. Qed.

Example temp_212_f_to_c :
  Rest.convert_temp Sample.no_float (JObj Sample.temp_back_body) =
    Ok (mkResponse 200
          (Py.dict [ ("from_unit"%string, JStr "F"); ("to_unit"%string, JStr "C");
                     ("value"%string, JFloat Sample.f212);
                     ("result"%string, JFloat Sample.f100) ])).
Proof. vm_compute. reflexivity. Qed.

Example temp_same_units :
  Rest.convert_temp Sample.no_float (JObj Sample.temp_same_body) =
    Ok (mkResponse 400 (Py.dict [ ("error"%string, JStr "Invalid conversion units") ])).
Proof. vm_compute. reflexivity. Qed.

Example calculate_bogus :
  Rest.calculate Sample.no_int (JObj (Sample.calc_body "bogus" 1 2)) =
    Ok (mkResponse 400 (Py.dict [ ("error"%string, JStr "Invalid operation") ])).
Proof. vm_compute. reflexivity. Qed.

(* ===================================================================== *)
(** * Further properties *)
(* ===================================================================== *)

(** ** More of the floating-point arithmetic *)

(** *** Division of floats *)

Lemma SFdiv_core_general (mx my : positive) (ex ey : Z) :
  exists q r e',
    SFdiv_core_binary PyFloat.prec PyFloat.emax (Zpos mx) ex (Zpos my) ey
      = (q, e', new_location (Zpos my) r) /\
    e' = Z.min (fexp PyFloat.prec PyFloat.emax
                  (Zpos (digits2_pos mx) + ex - (Zpos (digits2_pos my) + ey))) (ex - ey) /\
    (Zpos mx * 2 ^ (ex - ey - e') = Zpos my * q + r)%Z /\ (0 <= r < Zpos my)%Z.
Proof.
  unfold SFdiv_core_binary. cbn [Zdigits2].
  set (e' := Z.min _ (ex - ey)). assert (He' : (e' <= ex - ey)%Z) by (unfold e'; lia).
  set (m' := match (ex - ey - e')%Z with
             | 0%Z => Zpos mx
             | Zpos _ => Z.shiftl (Zpos mx) (ex - ey - e')
             | Zneg _ => 0%Z
             end).
  assert (Hm' : m' = (Zpos mx * 2 ^ (ex - ey - e'))%Z).
  { unfold m'. destruct (ex - ey - e')%Z as [|p|p] eqn:Hs.
    - lia.
    - rewrite Z.shiftl_mul_pow2 by lia. reflexivity.
    - lia. }
  pose proof (Z_div_mod m' (Zpos my) ltac:(lia)) as Hdiv.
  destruct (Z.div_eucl m' (Zpos my)) as [q r].
  exists q, r, e'. rewrite <- Hm'. intuition.
Qed.

Lemma iter_xO_value (m d : positive) :
  Zpos (Pos.iter xO m d) = Zpos m * 2 ^ Zpos d.
Proof.
  induction d as [|d IH] using Pos.peano_ind.
  - cbn [Pos.iter]. lia.
  - rewrite Pos.iter_succ, Pos2Z.inj_succ, Z.pow_succ_r by lia.
    rewrite (Pos2Z.inj_xO (Pos.iter xO m d)), IH. ring.
Qed.

Lemma shl_align_spec (mx : positive) (ex ex' : Z) :
  let '(mz, ez) := shl_align mx ex ex' in
  ez <= ex /\ (ex' <= ex -> ez = ex') /\
  Zpos mz = Zpos mx * 2 ^ (ex - ez).
Proof.
  unfold shl_align. destruct (ex' - ex) as [|d|d] eqn:Hd.
  - rewrite Z.sub_diag. lia.
  - rewrite Z.sub_diag. lia.
  - rewrite iter_xO_value. replace (ex - ex') with (Zpos d) by lia. lia.
Qed.

Lemma div_half_even_near (n d k : Z) :
  0 <= n -> 0 < d -> - d < 2 * (n - k * d) < d -> PyFloat.div_half_even n d = k.
Proof.
  intros Hn Hd Hk. unfold PyFloat.div_half_even.
  pose proof (Z.div_mod n d ltac:(lia)) as Hdm.
  pose proof (Z.mod_pos_bound n d Hd) as Hr.
  set (q := n / d) in *. set (r := n mod d) in *.
  destruct (Z.compare_spec (2 * r) d) as [Heq|Hlt|Hgt].
  - exfalso. assert (q - k = 0 \/ q - k <= -1 \/ 1 <= q - k) as [H|[H|H]] by lia; nia.
  - assert (q - k = 0 \/ q - k <= -1 \/ 1 <= q - k) as [H|[H|H]] by lia; [lia | nia | nia].
  - assert (q + 1 - k = 0 \/ q + 1 - k <= -1 \/ 1 <= q + 1 - k) as [H|[H|H]] by lia;
      [lia | nia | nia].
Qed.

Section FurtherRoundingErrors.
Local Open Scope R_scope.

Lemma div_error (x y : float) (kx ky : Z) :
  is_finite x = true -> is_finite y = true -> F2R y <> 0 ->
  Rabs (F2R x) <= bpow kx -> bpow ky <= Rabs (F2R y) -> (kx - ky <= 890)%Z ->
  is_finite (SFdiv PyFloat.prec PyFloat.emax x y) = true /\
  Rabs (F2R (SFdiv PyFloat.prec PyFloat.emax x y) - F2R x / F2R y)
    <= bpow (-52) * Rabs (F2R x / F2R y) + bpow (-1074).
Proof.
  intros Hx Hy Hy0 Hkx Hky Hk.
  pose proof (bpow_pos (-1074)) as Hbmin. pose proof (bpow_pos (-52)) as Hb52.
  destruct y as [sy|sy| |sy my ey]; try discriminate; [now cbn in Hy0|].
  destruct x as [sx|sx| |sx mx ex]; try discriminate.
  { cbn [SFdiv F2R is_finite]. split; [reflexivity|].
    unfold Rdiv. rewrite Rmult_0_l, Rminus_diag, Rabs_R0. lra. }
  cbn [SFdiv].
  destruct (SFdiv_core_general mx my ex ey) as (q & r & e' & -> & He' & Hdiv & Hr).
  set (dx := Zpos (digits2_pos mx)) in *. set (dy := Zpos (digits2_pos my)) in *.
  rewrite fexp_eq in He'.
  apply mag_le in Hkx as [Hdx Hex]. fold dx in Hdx.
  rewrite F2R_abs in Hky.
  pose proof (F2R_mag my ey) as [HyL HyU]. fold dy in HyL, HyU.
  assert (Hdy : (ky < dy + ey)%Z).
  { destruct (Z_lt_le_dec ky (dy + ey)) as [|Hge]; [assumption|exfalso].
    assert (bpow (dy + ey) <= bpow ky) by (apply bpow_le; lia). lra. }
  set (sh := (ex - ey - e')%Z) in *.
  assert (Hsh : (0 <= sh)%Z) by (unfold sh; lia).
  assert (Hpow : (0 < 2 ^ sh)%Z) by (apply Z.pow_pos_nonneg; lia).
  assert (Hq : (0 <= q)%Z) by nia.
  set (A := IZR (Zpos mx) * bpow ex). set (B := IZR (Zpos my) * bpow ey) in *.
  assert (HA : 0 < A).
  { unfold A. pose proof (bpow_pos ex). assert (0 < IZR (Zpos mx)) by (apply IZR_lt; lia).
    nra. }
  assert (HB : 0 < B).
  { unfold B. pose proof (bpow_pos ey). assert (0 < IZR (Zpos my)) by (apply IZR_lt; lia).
    nra. }
  assert (Hmy : 0 < IZR (Zpos my)) by (apply IZR_lt; lia).
  pose proof (bpow_pos e') as Hbe. pose proof (bpow_pos ey) as Hbey.
  pose proof (bpow_pos ex) as Hbex.
  (* the exact quotient, in units of [2^e'] *)
  set (Y := IZR (Zpos mx) * IZR (2 ^ sh) / IZR (Zpos my)).
  assert (Hshift : bpow ex = IZR (2 ^ sh) * bpow ey * bpow e').
  { rewrite <- bpow_IZR, <- !bpow_add by lia. f_equal. unfold sh. lia. }
  assert (HYe : Y * bpow e' = A / B).
  { unfold Y, A, B. rewrite Hshift. field. lra. }
  assert (HdivR : IZR (Zpos mx) * IZR (2 ^ sh) = IZR (Zpos my) * IZR q + IZR r).
  { rewrite <- !mult_IZR, <- plus_IZR. f_equal. exact Hdiv. }
  assert (HrR : 0 <= IZR r < IZR (Zpos my)).
  { destruct Hr as [Hr0 Hr1]. apply IZR_le in Hr0. apply IZR_lt in Hr1. lra. }
  assert (HY : IZR q <= Y < IZR q + 1).
  { unfold Y. rewrite HdivR. split.
    - apply Rmult_le_reg_r with (IZR (Zpos my)); [lra|]. field_simplify; [|lra]. lra.
    - apply Rmult_lt_reg_r with (IZR (Zpos my)); [lra|]. field_simplify; [|lra]. lra. }
  pose proof (F2R_mag mx ex) as [HxL HxU]. fold dx in HxL, HxU. fold A in HxL, HxU.
  fold B in HyL, HyU.
  assert (HAB : 0 < A / B) by (apply Rdiv_lt_0_compat; lra).
  (* the quotient has at most [dx + ex - (dy + ey) + 1 - e'] digits *)
  assert (HABu : A / B < bpow (dx + ex - (dy + ey) + 1)).
  { replace (dx + ex - (dy + ey) + 1)%Z with ((dx + ex) + - (dy + ey - 1))%Z by lia.
    rewrite bpow_add.
    assert (Hinv : bpow (- (dy + ey - 1)) * bpow (dy + ey - 1) = 1).
    { rewrite <- bpow_add. replace (- (dy + ey - 1) + (dy + ey - 1))%Z with 0%Z by lia.
      reflexivity. }
    pose proof (bpow_pos (- (dy + ey - 1))). pose proof (bpow_pos (dy + ey - 1)).
    pose proof (bpow_pos (dx + ex)).
    apply Rmult_lt_reg_r with B; [lra|].
    replace (A / B * B) with A by (field; lra).
    assert (1 <= bpow (- (dy + ey - 1)) * B) by nra.
    nra. }
  assert (Hdq : (Zdigits2 q + e' <= 1000)%Z).
  { destruct (Z.eq_dec q 0) as [->|Hq0]; [cbn [Zdigits2]; lia|].
    assert (Hqe : IZR q * bpow e' <= A / B).
    { rewrite <- HYe. apply Rmult_le_compat_r; lra. }
    assert (He'D : (e' < dx + ex - (dy + ey) + 1)%Z).
    { destruct (Z_lt_le_dec e' (dx + ex - (dy + ey) + 1)) as [|Hge]; [assumption|exfalso].
      assert (bpow (dx + ex - (dy + ey) + 1) <= bpow e') by (apply bpow_le; lia).
      assert (1 <= IZR q) by (apply IZR_le; lia). nra. }
    assert (Zdigits2 q <= dx + ex - (dy + ey) + 1 - e')%Z; [|lia].
    apply Zdigits2_le; [lia | lia |].
    apply lt_IZR. rewrite <- bpow_IZR by lia.
    replace (dx + ex - (dy + ey) + 1 - e')%Z with ((dx + ex - (dy + ey) + 1) + - e')%Z by lia.
    rewrite bpow_add.
    assert (Hinv : bpow (- e') * bpow e' = 1).
    { rewrite <- bpow_add. replace (- e' + e')%Z with 0%Z by lia. reflexivity. }
    pose proof (bpow_pos (- e')).
    apply Rmult_lt_reg_r with (bpow e'); [lra|].
    rewrite Rmult_assoc, Hinv, Rmult_1_r. lra. }
  destruct (binary_round_aux_error (xorb sx sy) q e' (new_location (Zpos my) r) Y)
    as (Hfin & Herr & _); [lia | lia | lia | exact HY | |].
  { intros Hl. apply new_location_exact in Hl. subst r.
    unfold Y. rewrite HdivR. field. lra. }
  split; [exact Hfin|].
  assert (Hquot : F2R (S754_finite sx mx ex) / F2R (S754_finite sy my ey)
                  = sign_R (xorb sx sy) * (A / B)).
  { cbn [F2R]. fold A. rewrite sign_R_xorb. unfold A, B.
    destruct sx, sy; cbn [sign_R]; field; lra. }
  rewrite Hquot, sign_R_abs, (Rabs_pos_eq (A / B)) by lra.
  rewrite HYe in Herr. eapply Rle_trans; [exact Herr|].
  destruct (Z_lt_le_dec e' (round_exp q e')) as [Hlt|Hge].
  - destruct (Z.eq_dec q 0) as [Hq0|Hq0].
    { (* the quotient is below the smallest subnormal *)
      assert (HE : round_exp q e' = (-1074)%Z).
      { rewrite Hq0 in *. unfold round_exp in *. rewrite fexp_eq in *.
        cbn [Zdigits2] in *. lia. }
      rewrite HE. assert (0 < bpow (-52) * (A / B)) by (apply Rmult_lt_0_compat; lra).
      lra. }
    eapply Rle_trans; [apply round_exp_ulp; [lia | assumption]|].
    assert (IZR q * bpow e' <= A / B).
    { rewrite <- HYe. apply Rmult_le_compat_r; lra. }
    nra.
  - assert (HE : round_exp q e' = e') by (unfold round_exp in *; lia).
    rewrite HE.
    destruct (Z_le_gt_dec (dx + ex - (dy + ey) - 53) (-1074)) as [Hsub|Hnorm].
    + assert (bpow e' <= bpow (-1074)) by (apply bpow_le; lia).
      assert (0 < bpow (-52) * (A / B)) by (apply Rmult_lt_0_compat; lra). lra.
    + assert (Hle : bpow e' <= bpow (-52 + ((dx + ex - 1) + - (dy + ey))))
        by (apply bpow_le; lia).
      rewrite !bpow_add in Hle.
      assert (Hinv : bpow (- (dy + ey)) * bpow (dy + ey) = 1).
      { rewrite <- bpow_add. replace (- (dy + ey) + (dy + ey))%Z with 0%Z by lia.
        reflexivity. }
      pose proof (bpow_pos (- (dy + ey))). pose proof (bpow_pos (dy + ey)).
      pose proof (bpow_pos (dx + ex - 1)).
      assert (bpow (dx + ex - 1) * bpow (- (dy + ey)) <= A / B).
      { apply Rmult_le_reg_r with B; [lra|].
        replace (A / B * B) with A by (field; lra).
        assert (bpow (- (dy + ey)) * B <= 1) by nra. nra. }
      nra.
Qed.

(** *** Addition and subtraction of floats *)

Lemma shl_align_value (mx : positive) (ex ex' : Z) :
  IZR (Zpos (shl_align mx ex ex').1) * bpow (shl_align mx ex ex').2
  = IZR (Zpos mx) * bpow ex.
Proof.
  pose proof (shl_align_spec mx ex ex') as H.
  destruct (shl_align mx ex ex') as [mz ez]. cbn [fst snd]. destruct H as (Hle & _ & ->).
  rewrite mult_IZR, <- bpow_IZR, Rmult_assoc, <- bpow_add by lia.
  f_equal. f_equal. lia.
Qed.

Lemma binary_round_error (s : bool) (mx : positive) (ex k : Z) :
  IZR (Zpos mx) * bpow ex <= bpow k -> (k <= 900)%Z ->
  is_finite (binary_round PyFloat.prec PyFloat.emax s mx ex) = true /\
  Rabs (F2R (binary_round PyFloat.prec PyFloat.emax s mx ex)
        - sign_R s * (IZR (Zpos mx) * bpow ex))
    <= bpow (-52) * (IZR (Zpos mx) * bpow ex) + bpow (-1074).
Proof.
  intros Hmag Hk. unfold binary_round.
  pose proof (shl_align_spec mx ex
                (fexp PyFloat.prec PyFloat.emax (Zpos (digits2_pos mx) + ex))) as Hs.
  pose proof (shl_align_value mx ex
                (fexp PyFloat.prec PyFloat.emax (Zpos (digits2_pos mx) + ex))) as Hv.
  destruct (shl_align mx ex _) as [mz ez]. destruct Hs as (Hle & _ & Hmz).
  cbn [fst snd] in Hv. rewrite <- Hv in *.
  rewrite <- (F2R_abs false mz ez) in Hmag. apply mag_le in Hmag as [Hd He].
  apply round_exact_error; [lia | lia | cbn [Zdigits2]; lia].
Qed.

Lemma normalize_error (M e k : Z) :
  Rabs (IZR M * bpow e) <= bpow k -> (k <= 900)%Z ->
  is_finite (binary_normalize PyFloat.prec PyFloat.emax M e false) = true /\
  Rabs (F2R (binary_normalize PyFloat.prec PyFloat.emax M e false) - IZR M * bpow e)
    <= bpow (-52) * Rabs (IZR M * bpow e) + bpow (-1074).
Proof.
  intros Hmag Hk. pose proof (bpow_pos e) as He.
  pose proof (bpow_pos (-1074)). pose proof (bpow_pos (-52)).
  destruct M as [|p|p]; cbn [binary_normalize].
  - cbn [is_finite F2R]. split; [reflexivity|].
    rewrite Rmult_0_l, Rminus_diag, Rabs_R0. lra.
  - assert (Hp : 0 < IZR (Zpos p)) by (apply IZR_lt; lia).
    assert (Habs : Rabs (IZR (Zpos p) * bpow e) = IZR (Zpos p) * bpow e)
      by (apply Rabs_pos_eq; nra).
    rewrite Habs in *.
    destruct (binary_round_error false p e k Hmag Hk) as [Hfin Herr].
    split; [exact Hfin|]. cbn [sign_R] in Herr. rewrite Rmult_1_l in Herr. exact Herr.
  - assert (Hp : 0 < IZR (Zpos p)) by (apply IZR_lt; lia).
    change (Zneg p) with (- Zpos p)%Z in *. rewrite opp_IZR in *.
    replace (- IZR (Zpos p) * bpow e) with (- (IZR (Zpos p) * bpow e)) in * by ring.
    assert (Habs : Rabs (- (IZR (Zpos p) * bpow e)) = IZR (Zpos p) * bpow e)
      by (rewrite Rabs_Ropp; apply Rabs_pos_eq; nra).
    rewrite Habs in *.
    destruct (binary_round_error true p e k Hmag Hk) as [Hfin Herr].
    split; [exact Hfin|]. cbn [sign_R] in Herr.
    replace (-1 * (IZR (Zpos p) * bpow e)) with (- (IZR (Zpos p) * bpow e)) in Herr by ring.
    exact Herr.
Qed.

Lemma F2R_cond_Zopp (s : bool) (m : positive) (e ez : Z) :
  (ez <= e)%Z ->
  IZR (cond_Zopp s (Zpos (shl_align m e ez).1)) * bpow ez = F2R (S754_finite s m e).
Proof.
  intros Hle. pose proof (shl_align_spec m e ez) as Hs.
  destruct (shl_align m e ez) as [mz ez']. destruct Hs as (_ & Hez & Hmz).
  cbn [fst F2R]. specialize (Hez Hle). subst ez'.
  assert (Hv : IZR (Zpos mz) * bpow ez = IZR (Zpos m) * bpow e).
  { rewrite Hmz, mult_IZR, <- bpow_IZR, Rmult_assoc, <- bpow_add by lia.
    f_equal. f_equal. lia. }
  destruct s; cbn [cond_Zopp sign_R].
  - change (- Zpos mz)%Z with (Zneg mz). change (Zneg mz) with (- Zpos mz)%Z.
    rewrite opp_IZR. lra.
  - lra.
Qed.

Lemma add_error (x y : float) (k : Z) :
  is_finite x = true -> is_finite y = true ->
  Rabs (F2R x) + Rabs (F2R y) <= bpow k -> (k <= 900)%Z ->
  is_finite (PyFloat.add x y) = true /\
  Rabs (F2R (PyFloat.add x y) - (F2R x + F2R y))
    <= bpow (-52) * Rabs (F2R x + F2R y) + bpow (-1074).
Proof.
  intros Hx Hy Hmag Hk.
  pose proof (bpow_pos (-1074)). pose proof (bpow_pos (-52)).
  assert (Hexact : forall a b : R, 0 <= bpow (-52) * Rabs b + bpow (-1074) ->
            a = b -> Rabs (a - b) <= bpow (-52) * Rabs b + bpow (-1074)).
  { intros a b Hpos ->. now rewrite Rminus_diag, Rabs_R0. }
  assert (Hpos : forall b : R, 0 <= bpow (-52) * Rabs b + bpow (-1074)).
  { intros b. pose proof (Rabs_pos b). nra. }
  destruct x as [sx|sx| |sx mx ex]; try discriminate;
    destruct y as [sy|sy| |sy my ey]; try discriminate.
  - cbn [PyFloat.add SFadd]. destruct sx, sy; cbn [is_finite F2R];
      (split; [reflexivity | apply Hexact; [apply Hpos | lra]]).
  - cbn [PyFloat.add SFadd is_finite]. split; [reflexivity|].
    apply Hexact; [apply Hpos | cbn [F2R]; lra].
  - cbn [PyFloat.add SFadd is_finite]. split; [reflexivity|].
    apply Hexact; [apply Hpos | cbn [F2R]; lra].
  - cbn [PyFloat.add SFadd]. cbv zeta.
    set (ez := Z.min ex ey).
    set (M := (cond_Zopp sx (Zpos (shl_align mx ex ez).1)
               + cond_Zopp sy (Zpos (shl_align my ey ez).1))%Z).
    assert (HM : IZR M * bpow ez = F2R (S754_finite sx mx ex) + F2R (S754_finite sy my ey)).
    { unfold M. rewrite plus_IZR, Rmult_plus_distr_r.
      rewrite !F2R_cond_Zopp by (unfold ez; lia). reflexivity. }
    rewrite <- HM. apply (normalize_error M ez k); [|exact Hk].
    rewrite HM. eapply Rle_trans; [apply Rabs_triang | exact Hmag].
Qed.

Lemma sub_error (x y : float) (k : Z) :
  is_finite x = true -> is_finite y = true ->
  Rabs (F2R x) + Rabs (F2R y) <= bpow k -> (k <= 900)%Z ->
  is_finite (PyFloat.sub x y) = true /\
  Rabs (F2R (PyFloat.sub x y) - (F2R x - F2R y))
    <= bpow (-52) * Rabs (F2R x - F2R y) + bpow (-1074).
Proof.
  intros Hx Hy Hmag Hk.
  pose proof (bpow_pos (-1074)). pose proof (bpow_pos (-52)).
  assert (Hexact : forall a b : R, 0 <= bpow (-52) * Rabs b + bpow (-1074) ->
            a = b -> Rabs (a - b) <= bpow (-52) * Rabs b + bpow (-1074)).
  { intros a b Hpos ->. now rewrite Rminus_diag, Rabs_R0. }
  assert (Hpos : forall b : R, 0 <= bpow (-52) * Rabs b + bpow (-1074)).
  { intros b. pose proof (Rabs_pos b). nra. }
  destruct x as [sx|sx| |sx mx ex]; try discriminate;
    destruct y as [sy|sy| |sy my ey]; try discriminate.
  - cbn [PyFloat.sub SFsub]. destruct sx, sy; cbn [is_finite F2R];
      (split; [reflexivity | apply Hexact; [apply Hpos | lra]]).
  - cbn [PyFloat.sub SFsub is_finite]. split; [reflexivity|].
    apply Hexact; [apply Hpos | cbn [F2R]; destruct sy; cbn [negb sign_R]; lra].
  - cbn [PyFloat.sub SFsub is_finite]. split; [reflexivity|].
    apply Hexact; [apply Hpos | cbn [F2R]; lra].
  - cbn [PyFloat.sub SFsub]. cbv zeta.
    set (ez := Z.min ex ey).
    set (M := (cond_Zopp sx (Zpos (shl_align mx ex ez).1)
               - cond_Zopp sy (Zpos (shl_align my ey ez).1))%Z).
    assert (HM : IZR M * bpow ez = F2R (S754_finite sx mx ex) - F2R (S754_finite sy my ey)).
    { unfold M. rewrite minus_IZR, Rmult_minus_distr_r.
      rewrite !F2R_cond_Zopp by (unfold ez; lia). reflexivity. }
    rewrite <- HM. apply (normalize_error M ez k); [|exact Hk].
    rewrite HM. eapply Rle_trans; [|exact Hmag].
    replace (F2R (S754_finite sx mx ex) - F2R (S754_finite sy my ey))
      with (F2R (S754_finite sx mx ex) + - F2R (S754_finite sy my ey)) by ring.
    eapply Rle_trans; [apply Rabs_triang|]. rewrite Rabs_Ropp. lra.
Qed.

(** *** The constants of the temperature formulas *)

Lemma bpow_opp (n : Z) : (0 <= n)%Z -> bpow (- n) = / IZR (2 ^ n).
Proof.
  intros Hn. pose proof (bpow_pos n) as Hp.
  assert (H : bpow (- n) * bpow n = 1).
  { rewrite <- bpow_add. replace (- n + n)%Z with 0%Z by lia. reflexivity. }
  rewrite <- (bpow_IZR n Hn).
  apply Rmult_eq_reg_r with (bpow n); [|lra]. rewrite H. field. lra.
Qed.

Lemma F2R_integer (s : bool) (m : positive) (e n : Z) :
  (e <= 0)%Z -> (Zpos m = n * 2 ^ (- e))%Z ->
  F2R (S754_finite s m e) = sign_R s * IZR n.
Proof.
  intros He Hm. cbn [F2R]. rewrite Hm, mult_IZR.
  replace e with (- (- e))%Z at 2 by lia. rewrite bpow_opp by lia.
  assert (0 < IZR (2 ^ (- e))).
  { apply IZR_lt. apply Z.pow_pos_nonneg; lia. }
  field. lra.
Qed.

Lemma F2R_literals :
  F2R PyFloat.lit_9 = 9 /\ F2R PyFloat.lit_5 = 5 /\ F2R PyFloat.lit_32 = 32 /\
  F2R PyFloat.lit_1_0 = 1.
Proof.
  unfold PyFloat.lit_9, PyFloat.lit_5, PyFloat.lit_32, PyFloat.lit_1_0.
  rewrite (F2R_integer _ _ _ 9), (F2R_integer _ _ _ 5), (F2R_integer _ _ _ 32),
    (F2R_integer _ _ _ 1) by (try lia; reflexivity).
  cbn [sign_R]. repeat split; lra.
Qed.

(** The unit roundoff and the smallest subnormal, as numbers. *)
Lemma roundoff_consts :
  bpow (-52) = / 4503599627370496 /\ bpow (-49) = / 562949953421312 /\
  bpow (-50) = / 1125899906842624 /\
  0 < bpow (-1074) <= / 1267650600228229401496703205376.
Proof.
  split; [exact (bpow_opp 52 ltac:(lia))|].
  split; [exact (bpow_opp 49 ltac:(lia))|].
  split; [exact (bpow_opp 50 ltac:(lia))|].
  split; [apply bpow_pos|].
  change (/ 1267650600228229401496703205376) with (/ IZR (2 ^ 100)).
  rewrite <- (bpow_opp 100) by lia. apply bpow_le. lia.
Qed.

(** *** The two temperature formulas, before the final rounding *)

Lemma bpow_plus_const (k n : Z) : (0 <= n)%Z -> bpow (k + n) = bpow k * IZR (2 ^ n).
Proof. intros Hn. now rewrite bpow_add, (bpow_IZR n). Qed.

Lemma Rabs_const (c : R) : 0 <= c -> Rabs c = c.
Proof. apply Rabs_pos_eq. Qed.

Lemma celsius_formula_error (v : float) (k : Z) :
  is_finite v = true -> Rabs (F2R v) <= bpow k -> (0 <= k <= 780)%Z ->
  let t := PyFloat.add
             (SFdiv PyFloat.prec PyFloat.emax (PyFloat.mul v PyFloat.lit_9) PyFloat.lit_5)
             PyFloat.lit_32 in
  is_finite t = true /\
  Rabs (F2R t - (F2R v * 9 / 5 + 32)) <= bpow (-52) * (6 * Rabs (F2R v) + 33) /\
  Rabs (F2R t) <= bpow (k + 6).
Proof.
  intros Hfin Hv Hk t.
  destruct F2R_literals as (H9 & H5 & H32 & _).
  destruct roundoff_consts as (Hu & _ & _ & Heta0 & Heta).
  pose proof (bpow_pos k) as HK0.
  assert (HK1 : 1 <= bpow k) by (change 1 with (bpow 0); apply bpow_le; lia).
  pose proof (bpow_plus_const k 4 ltac:(lia)) as HK4.
  pose proof (bpow_plus_const k 6 ltac:(lia)) as HK6.
  change (IZR (2 ^ 4)) with 16 in HK4. change (IZR (2 ^ 6)) with 64 in HK6.
  assert (Hb4 : bpow 4 = 16) by (now rewrite bpow_IZR by lia).
  assert (Hb2 : bpow 2 = 4) by (now rewrite bpow_IZR by lia).
  (* p = v * 9 *)
  destruct (mul_error v PyFloat.lit_9 k 4) as (Hpfin & Hperr);
    [assumption | reflexivity | assumption | rewrite H9, Rabs_const, Hb4; lra | lia |].
  rewrite H9 in Hperr. rewrite Rabs_mult, (Rabs_const 9) in Hperr by lra.
  set (p := PyFloat.mul v PyFloat.lit_9) in *.
  (* q = p / 5 *)
  pose proof (Rabs_pos (F2R v)) as Ha0.
  set (a := Rabs (F2R v)) in *. set (K := bpow k) in *. set (eta := bpow (-1074)) in *.
  rewrite Hu in *.
  apply Rabs_le_between in Hperr.
  assert (HVa : - a <= F2R v <= a) by (apply Rabs_le_between; unfold a; lra).
  assert (HP : Rabs (F2R p) <= 9 * a + (/ 4503599627370496 * (a * 9) + eta))
    by (apply Rabs_le; lra).
  destruct (div_error p PyFloat.lit_5 (k + 4) 2) as (Hqfin & Hqerr);
    [assumption | reflexivity | rewrite H5; lra | fold K; rewrite HK4; lra
    | rewrite H5, Rabs_const, Hb2; lra | lia |].
  rewrite H5 in Hqerr. fold eta in Hqerr. unfold Rdiv in Hqerr.
  rewrite Rabs_mult, (Rabs_const (/ 5)) in Hqerr by lra. rewrite Hu in Hqerr.
  set (q := SFdiv PyFloat.prec PyFloat.emax p PyFloat.lit_5) in *.
  apply Rabs_le_between in Hqerr.
  assert (HQ : Rabs (F2R q) <= 2 * a + 1) by (apply Rabs_le; lra).
  (* t = q + 32 *)
  destruct (add_error q PyFloat.lit_32 (k + 6)) as (Htfin & Hterr);
    [assumption | reflexivity | rewrite H32, (Rabs_const 32) by lra; fold K; rewrite HK6; lra
    | lia |].
  rewrite H32 in Hterr. fold t eta in Hterr. rewrite Hu in Hterr.
  split; [exact Htfin|].
  assert (HQ32 : Rabs (F2R q + 32) <= 9 / 5 * a + 32 + / 1000000000000 * (a + 1))
    by (apply Rabs_le; lra).
  apply Rabs_le_between in Hterr. fold K. rewrite HK6.
  split; apply Rabs_le; lra.
Qed.

Lemma fahrenheit_formula_error (v : float) (k : Z) :
  is_finite v = true -> Rabs (F2R v) <= bpow k -> (0 <= k <= 780)%Z ->
  let q := SFdiv PyFloat.prec PyFloat.emax
             (PyFloat.mul (PyFloat.sub v PyFloat.lit_32) PyFloat.lit_5) PyFloat.lit_9 in
  is_finite q = true /\
  Rabs (F2R q - (F2R v - 32) * 5 / 9) <= bpow (-52) * (2 * Rabs (F2R v - 32) + 1) /\
  Rabs (F2R q) <= bpow (k + 6).
Proof.
  intros Hfin Hv Hk q.
  destruct F2R_literals as (H9 & H5 & H32 & _).
  destruct roundoff_consts as (Hu & _ & _ & Heta0 & Heta).
  pose proof (bpow_pos k) as HK0.
  assert (HK1 : 1 <= bpow k) by (change 1 with (bpow 0); apply bpow_le; lia).
  pose proof (bpow_plus_const k 6 ltac:(lia)) as HK6.
  pose proof (bpow_plus_const k 9 ltac:(lia)) as HK9.
  change (IZR (2 ^ 6)) with 64 in HK6. change (IZR (2 ^ 9)) with 512 in HK9.
  assert (Hb3 : bpow 3 = 8) by (now rewrite bpow_IZR by lia).
  (* s = v - 32 *)
  destruct (sub_error v PyFloat.lit_32 (k + 6)) as (Hsfin & Hserr);
    [assumption | reflexivity | rewrite H32, (Rabs_const 32), HK6 by lra; lra | lia |].
  rewrite H32 in Hserr.
  set (s := PyFloat.sub v PyFloat.lit_32) in *.
  pose proof (Rabs_pos (F2R v - 32)) as Hw0.
  assert (HVw : - Rabs (F2R v - 32) <= F2R v - 32 <= Rabs (F2R v - 32))
    by (apply Rabs_le_between; lra).
  assert (Hw : Rabs (F2R v - 32) <= bpow k + 32).
  { apply Rabs_le. apply Rabs_le_between in Hv. lra. }
  set (w := Rabs (F2R v - 32)) in *. set (K := bpow k) in *. set (eta := bpow (-1074)) in *.
  rewrite Hu in *.
  apply Rabs_le_between in Hserr.
  assert (HS : Rabs (F2R s) <= w + (/ 4503599627370496 * w + eta)) by (apply Rabs_le; lra).
  (* p = s * 5 *)
  destruct (mul_error s PyFloat.lit_5 (k + 6) 3) as (Hpfin & Hperr);
    [assumption | reflexivity | fold K; rewrite HK6; lra
    | rewrite H5, Rabs_const, Hb3; lra | lia |].
  rewrite H5 in Hperr. rewrite Rabs_mult, (Rabs_const 5) in Hperr by lra.
  fold eta in Hperr. rewrite Hu in Hperr.
  set (p := PyFloat.mul s PyFloat.lit_5) in *.
  apply Rabs_le_between in Hperr.
  assert (HP : Rabs (F2R p) <= 5 * w + / 1000000000000 * (w + 1)) by (apply Rabs_le; lra).
  (* q = p / 9 *)
  destruct (div_error p PyFloat.lit_9 (k + 9) 3) as (Hqfin & Hqerr);
    [assumption | reflexivity | rewrite H9; lra | fold K; rewrite HK9; lra
    | rewrite H9, Rabs_const, Hb3; lra | lia |].
  rewrite H9 in Hqerr. fold q eta in Hqerr. unfold Rdiv in Hqerr.
  rewrite Rabs_mult, (Rabs_const (/ 9)) in Hqerr by lra. rewrite Hu in Hqerr.
  split; [exact Hqfin|].
  apply Rabs_le_between in Hqerr. fold K. rewrite HK6.
  split; apply Rabs_le; lra.
Qed.

(** *** Rounding to two decimals next to a multiple of 0.01 *)

Lemma round2_near (x : float) (n : Z) :
  is_finite x = true -> Rabs (100 * F2R x - IZR n) < 1 / 2 ->
  n <> 0%Z -> (Z.abs n <= 100 * 2 ^ 900)%Z ->
  PyFloat.round x 2 = Ok (hundredths n).
Proof.
  intros Hfin Hnear Hn0 Hsize.
  destruct x as [s|s| |s m e]; try discriminate.
  { exfalso. cbn [F2R] in Hnear. rewrite Rmult_0_r, Rminus_0_l, Rabs_Ropp in Hnear.
    rewrite <- abs_IZR in Hnear.
    assert (1 <= IZR (Z.abs n)) by (apply IZR_le; lia). lra. }
  cbn [PyFloat.round].
  change (2 >? PyFloat.NDIGITS_MAX)%Z with false.
  change (2 <? PyFloat.NDIGITS_MIN)%Z with false. cbv iota.
  unfold PyFloat.double_round.
  change (10 ^ Z.max 2 0)%Z with 100%Z.
  change (10 ^ Z.max (Z.opp 2) 0)%Z with 1%Z.
  change (Z.to_pos 1) with 1%positive. change (Z.to_pos 100) with 100%positive.
  set (num := (Zpos m * 2 ^ Z.max e 0 * 100)%Z).
  set (den := (2 ^ Z.max (- e) 0 * 1)%Z).
  assert (Hnum : (0 <= num)%Z).
  { unfold num. pose proof (Z.pow_pos_nonneg 2 (Z.max e 0)). nia. }
  assert (Hden : (0 < den)%Z).
  { unfold den. pose proof (Z.pow_pos_nonneg 2 (Z.max (- e) 0)). lia. }
  assert (Hsv : IZR num / IZR den = 100 * (IZR (Zpos m) * bpow e))
    by apply scaled_value.
  set (X := IZR (Zpos m) * bpow e) in *.
  assert (HX : 0 < X).
  { unfold X. pose proof (bpow_pos e).
    assert (0 < IZR (Zpos m)) by (apply IZR_lt; lia). nra. }
  assert (HF : F2R (S754_finite s m e) = sign_R s * X).
  { cbn [F2R]. unfold X. ring. }
  rewrite HF in Hnear. apply Rabs_def2 in Hnear as [Hn1 Hn2].
  (* the sign of [x] is the sign of [n], and [|n|] is the nearest integer *)
  assert (Hsign : s = (n <? 0)%Z /\ Rabs (100 * X - IZR (Z.abs n)) < 1 / 2).
  { destruct s; cbn [sign_R] in Hn1, Hn2.
    - assert (Hneg : (n < 0)%Z).
      { apply lt_IZR. destruct (Z_lt_le_dec n 0) as [Hl|Hg]; [apply IZR_lt; exact Hl|].
        assert (1 <= IZR n) by (apply IZR_le; lia). lra. }
      split; [symmetry; apply Z.ltb_lt; exact Hneg|].
      rewrite Z.abs_neq, opp_IZR by lia. apply Rabs_def1; lra.
    - assert (Hpos : (0 <= n)%Z).
      { apply le_IZR. destruct (Z_lt_le_dec n 0) as [Hl|Hg]; [|apply IZR_le; exact Hg].
        assert (IZR n <= -1) by (apply IZR_le; lia). lra. }
      split; [symmetry; apply Z.ltb_ge; exact Hpos|].
      rewrite Z.abs_eq by lia. apply Rabs_def1; lra. }
  destruct Hsign as [Hs Hk]. remember (Z.abs n) as k eqn:Hkdef.
  assert (Hdhe : PyFloat.div_half_even num den = k).
  { apply div_half_even_near; [exact Hnum | exact Hden |].
    rewrite <- Hsv in Hk. apply Rabs_def2 in Hk as [Hk1 Hk2].
    assert (HdR : 0 < IZR den) by (apply IZR_lt; exact Hden).
    assert (Hlo : IZR (- den) < IZR (2 * (num - k * den))).
    { rewrite opp_IZR, mult_IZR, minus_IZR, mult_IZR.
      assert (IZR num = IZR num / IZR den * IZR den) by (field; lra). nra. }
    assert (Hhi : IZR (2 * (num - k * den)) < IZR den).
    { rewrite mult_IZR, minus_IZR, mult_IZR.
      assert (IZR num = IZR num / IZR den * IZR den) by (field; lra). nra. }
    apply lt_IZR in Hlo, Hhi. lia. }
  rewrite Hdhe.
  destruct k as [|p|p]; [lia | | lia].
  rewrite Pos.mul_1_r.
  destruct (of_ratio_error s p 100 ltac:(lia)) as (Hcfin & _).
  assert (Hinf : PyFloat.is_inf (PyFloat.of_ratio s p 100) = false)
    by (destruct (PyFloat.of_ratio s p 100); try discriminate; reflexivity).
  rewrite Hinf. f_equal. rewrite Hs.
  destruct n as [|n'|n']; [lia | |]; cbn in Hkdef; injection Hkdef as ->; reflexivity.
Qed.

Lemma round2_near_zero (x : float) :
  is_finite x = true -> Rabs (100 * F2R x) < 1 / 2 ->
  exists s, PyFloat.round x 2 = Ok (S754_zero s).
Proof.
  intros Hfin Hnear.
  destruct x as [s|s| |s m e]; try discriminate.
  { exists s. reflexivity. }
  exists s. cbn [PyFloat.round].
  change (2 >? PyFloat.NDIGITS_MAX)%Z with false.
  change (2 <? PyFloat.NDIGITS_MIN)%Z with false. cbv iota.
  unfold PyFloat.double_round.
  change (10 ^ Z.max 2 0)%Z with 100%Z.
  change (10 ^ Z.max (Z.opp 2) 0)%Z with 1%Z.
  set (num := (Zpos m * 2 ^ Z.max e 0 * 100)%Z).
  set (den := (2 ^ Z.max (- e) 0 * 1)%Z).
  assert (Hnum : (0 <= num)%Z).
  { unfold num. pose proof (Z.pow_pos_nonneg 2 (Z.max e 0)). nia. }
  assert (Hden : (0 < den)%Z).
  { unfold den. pose proof (Z.pow_pos_nonneg 2 (Z.max (- e) 0)). lia. }
  assert (Hsv : IZR num / IZR den = 100 * (IZR (Zpos m) * bpow e))
    by apply scaled_value.
  rewrite Rabs_mult, (Rabs_const 100), F2R_abs, <- Hsv in Hnear by lra.
  assert (Hdhe : PyFloat.div_half_even num den = 0%Z).
  { apply div_half_even_near; [exact Hnum | exact Hden |].
    assert (HdR : 0 < IZR den) by (apply IZR_lt; exact Hden).
    assert (HnR : 0 <= IZR num) by (apply IZR_le; exact Hnum).
    assert (Hhi : IZR (2 * num) < IZR den).
    { rewrite mult_IZR.
      assert (IZR num = IZR num / IZR den * IZR den) by (field; lra). nra. }
    apply lt_IZR in Hhi. lia. }
  rewrite Hdhe. reflexivity.
Qed.

Lemma hundredths_error (n : Z) :
  (Z.abs n <= 100 * 2 ^ 900)%Z ->
  is_finite (hundredths n) = true /\
  Rabs (F2R (hundredths n) - IZR n / 100)
    <= bpow (-52) * (Rabs (IZR n) / 100) + bpow (-1074).
Proof.
  intros Hsize. pose proof (bpow_pos (-52)). pose proof (bpow_pos (-1074)).
  destruct n as [|p|p]; cbn [hundredths].
  - cbn [is_finite F2R]. split; [reflexivity|].
    unfold Rdiv. rewrite Rmult_0_l, Rminus_diag, !Rabs_R0. lra.
  - destruct (of_ratio_error false p 100 ltac:(lia)) as (Hfin & Herr).
    split; [exact Hfin|]. cbn [sign_R] in Herr. rewrite Rmult_1_l in Herr.
    rewrite (Rabs_const (IZR (Zpos p))) by (apply IZR_le; lia). exact Herr.
  - destruct (of_ratio_error true p 100 ltac:(lia)) as (Hfin & Herr).
    split; [exact Hfin|]. cbn [sign_R] in Herr.
    change (Zneg p) with (- Zpos p)%Z. rewrite opp_IZR, Rabs_Ropp.
    rewrite (Rabs_const (IZR (Zpos p))) by (apply IZR_le; lia).
    replace (- IZR (Zpos p) / 100) with (-1 * (IZR (Zpos p) / 100)) by lra.
    exact Herr.
Qed.

End FurtherRoundingErrors.

Section ConversionErrors.
Local Open Scope R_scope.

(** *** Celsius to Fahrenheit and back *)

Lemma temperature_round_trip (n : Z) :
  (Z.abs n <= 10 ^ 12)%Z ->
  exists f,
    PyFloat.round
      (PyFloat.add
         (SFdiv PyFloat.prec PyFloat.emax
            (PyFloat.mul (hundredths n) PyFloat.lit_9) PyFloat.lit_5)
         PyFloat.lit_32) 2 = Ok f /\
    PyFloat.round
      (SFdiv PyFloat.prec PyFloat.emax
         (PyFloat.mul (PyFloat.sub f PyFloat.lit_32) PyFloat.lit_5) PyFloat.lit_9) 2
    = Ok (hundredths n).
Proof.
  intros Hn.
  destruct (Z.eq_dec n 0) as [->|Hn0].
  { exists PyFloat.lit_32. split; vm_compute; reflexivity. }
  destruct roundoff_consts as (Hu & _ & _ & Heta0 & Heta).
  assert (Hb34 : bpow 34 = 17179869184) by (now rewrite bpow_IZR by lia).
  assert (Hb35 : bpow 35 = 34359738368) by (now rewrite bpow_IZR by lia).
  assert (Hbig : (10 ^ 12 <= 100 * 2 ^ 900)%Z).
  { change (10 ^ 12)%Z with 1000000000000%Z.
    assert (2 ^ 40 <= 2 ^ 900)%Z by (apply Z.pow_le_mono_r; lia).
    change (2 ^ 40)%Z with 1099511627776%Z in *. lia. }
  (* the input *)
  destruct (hundredths_error n ltac:(lia)) as (Hvfin & Hverr).
  set (v := hundredths n) in *.
  assert (HnR : Rabs (IZR n) <= 1000000000000).
  { rewrite <- abs_IZR. change 1000000000000 with (IZR (10 ^ 12)). now apply IZR_le. }
  pose proof (Rabs_pos (IZR n)) as Hna0.
  assert (HnB : - Rabs (IZR n) <= IZR n <= Rabs (IZR n)) by (apply Rabs_le_between; lra).
  set (na := Rabs (IZR n)) in *. set (eta := bpow (-1074)) in *.
  rewrite Hu in Hverr. apply Rabs_le_between in Hverr.
  assert (HV : Rabs (F2R v) <= na / 100 + 1) by (apply Rabs_le; lra).
  (* Celsius to Fahrenheit *)
  destruct (celsius_formula_error v 34 Hvfin ltac:(rewrite Hb34; lra) ltac:(lia))
    as (Htfin & Hterr & _).
  cbv zeta in Htfin, Hterr.
  set (t := PyFloat.add
              (SFdiv PyFloat.prec PyFloat.emax (PyFloat.mul v PyFloat.lit_9) PyFloat.lit_5)
              PyFloat.lit_32) in *.
  rewrite Hu in Hterr.
  pose proof (Rabs_pos (F2R v)) as Hva0. set (va := Rabs (F2R v)) in *.
  apply Rabs_le_between in Hterr.
  (* the number of hundredths of a degree Fahrenheit *)
  set (N := (9 * n + 16000)%Z). set (k := ((N + 2) / 5)%Z).
  assert (Hk : (-2 <= 5 * k - N <= 2)%Z).
  { unfold k. pose proof (Z.div_mod (N + 2) 5 ltac:(lia)).
    pose proof (Z.mod_pos_bound (N + 2) 5 ltac:(lia)). lia. }
  assert (HkR : -2 <= 5 * IZR k - (9 * IZR n + 16000) <= 2).
  { destruct Hk as [Hk1 Hk2]. apply IZR_le in Hk1, Hk2. unfold N in Hk1, Hk2.
    rewrite minus_IZR, mult_IZR, plus_IZR, mult_IZR in Hk1, Hk2. lra. }
  assert (Hksize : (Z.abs k <= 100 * 2 ^ 900)%Z).
  { assert (Z.abs k <= 10 ^ 12 * 2)%Z; [|lia].
    change (10 ^ 12)%Z with 1000000000000%Z in *. unfold N in Hk. lia. }
  assert (Hnear1 : Rabs (100 * F2R t - IZR k) < 1 / 2) by (apply Rabs_def1; lra).
  assert (Hf : exists f, PyFloat.round t 2 = Ok f /\ is_finite f = true /\
                 Rabs (100 * F2R f - IZR k)
                   <= / 4503599627370496 * Rabs (IZR k) + 100 * eta).
  { destruct (Z.eq_dec k 0) as [Hk0|Hk0].
    - rewrite Hk0 in *. rewrite Rminus_0_r in Hnear1.
      destruct (round2_near_zero t Htfin Hnear1) as [s Hs].
      exists (S754_zero s). split; [exact Hs|]. split; [reflexivity|].
      cbn [F2R]. rewrite Rmult_0_r, Rminus_diag, Rabs_R0. lra.
    - exists (hundredths k). split; [apply round2_near; assumption|].
      destruct (hundredths_error k Hksize) as (Hffin & Hferr).
      split; [exact Hffin|]. fold eta in Hferr. rewrite Hu in Hferr.
      pose proof (Rabs_pos (IZR k)).
      apply Rabs_le_between in Hferr. apply Rabs_le. lra. }
  destruct Hf as (f & Hround & Hffin & Hferr).
  exists f. split; [exact Hround|].
  (* Fahrenheit to Celsius *)
  assert (HkA : Rabs (IZR k) <= 9 / 5 * na + 3201).
  { apply Rabs_le. lra. }
  pose proof (Rabs_pos (IZR k)) as Hka0. set (ka := Rabs (IZR k)) in *.
  apply Rabs_le_between in Hferr.
  assert (HF : Rabs (F2R f) <= 34359738368) by (apply Rabs_le; lra).
  destruct (fahrenheit_formula_error f 35 Hffin ltac:(rewrite Hb35; lra) ltac:(lia))
    as (Hqfin & Hqerr & _).
  cbv zeta in Hqfin, Hqerr.
  set (q := SFdiv PyFloat.prec PyFloat.emax
              (PyFloat.mul (PyFloat.sub f PyFloat.lit_32) PyFloat.lit_5) PyFloat.lit_9) in *.
  rewrite Hu in Hqerr.
  assert (HW : Rabs (F2R f - 32) <= 34359738400) by (apply Rabs_le; lra).
  pose proof (Rabs_pos (F2R f - 32)) as Hw0. set (w := Rabs (F2R f - 32)) in *.
  apply Rabs_le_between in Hqerr.
  apply round2_near; [exact Hqfin | | exact Hn0 | lia].
  apply Rabs_def1; lra.
Qed.

(** *** Accuracy of a currency conversion *)

Lemma table_rate_range (key : string) (r : float) :
  lookup_rate key fallback_rates = Some r -> in_range (-1) 8 r = true.
Proof.
  intros H. destruct (lookup_rate_cases _ _ H) as [[_ ->]|[[_ ->]|[[_ ->]|[_ ->]]]];
    reflexivity.
Qed.

Lemma conversion_error (amt rfrom rto : float) :
  in_range (-1) 8 rfrom = true -> in_range (-1) 8 rto = true ->
  is_finite amt = true -> Rabs (F2R amt) <= bpow 700 ->
  exists c,
    PyFloat.round (PyFloat.mul amt (SFdiv PyFloat.prec PyFloat.emax rto rfrom)) 2 = Ok c /\
    is_finite c = true /\
    Rabs (F2R c - F2R amt * (F2R rto / F2R rfrom))
      <= 1 / 200 + bpow (-50) * (Rabs (F2R amt) * (F2R rto / F2R rfrom) + 1).
Proof.
  intros Hfrom Hto Hfin Hamt.
  apply in_range_spec in Hfrom as (Hffin & Hf1 & Hf2).
  apply in_range_spec in Hto as (Htfin & Ht1 & Ht2).
  destruct roundoff_consts as (Hu & _ & Hu50 & Heta0 & Heta).
  assert (Hb1 : bpow (-1) = / 2) by exact (bpow_opp 1 ltac:(lia)).
  assert (Hb8 : bpow 8 = 256) by (now rewrite bpow_IZR by lia).
  assert (Hb10 : bpow 10 = 1024) by (now rewrite bpow_IZR by lia).
  pose proof (bpow_plus_const 700 10 ltac:(lia)) as HK10.
  pose proof (bpow_plus_const 700 11 ltac:(lia)) as HK11.
  change (IZR (2 ^ 10)) with 1024 in HK10. change (IZR (2 ^ 11)) with 2048 in HK11.
  change (700 + 10)%Z with 710%Z in HK10. change (700 + 11)%Z with 711%Z in HK11.
  pose proof (bpow_pos 700) as HK0.
  assert (HK1 : 1 <= bpow 700) by (change 1 with (bpow 0); apply bpow_le; lia).
  rewrite Hb1, Hb8 in *.
  set (g := F2R rto / F2R rfrom).
  assert (Hg : / 512 <= g <= 512).
  { unfold g. split.
    - apply Rmult_le_reg_r with (F2R rfrom); [lra|].
      replace (F2R rto / F2R rfrom * F2R rfrom) with (F2R rto) by (field; lra). lra.
    - apply Rmult_le_reg_r with (F2R rfrom); [lra|].
      replace (F2R rto / F2R rfrom * F2R rfrom) with (F2R rto) by (field; lra). nra. }
  (* the rate *)
  destruct (div_error rto rfrom 8 (-1)) as (Hrfin & Hrerr);
    [assumption | assumption | lra | rewrite Rabs_const, Hb8; lra
    | rewrite Rabs_const, Hb1; lra | lia |].
  fold g in Hrerr. rewrite (Rabs_const g), Hu in Hrerr by lra.
  set (rho := SFdiv PyFloat.prec PyFloat.emax rto rfrom) in *.
  set (eta := bpow (-1074)) in *.
  apply Rabs_le_between in Hrerr.
  assert (Hrho : Rabs (F2R rho - g) <= 11 / 10 * / 4503599627370496 * g)
    by (apply Rabs_le; lra).
  assert (Hrho' : Rabs (F2R rho) <= (1 + 2 * / 4503599627370496) * g) by (apply Rabs_le; lra).
  (* the product *)
  destruct (mul_error amt rho 700 10) as (Hxfin & Hxerr);
    [assumption | assumption | assumption | rewrite Hb10; lra | lia |].
  fold eta in Hxerr. rewrite Rabs_mult, Hu in Hxerr.
  set (x := PyFloat.mul amt rho) in *.
  pose proof (Rabs_pos (F2R amt)) as Ha0. set (a := Rabs (F2R amt)) in *.
  set (W := a * g).
  assert (HW0 : 0 <= W) by (unfold W; apply Rmult_le_pos; lra).
  assert (HaR : a * Rabs (F2R rho) <= (1 + 2 * / 4503599627370496) * W).
  { unfold W. rewrite <- Rmult_assoc, (Rmult_comm _ a), Rmult_assoc.
    apply Rmult_le_compat_l; assumption. }
  assert (HaE : a * Rabs (F2R rho - g) <= 11 / 10 * / 4503599627370496 * W).
  { unfold W. rewrite <- Rmult_assoc, (Rmult_comm _ a), Rmult_assoc.
    apply Rmult_le_compat_l; assumption. }
  assert (HWK : W <= 512 * bpow 700).
  { unfold W. rewrite (Rmult_comm 512). apply Rmult_le_compat; lra. }
  assert (Hx1 : Rabs (F2R x - F2R amt * g) <= 5 / 2 * / 4503599627370496 * W + eta).
  { replace (F2R x - F2R amt * g)
      with ((F2R x - F2R amt * F2R rho) + F2R amt * (F2R rho - g)) by ring.
    eapply Rle_trans; [apply Rabs_triang|]. rewrite (Rabs_mult (F2R amt)). fold a.
    lra. }
  assert (Hx2 : Rabs (F2R x) <= W + (5 / 2 * / 4503599627370496 * W + eta)).
  { eapply Rle_trans; [apply (Rabs_le_add _ (F2R amt * g))|].
    rewrite (Rabs_mult (F2R amt)), (Rabs_const g) by lra. fold a W. lra. }
  (* the rounding *)
  destruct (round2_error x 711 Hxfin ltac:(rewrite HK11; lra) ltac:(lia))
    as (c & Hc & Hcfin & Hcerr).
  fold eta in Hcerr. rewrite Hu in Hcerr.
  exists c. split; [exact Hc|]. split; [exact Hcfin|].
  rewrite Hu50. fold W.
  replace (F2R c - F2R amt * g) with ((F2R c - F2R x) + (F2R x - F2R amt * g)) by ring.
  eapply Rle_trans; [apply Rabs_triang|]. lra.
Qed.

(** *** A rounded value is a fixed point of the rounding *)

Lemma round2_fixed (x c : float) :
  is_finite x = true -> Rabs (F2R x) <= bpow 40 ->
  PyFloat.round x 2 = Ok c -> PyFloat.round c 2 = Ok c.
Proof.
  intros Hfin Hx Hc.
  destruct roundoff_consts as (Hu & _ & _ & Heta0 & Heta).
  assert (Hb40 : bpow 40 = 1099511627776) by (now rewrite bpow_IZR by lia).
  rewrite Hb40 in Hx.
  destruct x as [s|s| |s m e]; try discriminate.
  { cbn in Hc. injection Hc as <-. reflexivity. }
  rewrite F2R_abs in Hx. cbn [PyFloat.round] in Hc.
  change (2 >? PyFloat.NDIGITS_MAX)%Z with false in Hc.
  change (2 <? PyFloat.NDIGITS_MIN)%Z with false in Hc. cbv iota in Hc.
  unfold PyFloat.double_round in Hc.
  change (10 ^ Z.max 2 0)%Z with 100%Z in Hc.
  change (10 ^ Z.max (Z.opp 2) 0)%Z with 1%Z in Hc.
  change (Z.to_pos 1) with 1%positive in Hc.
  change (Z.to_pos 100) with 100%positive in Hc.
  set (num := (Zpos m * 2 ^ Z.max e 0 * 100)%Z) in *.
  set (den := (2 ^ Z.max (- e) 0 * 1)%Z) in *.
  assert (Hnum : (0 <= num)%Z).
  { unfold num. pose proof (Z.pow_pos_nonneg 2 (Z.max e 0)). nia. }
  assert (Hden : (0 < den)%Z).
  { unfold den. pose proof (Z.pow_pos_nonneg 2 (Z.max (- e) 0)). lia. }
  destruct (div_half_even_error num den Hnum Hden) as [Hk0 Hk].
  assert (Hsv : IZR num / IZR den = 100 * (IZR (Zpos m) * bpow e))
    by apply scaled_value.
  rewrite Hsv in Hk. apply Rabs_le_between in Hk.
  destruct (PyFloat.div_half_even num den) as [|p|p]; [| |lia].
  { injection Hc as <-. reflexivity. }
  rewrite Pos.mul_1_r in Hc.
  assert (HpR : IZR (Zpos p) <= 109951162777601) by lra.
  assert (Hp : (Zpos p <= 109951162777601)%Z) by (apply le_IZR; exact HpR).
  assert (Hsize : (109951162777601 <= 100 * 2 ^ 900)%Z).
  { assert (2 ^ 47 <= 2 ^ 900)%Z by (apply Z.pow_le_mono_r; lia).
    change (2 ^ 47)%Z with 140737488355328%Z in *. lia. }
  assert (Hp0 : 0 < IZR (Zpos p)) by (apply IZR_lt; lia).
  destruct (PyFloat.is_inf (PyFloat.of_ratio s p 100)); [discriminate|].
  injection Hc as <-.
  set (n := if s then Zneg p else Zpos p).
  assert (Hcn : PyFloat.of_ratio s p 100 = hundredths n) by (destruct s; reflexivity).
  assert (Habs : Z.abs n = Zpos p) by (destruct s; reflexivity).
  rewrite Hcn.
  destruct (hundredths_error n ltac:(lia)) as (Hcfin & Hcerr).
  rewrite <- abs_IZR, Habs, Hu in Hcerr. apply Rabs_le_between in Hcerr.
  apply round2_near; [exact Hcfin | | destruct s; discriminate | lia].
  apply Rabs_def1; lra.
Qed.

End ConversionErrors.

(** *** Conversions of integers *)

Lemma new_location_zero (n : Z) : new_location n 0 = loc_Exact.
Proof. unfold new_location. destruct (Z.even n); reflexivity. Qed.

(** An integer of 1025 bits or more does not fit a float. *)
Lemma of_int_overflow (n : Z) :
  2 ^ 1024 <= Z.abs n -> PyFloat.of_int n = Raise OverflowError.
Proof.
  intros Hn. unfold PyFloat.of_int.
  assert (H0 : 0 < 2 ^ 1024) by (apply Z.pow_pos_nonneg; lia).
  assert (Hinf : forall (s : bool) (p : positive),
             2 ^ 1024 <= Zpos p ->
             PyFloat.is_inf (binary_round PyFloat.prec PyFloat.emax s p 0) = true).
  { intros s p Hp. unfold binary_round.
    set (d := Zpos (digits2_pos p)).
    assert (Hd : 1025 <= d).
    { pose proof (digits2_pos_bounds p) as [_ Hhi]. fold d in Hhi.
      destruct (Z_le_gt_dec 1025 d) as [|Hgt]; [assumption|exfalso].
      assert (2 ^ d <= 2 ^ 1024) by (apply Z.pow_le_mono_r; lia). lia. }
    rewrite Z.add_0_r, fexp_eq. unfold shl_align.
    replace (Z.max (d - 53) (-1074) - 0) with (d - 53) by lia.
    destruct (d - 53) as [|e|e] eqn:He; [lia | | lia].
    destruct (binary_round_aux_cases s (Zpos p) 0 loc_Exact ltac:(lia))
      as (m1 & Hm1 & _ & _ & Hv).
    assert (HE : round_exp (Zpos p) 0 = d - 53).
    { unfold round_exp. rewrite fexp_eq. cbn [Zdigits2]. fold d. lia. }
    rewrite HE, Z.sub_0_r in *.
    assert (Hm1pos : 0 < m1).
    { pose proof (digits2_pos_bounds p) as [Hlo _]. fold d in Hlo.
      assert (Hpow : 0 < 2 ^ (d - 53)) by (apply Z.pow_pos_nonneg; lia).
      assert (1 <= Zpos p / 2 ^ (d - 53)); [|lia].
      apply Z.div_le_lower_bound; [lia|]. rewrite Z.mul_1_r.
      eapply Z.le_trans; [|exact Hlo]. apply Z.pow_le_mono_r; lia. }
    destruct (binary_round_aux PyFloat.prec PyFloat.emax s (Zpos p) 0 loc_Exact)
      as [s'|s'| |s' m2 e2]; [lia | reflexivity | contradiction | lia]. }
  destruct n as [|p|p]; cbn [binary_normalize]; [cbn in Hn; lia | |];
    rewrite Hinf by (cbn in Hn; lia); reflexivity.
Qed.

Section ExactDivision.
Local Open Scope R_scope.

(** The quotient of an exact integer division is computed exactly, when it
    fits the 53 bits of a float. *)
Lemma of_ratio_exact (s : bool) (a b : positive) (q : Z) :
  (Zpos a = q * Zpos b)%Z -> (q < 2 ^ 53)%Z ->
  is_finite (PyFloat.of_ratio s a b) = true /\
  F2R (PyFloat.of_ratio s a b) = sign_R s * IZR q.
Proof.
  intros Hab Hq. unfold PyFloat.of_ratio.
  assert (Hq0 : (0 < q)%Z) by nia.
  destruct (SFdiv_core_spec a b) as (Q & r & e' & -> & He' & Hdiv & Hr).
  assert (He'0 : (e' <= 0)%Z) by lia. clear He'.
  assert (Hpow : (0 < 2 ^ (- e'))%Z) by (apply Z.pow_pos_nonneg; lia).
  assert (HQr : (r = 0 /\ Q = q * 2 ^ (- e'))%Z).
  { rewrite Hab in Hdiv.
    assert (Hr' : (r = Zpos b * (q * 2 ^ (- e') - Q))%Z) by lia.
    assert (q * 2 ^ (- e') - Q = 0 \/ q * 2 ^ (- e') - Q <= -1 \/ 1 <= q * 2 ^ (- e') - Q)%Z
      as [H|[H|H]] by lia; [split; nia | nia | nia]. }
  destruct HQr as [-> HQ]. rewrite new_location_zero.
  assert (HQ0 : (0 < Q)%Z) by nia.
  destruct (binary_round_aux_cases s Q e' loc_Exact ltac:(lia))
    as (m1 & _ & _ & Hexact & Hv).
  set (E := round_exp Q e') in *.
  assert (HE : (e' <= E <= 0)%Z).
  { unfold E, round_exp. rewrite fexp_eq, HQ, Zdigits2_shift by lia.
    assert (Zdigits2 q <= 53)%Z by (apply Zdigits2_le; lia). lia. }
  assert (Hsplit : Q = (q * 2 ^ (- E) * 2 ^ (E - e'))%Z).
  { rewrite HQ, <- Z.mul_assoc, <- Z.pow_add_r by lia. f_equal. f_equal. lia. }
  assert (HpE : (0 < 2 ^ (E - e'))%Z) by (apply Z.pow_pos_nonneg; lia).
  assert (HpE' : (0 < 2 ^ (- E))%Z) by (apply Z.pow_pos_nonneg; lia).
  assert (Hm1 : m1 = (q * 2 ^ (- E))%Z).
  { rewrite (Hexact eq_refl).
    - rewrite Hsplit at 1. apply Z.div_mul. lia.
    - rewrite Hsplit at 1. apply Z.mod_mul. lia. }
  assert (Hval : IZR m1 * bpow E = IZR q).
  { rewrite Hm1, mult_IZR, <- bpow_IZR, Rmult_assoc, <- bpow_add by lia.
    replace (- E + E)%Z with 0%Z by lia. change (bpow 0) with 1. ring. }
  destruct (binary_round_aux PyFloat.prec PyFloat.emax s Q e' loc_Exact)
    as [s'|s'| |s' m2 e2].
  - destruct Hv as [_ Hz]. nia.
  - destruct Hv as (_ & [Hgt|[Heq _]]); lia.
  - contradiction.
  - destruct Hv as (-> & He2 & Hm2 & _). split; [reflexivity|].
    cbn [F2R]. rewrite <- Hval, <- Hm2, mult_IZR, <- bpow_IZR by lia.
    rewrite Rmult_assoc. f_equal. rewrite Rmult_assoc, <- bpow_add. f_equal. f_equal. lia.
Qed.

Lemma int_truediv_exact (a b q : Z) :
  b <> 0%Z -> a = (q * b)%Z -> (Z.abs q < 2 ^ 53)%Z ->
  exists r, PyFloat.int_truediv a b = Ok r /\ is_finite r = true /\ F2R r = IZR q.
Proof.
  intros Hb Ha Hq.
  destruct (Z.eq_dec a 0) as [Ha0|Ha0].
  { assert (q = 0%Z) by nia. subst q a.
    exists (S754_zero (b <? 0)%Z). split; [|split; reflexivity].
    unfold PyFloat.int_truediv. destruct b; [congruence | reflexivity | reflexivity]. }
  set (s := xorb (a <? 0)%Z (b <? 0)%Z).
  set (pa := Z.to_pos (Z.abs a)). set (pb := Z.to_pos (Z.abs b)).
  assert (Hpa : Zpos pa = Z.abs a) by (unfold pa; lia).
  assert (Hpb : Zpos pb = Z.abs b) by (unfold pb; lia).
  destruct (of_ratio_exact s pa pb (Z.abs q)) as (Hfin & Hval).
  { rewrite Hpa, Hpb, Ha. apply Z.abs_mul. }
  { exact Hq. }
  exists (PyFloat.of_ratio s pa pb). split; [|split; [exact Hfin|]].
  - unfold PyFloat.int_truediv. fold s pa pb.
    assert (Hinf : PyFloat.is_inf (PyFloat.of_ratio s pa pb) = false)
      by (destruct (PyFloat.of_ratio s pa pb); try discriminate; reflexivity).
    clear Hval Hfin Ha Hq.
    destruct a as [|a'|a']; [exfalso; now apply Ha0| |];
      (destruct b as [|b'|b']; [exfalso; now apply Hb| |]);
      rewrite Hinf; reflexivity.
  - rewrite Hval. unfold s.
    assert (Hsq : (q <? 0)%Z = xorb (a <? 0)%Z (b <? 0)%Z).
    { destruct (Z.ltb_spec q 0), (Z.ltb_spec a 0), (Z.ltb_spec b 0);
        cbn [xorb]; try reflexivity; exfalso; nia. }
    rewrite <- Hsq. rewrite abs_IZR.
    destruct (Z.ltb_spec q 0) as [Hneg|Hpos]; cbn [sign_R].
    + apply IZR_lt in Hneg. rewrite Rabs_left by lra. lra.
    + apply IZR_le in Hpos. rewrite Rabs_pos_eq by lra. lra.
Qed.

End ExactDivision.

(** ** [GET /rates] *)

Lemma get_rates_entries (base : string) (b : float) :
  lookup_rate base fallback_rates = Some b ->
  exists v1 v2 v3 v4,
    get_rates (JStr base)
    = Ok [mkRate "USD" v1; mkRate "EUR" v2; mkRate "GBP" v3; mkRate "JPY" v4] /\
    PyFloat.round (SFdiv PyFloat.prec PyFloat.emax PyFloat.lit_1_0 b) 3 = Ok v1 /\
    PyFloat.round (SFdiv PyFloat.prec PyFloat.emax PyFloat.lit_0_92 b) 3 = Ok v2 /\
    PyFloat.round (SFdiv PyFloat.prec PyFloat.emax PyFloat.lit_0_78 b) 3 = Ok v3 /\
    PyFloat.round (SFdiv PyFloat.prec PyFloat.emax PyFloat.lit_150_0 b) 3 = Ok v4.
Proof.
  intros Hb.
  destruct (lookup_rate_cases _ _ Hb) as [[-> ->]|[[-> ->]|[[-> ->]|[-> ->]]]];
    do 4 eexists;
    (split; [vm_compute; reflexivity|]); (split; [vm_compute; reflexivity|]);
    (split; [vm_compute; reflexivity|]); (split; [vm_compute; reflexivity|]);
    vm_compute; reflexivity.
Qed.

Lemma lookup_rate_none (c : string) :
  lookup_rate c fallback_rates = None ->
  c <> "USD"%string /\ c <> "EUR"%string /\ c <> "GBP"%string /\ c <> "JPY"%string.
Proof.
  unfold fallback_rates; cbn [lookup_rate].
  repeat case_bool_decide; try discriminate. intros _. repeat split; congruence.
Qed.

(** X1. [GET /rates] takes [USD] when the query has no [base_currency].
    For an unknown base it raises the service's [ValueError]; otherwise it
    answers with status 200, echoes the base, and the [rates] object has
    exactly the codes of the table, each with
    [round(table[code] / table[base], 3)]. *)
Theorem rates_handler_spec (base_arg : option string) :
  match lookup_rate (default "USD"%string base_arg) fallback_rates with
  | None => Rest.get_rates base_arg = Raise (ValueError "Invalid base currency")
  | Some b =>
      exists rates : gmap string json,
        Rest.get_rates base_arg =
          Ok (mkResponse 200
                (Py.dict [ ("base_currency"%string, JStr (default "USD"%string base_arg));
                           ("rates"%string, JObj rates) ])) /\
        forall c : string,
          match lookup_rate c fallback_rates with
          | Some r =>
              exists v,
                PyFloat.round (SFdiv PyFloat.prec PyFloat.emax r b) 3 = Ok v /\
                rates !! c = Some (JFloat v)
          | None => rates !! c = None
          end
  end.
Proof.
  set (base := default "USD"%string base_arg).
  destruct (lookup_rate base fallback_rates) as [b|] eqn:Hb.
  - destruct (get_rates_entries base b Hb) as (v1 & v2 & v3 & v4 & Hrs & H1 & H2 & H3 & H4).
    eexists. split.
    + unfold Rest.get_rates. fold base. rewrite Hrs. cbn [bind map currency rate].
      unfold Py.dict at 2. reflexivity.
    + intros c. cbn [fold_left fst snd].
      destruct (lookup_rate c fallback_rates) as [r|] eqn:Hc.
      * destruct (lookup_rate_cases _ _ Hc) as [[-> ->]|[[-> ->]|[[-> ->]|[-> ->]]]];
          eexists; (split; [eassumption|]); simplify_map_eq; reflexivity.
      * destruct (lookup_rate_none c Hc) as (? & ? & ? & ?).
        simplify_map_eq. reflexivity.
  - unfold Rest.get_rates. fold base. unfold get_rates.
    rewrite not_in_rates_str, Hb. reflexivity.
Qed.

(** ** [POST /convert]: failures *)

Lemma unknown_code_not_in (k : json) : unknown_code k -> not_in_rates k = Ok true.
Proof.
  destruct k; cbn [unknown_code]; try reflexivity; try contradiction.
  intros H. now rewrite not_in_rates_str, H.
Qed.

Lemma convert_currency_ok_inv (f t : json) (amount r : float) :
  convert_currency f t amount = Ok r ->
  exists fs ts,
    f = JStr fs /\ t = JStr ts /\
    is_Some (lookup_rate fs fallback_rates) /\ is_Some (lookup_rate ts fallback_rates).
Proof.
  unfold convert_currency.
  destruct f as [| | | |fs| |]; try (cbn [not_in_rates bind]; discriminate).
  rewrite not_in_rates_str.
  destruct (lookup_rate fs fallback_rates) as [rf|] eqn:Hf; cbn [bind]; [|discriminate].
  destruct t as [| | | |ts| |]; try (cbn [not_in_rates bind]; discriminate).
  rewrite not_in_rates_str.
  destruct (lookup_rate ts fallback_rates) as [rt|] eqn:Ht; cbn [bind]; [|discriminate].
  intros _. exists fs, ts. repeat split; eauto.
Qed.

(** X2. [POST /convert] answers only with status 200, and only when the body
    is an object whose two codes are strings of the rate table and whose
    amount converts to a float; every other request ends in an exception. *)
Theorem convert_response_inv (float_of_str : string -> option float)
    (data : json) (resp : response) :
  Rest.convert float_of_str data = Ok resp ->
  exists (d : gmap string json) (fs ts : string) (amount r : float),
    data = JObj d /\
    d !! "from_currency"%string = Some (JStr fs) /\
    d !! "to_currency"%string = Some (JStr ts) /\
    is_Some (lookup_rate fs fallback_rates) /\
    is_Some (lookup_rate ts fallback_rates) /\
    Py.float_ float_of_str (default (JFloat PyFloat.lit_1_0) (d !! "amount"%string))
      = Ok amount /\
    convert_currency (JStr fs) (JStr ts) amount = Ok r /\
    resp = mkResponse 200
             (Py.dict [ ("from_currency"%string, JStr fs); ("to_currency"%string, JStr ts);
                        ("amount"%string, JFloat amount);
                        ("result"%string, JFloat r) ]).
Proof.
  destruct data as [| | | | | |d]; try discriminate.
  unfold Rest.convert. cbn [Py.get bind].
  destruct (Py.float_ float_of_str (default (JFloat PyFloat.lit_1_0) (d !! "amount"%string)))
    as [amount|e] eqn:Hamount; cbn [bind]; [|discriminate].
  destruct (convert_currency (default JNull (d !! "from_currency"%string))
              (default JNull (d !! "to_currency"%string)) amount) as [r|e] eqn:Hr;
    cbn [bind]; [|discriminate].
  intros [= <-].
  destruct (convert_currency_ok_inv _ _ _ _ Hr) as (fs & ts & Hf & Ht & Hfs & Hts).
  exists d, fs, ts, amount, r.
  destruct (d !! "from_currency"%string) as [f|] eqn:Hdf; cbn in Hf; [|discriminate].
  destruct (d !! "to_currency"%string) as [t|] eqn:Hdt; cbn in Ht; [|discriminate].
  subst f t. cbn [default from_option Datatypes.id] in *.
  repeat split; auto.
Qed.

(** X3. With a convertible amount, a missing or unknown currency code makes
    [POST /convert] raise the service's [ValueError]: the handler has no
    error response for it. *)
Theorem convert_unknown_code (float_of_str : string -> option float)
    (d : gmap string json) (amount : float) :
  Py.float_ float_of_str (default (JFloat PyFloat.lit_1_0) (d !! "amount"%string))
    = Ok amount ->
  unknown_code (default JNull (d !! "from_currency"%string)) \/
  (exists s, d !! "from_currency"%string = Some (JStr s) /\
             is_Some (lookup_rate s fallback_rates) /\
             unknown_code (default JNull (d !! "to_currency"%string))) ->
  Rest.convert float_of_str (JObj d) = Raise (ValueError "Invalid currency code.").
Proof.
  intros Hamount Hcodes. rewrite (convert_fields float_of_str d amount Hamount).
  unfold convert_currency.
  destruct Hcodes as [Hf|(s & -> & [rf Hs] & Ht)].
  - rewrite (unknown_code_not_in _ Hf). reflexivity.
  - cbn [default from_option Datatypes.id]. rewrite not_in_rates_str, Hs. cbn [bind].
    rewrite (unknown_code_not_in _ Ht). reflexivity.
Qed.

Lemma convert_unknown_code_witness :
  Rest.convert Sample.no_float
    (JObj (list_to_map [ ("to_currency"%string, JStr "EUR"); ("amount"%string, JInt 5) ]))
  = Raise (ValueError "Invalid currency code.").
Proof.
  apply (convert_unknown_code Sample.no_float _ (PyFloat.of_ratio false 5 1)).
  - reflexivity.
  - left. exact I.
Defined.

Lemma convert_response_inv_witness :
  exists (d : gmap string json) (fs ts : string) (amount r : float),
    JObj Sample.convert_body = JObj d /\
    d !! "from_currency"%string = Some (JStr fs) /\
    d !! "to_currency"%string = Some (JStr ts) /\
    is_Some (lookup_rate fs fallback_rates) /\
    is_Some (lookup_rate ts fallback_rates) /\
    Py.float_ Sample.no_float (default (JFloat PyFloat.lit_1_0) (d !! "amount"%string))
      = Ok amount /\
    convert_currency (JStr fs) (JStr ts) amount = Ok r /\
    mkResponse 200
      (Py.dict [ ("from_currency"%string, JStr "USD"); ("to_currency"%string, JStr "EUR");
                 ("amount"%string, JFloat Sample.f100);
                 ("result"%string, JFloat Sample.f92) ])
    = mkResponse 200
             (Py.dict [ ("from_currency"%string, JStr fs); ("to_currency"%string, JStr ts);
                        ("amount"%string, JFloat amount);
                        ("result"%string, JFloat r) ]).
Proof.
  apply (convert_response_inv Sample.no_float (JObj Sample.convert_body)).
  vm_compute. reflexivity.
Defined.

(** ** [POST /convert_temp] and [POST /calculate]: what a response implies *)

Lemma getitem_ok_inv (data v : json) (key : string) :
  Py.getitem data key = Ok v -> exists d, data = JObj d /\ d !! key = Some v.
Proof.
  destruct data as [| | | | | |d]; try discriminate. cbn [Py.getitem].
  destruct (d !! key) as [w|] eqn:E; [|discriminate].
  intros [= ->]. eauto.
Qed.

(** X4. Every answer of [POST /convert_temp] comes from a body that has the
    three fields and a value that converts to a float.  Status 200 is
    given exactly to the pairs ("C","F") and ("F","C"), status 400 with
    the error body to every other pair; a missing field or a bad value is
    never answered with the error body, it raises. *)
Theorem convert_temp_response_inv (float_of_str : string -> option float)
    (data : json) (resp : response) :
  Rest.convert_temp float_of_str data = Ok resp ->
  exists (d : gmap string json) (from_unit to_unit v : json) (value : float),
    data = JObj d /\
    d !! "from_unit"%string = Some from_unit /\
    d !! "to_unit"%string = Some to_unit /\
    d !! "value"%string = Some v /\
    Py.float_ float_of_str v = Ok value /\
    ((status resp = 200 /\
      ((from_unit = JStr "C" /\ to_unit = JStr "F") \/
       (from_unit = JStr "F" /\ to_unit = JStr "C")) /\
      exists result,
        body resp = Py.dict [ ("from_unit"%string, from_unit); ("to_unit"%string, to_unit);
                              ("value"%string, JFloat value);
                              ("result"%string, JFloat result) ]) \/
     (resp = mkResponse 400
               (Py.dict [ ("error"%string, JStr "Invalid conversion units") ]) /\
      ~ (from_unit = JStr "C" /\ to_unit = JStr "F") /\
      ~ (from_unit = JStr "F" /\ to_unit = JStr "C"))).
Proof.
  unfold Rest.convert_temp.
  destruct (Py.getitem data "from_unit") as [fu|] eqn:Hfu; cbn [bind]; [|discriminate].
  destruct (Py.getitem data "to_unit") as [tu|] eqn:Htu; cbn [bind]; [|discriminate].
  destruct (Py.getitem data "value") as [v|] eqn:Hv; cbn [bind]; [|discriminate].
  destruct (Py.float_ float_of_str v) as [value|] eqn:Hvalue; cbn [bind]; [|discriminate].
  destruct (getitem_ok_inv _ _ _ Hfu) as (d & -> & Hdfu).
  destruct (getitem_ok_inv _ _ _ Htu) as (d' & [= <-] & Hdtu).
  destruct (getitem_ok_inv _ _ _ Hv) as (d' & [= <-] & Hdv).
  intros H. exists d, fu, tu, v, value.
  do 5 (split; [assumption || reflexivity|]).
  destruct (Py.eq_str fu "C" && Py.eq_str tu "F") eqn:Hcf.
  { apply andb_prop in Hcf as [E1%eq_str_true E2%eq_str_true].
    left. unfold PyFloat.truediv in H. cbn [PyFloat.is_zero PyFloat.lit_5 bind] in H.
    destruct (PyFloat.round _ 2) as [r|] eqn:Hr; cbn [bind] in H; [|discriminate].
    injection H as <-. split; [reflexivity|]. split; [left; split; assumption|].
    exists r. reflexivity. }
  destruct (Py.eq_str fu "F" && Py.eq_str tu "C") eqn:Hfc.
  { apply andb_prop in Hfc as [E1%eq_str_true E2%eq_str_true].
    left. unfold PyFloat.truediv in H. cbn [PyFloat.is_zero PyFloat.lit_9 bind] in H.
    destruct (PyFloat.round _ 2) as [r|] eqn:Hr; cbn [bind] in H; [|discriminate].
    injection H as <-. split; [reflexivity|]. split; [right; split; assumption|].
    exists r. reflexivity. }
  right. cbn [bind] in H. injection H as <-. split; [reflexivity|].
  split; intros [-> ->]; cbn in Hcf, Hfc; discriminate.
Qed.

(** X5. Every answer of [POST /calculate] comes from a body that has the
    three fields and operands that convert to integers.  Status 200 is
    given exactly to the four operations, status 400 with the error body
    to every other [operation] value; a missing field or a bad operand is
    never answered with the error body, it raises. *)
Theorem calculate_response_inv (int_of_str : string -> option Z)
    (data : json) (resp : response) :
  Rest.calculate int_of_str data = Ok resp ->
  exists (d : gmap string json) (op av bv : json) (a b : Z),
    data = JObj d /\
    d !! "operation"%string = Some op /\
    d !! "intA"%string = Some av /\
    d !! "intB"%string = Some bv /\
    Py.int_ int_of_str av = Ok a /\
    Py.int_ int_of_str bv = Ok b /\
    ((status resp = 200 /\
      (op = JStr "add" \/ op = JStr "subtract" \/
       op = JStr "multiply" \/ op = JStr "divide") /\
      exists result,
        body resp = Py.dict [ ("operation"%string, op); ("intA"%string, JInt a);
                              ("intB"%string, JInt b); ("result"%string, result) ]) \/
     (resp = mkResponse 400 (Py.dict [ ("error"%string, JStr "Invalid operation") ]) /\
      op <> JStr "add" /\ op <> JStr "subtract" /\
      op <> JStr "multiply" /\ op <> JStr "divide")).
Proof.
  unfold Rest.calculate.
  destruct (Py.getitem data "operation") as [op|] eqn:Hop; cbn [bind]; [|discriminate].
  destruct (Py.getitem data "intA") as [av|] eqn:Hav; cbn [bind]; [|discriminate].
  destruct (Py.int_ int_of_str av) as [a|] eqn:Ha; cbn [bind]; [|discriminate].
  destruct (Py.getitem data "intB") as [bv|] eqn:Hbv; cbn [bind]; [|discriminate].
  destruct (Py.int_ int_of_str bv) as [b|] eqn:Hb; cbn [bind]; [|discriminate].
  destruct (getitem_ok_inv _ _ _ Hop) as (d & -> & Hdop).
  destruct (getitem_ok_inv _ _ _ Hav) as (d' & [= <-] & Hdav).
  destruct (getitem_ok_inv _ _ _ Hbv) as (d' & [= <-] & Hdbv).
  intros H. exists d, op, av, bv, a, b.
  do 6 (split; [assumption || reflexivity|]).
  destruct (Py.eq_str op "add") eqn:E1.
  { apply eq_str_true in E1. cbn [bind] in H.
    destruct (Py.serialise _) as [[]|]; cbn [bind] in H; [|discriminate]. injection H as <-.
    left. split; [reflexivity|]. split; [tauto|]. eexists; reflexivity. }
  destruct (Py.eq_str op "subtract") eqn:E2.
  { apply eq_str_true in E2. cbn [bind] in H.
    destruct (Py.serialise _) as [[]|]; cbn [bind] in H; [|discriminate]. injection H as <-.
    left. split; [reflexivity|]. split; [tauto|]. eexists; reflexivity. }
  destruct (Py.eq_str op "multiply") eqn:E3.
  { apply eq_str_true in E3. cbn [bind] in H.
    destruct (Py.serialise _) as [[]|]; cbn [bind] in H; [|discriminate]. injection H as <-.
    left. split; [reflexivity|]. split; [tauto|]. eexists; reflexivity. }
  destruct (Py.eq_str op "divide") eqn:E4.
  { apply eq_str_true in E4. left.
    destruct (negb (b =? 0)).
    - destruct (PyFloat.int_truediv a b) as [q|] eqn:Hq; cbn [bind Py.serialise] in H;
        [|discriminate].
      injection H as <-. split; [reflexivity|]. split; [tauto|]. eexists; reflexivity.
    - cbn [bind Py.serialise] in H. injection H as <-.
      split; [reflexivity|]. split; [tauto|]. eexists; reflexivity. }
  right. cbn [bind] in H. injection H as <-. split; [reflexivity|].
  apply eq_str_false in E1, E2, E3, E4. auto.
Qed.

(** ** Negative amounts *)

Lemma binary_round_aux_opp (s : bool) (mx ex : Z) (lx : location) :
  binary_round_aux PyFloat.prec PyFloat.emax (negb s) mx ex lx
  = SFopp (binary_round_aux PyFloat.prec PyFloat.emax s mx ex lx).
Proof.
  unfold binary_round_aux.
  destruct (shr_fexp PyFloat.prec PyFloat.emax mx ex lx) as [mrs e'].
  destruct (shr_fexp PyFloat.prec PyFloat.emax _ e' loc_Exact) as [mrs' e''].
  destruct (shr_m mrs'); try reflexivity.
  destruct (e'' <=? PyFloat.emax - PyFloat.prec); reflexivity.
Qed.

Lemma mul_opp_l (x y : float) :
  PyFloat.mul (SFopp x) y = SFopp (PyFloat.mul x y).
Proof.
  destruct x as [sx|sx| |sx mx ex]; destruct y as [sy|sy| |sy my ey];
    cbn [PyFloat.mul SFmul SFopp]; try reflexivity;
    try (destruct sx, sy; reflexivity).
  replace (xorb (negb sx) sy) with (negb (xorb sx sy)) by (destruct sx, sy; reflexivity).
  apply binary_round_aux_opp.
Qed.

Lemma round_opp (x : float) (ndigits : Z) :
  PyFloat.round (SFopp x) ndigits = opp_result (PyFloat.round x ndigits).
Proof.
  destruct x as [s|s| |s m e]; cbn [PyFloat.round SFopp opp_result]; try reflexivity.
  destruct (ndigits >? PyFloat.NDIGITS_MAX); [reflexivity|].
  destruct (ndigits <? PyFloat.NDIGITS_MIN); [reflexivity|].
  unfold PyFloat.double_round.
  destruct (PyFloat.div_half_even _ _) as [|p|p]; try reflexivity.
  unfold PyFloat.of_ratio.
  destruct (SFdiv_core_binary _ _ _ _ _ _) as [[q e'] l].
  rewrite binary_round_aux_opp.
  destruct (binary_round_aux PyFloat.prec PyFloat.emax s q e' l); reflexivity.
Qed.

(** X6. [convert_currency] accepts negative amounts and is odd in the
    amount: negating the amount negates the result, and an amount that
    raises keeps raising the same exception. *)
Theorem convert_currency_opp (from_currency to_currency : json) (amount : float) :
  convert_currency from_currency to_currency (SFopp amount)
  = opp_result (convert_currency from_currency to_currency amount).
Proof.
  unfold convert_currency.
  destruct (not_in_rates from_currency) as [[]|]; cbn [bind opp_result]; try reflexivity.
  destruct (not_in_rates to_currency) as [[]|]; cbn [bind opp_result]; try reflexivity.
  destruct (rate_of to_currency) as [rto|]; cbn [bind opp_result]; try reflexivity.
  destruct (rate_of from_currency) as [rfrom|]; cbn [bind opp_result]; try reflexivity.
  destruct (PyFloat.truediv rto rfrom) as [q|]; cbn [bind opp_result]; try reflexivity.
  rewrite mul_opp_l. apply round_opp.
Qed.

(** ** Amounts that are not numbers of the usual kind *)

Lemma rate_quotient_positive (A B : string) (rA rB : float) :
  lookup_rate A fallback_rates = Some rA ->
  lookup_rate B fallback_rates = Some rB ->
  exists m e, SFdiv PyFloat.prec PyFloat.emax rB rA = S754_finite false m e.
Proof.
  intros HA HB.
  destruct (lookup_rate_cases _ _ HA) as [[_ ->]|[[_ ->]|[[_ ->]|[_ ->]]]];
    destruct (lookup_rate_cases _ _ HB) as [[_ ->]|[[_ ->]|[[_ ->]|[_ ->]]]];
    vm_compute; eauto.
Qed.

(** X7. [convert_currency] does not validate the amount: a zero, an
    infinity and NaN are returned as they are, for every pair of codes of
    the table. *)
Theorem convert_currency_special (A B : string) (amount : float) :
  is_Some (lookup_rate A fallback_rates) ->
  is_Some (lookup_rate B fallback_rates) ->
  is_finite amount = false \/ PyFloat.is_zero amount = true ->
  convert_currency (JStr A) (JStr B) amount = Ok amount.
Proof.
  intros [rA HA] [rB HB] Hamount. rewrite convert_currency_eq, HA, HB.
  destruct (rate_quotient_positive A B rA rB HA HB) as (m & e & ->).
  destruct amount as [[]|[]| |s m' e']; try reflexivity;
    destruct Hamount; discriminate.
Qed.

Lemma convert_currency_special_witness :
  convert_currency (JStr "EUR") (JStr "JPY") S754_nan = Ok S754_nan.
Proof.
  apply (convert_currency_special "EUR" "JPY" S754_nan).
  - vm_compute. eauto.
  - vm_compute. eauto.
  - left. reflexivity.
Defined.

(** ** Accuracy of [convert_currency] *)

(** X8. For codes of the table and a finite amount of magnitude at most
    [2^700], the result is within half a cent of
    [amount * table[to] / table[from]] taken over the real numbers, up to a
    relative error of [2^-50]. *)
Theorem convert_currency_accuracy (A B : string) (amt rA rB : float) :
  lookup_rate A fallback_rates = Some rA ->
  lookup_rate B fallback_rates = Some rB ->
  is_finite amt = true ->
  (Rabs (F2R amt) <= bpow 700)%R ->
  exists c,
    convert_currency (JStr A) (JStr B) amt = Ok c /\
    is_finite c = true /\
    (Rabs (F2R c - F2R amt * (F2R rB / F2R rA))
     <= 1 / 200 + bpow (-50) * (Rabs (F2R amt) * (F2R rB / F2R rA) + 1))%R.
Proof.
  intros HA HB Hfin Hamt. rewrite convert_currency_eq, HA, HB.
  apply conversion_error; [| |assumption|assumption];
    eapply table_rate_range; eassumption.
Qed.

Lemma convert_currency_accuracy_witness :
  exists c,
    convert_currency (JStr "USD") (JStr "EUR") Sample.f100 = Ok c /\
    is_finite c = true /\
    (Rabs (F2R c - F2R Sample.f100 * (F2R PyFloat.lit_0_92 / F2R PyFloat.lit_1_0))
     <= 1 / 200
        + bpow (-50)
          * (Rabs (F2R Sample.f100) * (F2R PyFloat.lit_0_92 / F2R PyFloat.lit_1_0) + 1))%R.
Proof.
  apply (convert_currency_accuracy "USD" "EUR" Sample.f100).
  - reflexivity.
  - reflexivity.
  - reflexivity.
  - destruct (in_range_spec 6 7 Sample.f100 eq_refl) as (_ & H6 & H7).
    pose proof (bpow_pos 6). pose proof (bpow_le 7 700 ltac:(lia)).
    rewrite Rabs_pos_eq; lra.
Defined.

Lemma rate_product_bound (amt rfrom rto : float) :
  in_range (-1) 8 rfrom = true -> in_range (-1) 8 rto = true ->
  is_finite amt = true -> (Rabs (F2R amt) <= bpow 30)%R ->
  is_finite (PyFloat.mul amt (SFdiv PyFloat.prec PyFloat.emax rto rfrom)) = true /\
  (Rabs (F2R (PyFloat.mul amt (SFdiv PyFloat.prec PyFloat.emax rto rfrom))) <= bpow 40)%R.
Proof.
  intros Hfrom Hto Hfin Hamt.
  assert (H700 : (Rabs (F2R amt) <= bpow 700)%R).
  { eapply Rle_trans; [exact Hamt | apply bpow_le; lia]. }
  apply in_range_spec in Hfrom as (Hffin & Hf1 & Hf2).
  apply in_range_spec in Hto as (Htfin & Ht1 & Ht2).
  destruct roundoff_consts as (Hu & _ & _ & Heta0 & Heta).
  assert (Hb1 : bpow (-1) = (/ 2)%R) by exact (bpow_opp 1 ltac:(lia)).
  assert (Hb8 : bpow 8 = 256%R) by (now rewrite bpow_IZR by lia).
  assert (Hb10 : bpow 10 = 1024%R) by (now rewrite bpow_IZR by lia).
  assert (Hb30 : bpow 30 = 1073741824%R) by (now rewrite bpow_IZR by lia).
  assert (Hb40 : bpow 40 = 1099511627776%R) by (now rewrite bpow_IZR by lia).
  rewrite Hb1, Hb8 in *. rewrite Hb30 in Hamt. rewrite Hb40.
  set (g := (F2R rto / F2R rfrom)%R).
  assert (Hg : (/ 512 <= g <= 512)%R).
  { unfold g. split.
    - apply Rmult_le_reg_r with (F2R rfrom); [lra|].
      replace (F2R rto / F2R rfrom * F2R rfrom)%R with (F2R rto) by (field; lra). lra.
    - apply Rmult_le_reg_r with (F2R rfrom); [lra|].
      replace (F2R rto / F2R rfrom * F2R rfrom)%R with (F2R rto) by (field; lra). nra. }
  destruct (div_error rto rfrom 8 (-1)) as (Hrfin & Hrerr);
    [assumption | assumption | lra | rewrite Rabs_const, Hb8; lra
    | rewrite Rabs_const, Hb1; lra | lia |].
  fold g in Hrerr. rewrite (Rabs_const g), Hu in Hrerr by lra.
  set (rho := SFdiv PyFloat.prec PyFloat.emax rto rfrom) in *.
  apply Rabs_le_between in Hrerr.
  assert (Hrho : (Rabs (F2R rho) <= 513)%R) by (apply Rabs_le; lra).
  destruct (mul_error amt rho 700 10) as (Hxfin & Hxerr);
    [assumption | assumption | assumption | rewrite Hb10; lra | lia |].
  split; [exact Hxfin|].
  rewrite Rabs_mult, Hu in Hxerr.
  pose proof (Rabs_pos (F2R amt)) as Ha0. pose proof (Rabs_pos (F2R rho)) as Hr0.
  assert (Hprod : (Rabs (F2R amt) * Rabs (F2R rho) <= 1073741824 * 513)%R)
    by (apply Rmult_le_compat; lra).
  eapply Rle_trans; [apply (Rabs_le_add _ (F2R amt * F2R rho))|].
  rewrite (Rabs_mult (F2R amt)). lra.
Qed.

(** X9. The result of [convert_currency] has two decimals: for a finite
    amount of magnitude at most [2^30], rounding the result to two
    decimals again returns it unchanged. *)
Theorem convert_currency_two_decimals (A B : string) (amt c : float) :
  is_finite amt = true ->
  (Rabs (F2R amt) <= bpow 30)%R ->
  convert_currency (JStr A) (JStr B) amt = Ok c ->
  PyFloat.round c 2 = Ok c.
Proof.
  intros Hfin Hamt. rewrite convert_currency_eq.
  destruct (lookup_rate A fallback_rates) as [rA|] eqn:HA; [|discriminate].
  destruct (lookup_rate B fallback_rates) as [rB|] eqn:HB; [|discriminate].
  destruct (rate_product_bound amt rA rB) as (Hxfin & Hx);
    [eapply table_rate_range; eassumption | eapply table_rate_range; eassumption
    | assumption | assumption |].
  apply round2_fixed; assumption.
Qed.

Lemma convert_currency_two_decimals_witness :
  PyFloat.round Sample.f92 2 = Ok Sample.f92.
Proof.
  apply (convert_currency_two_decimals "USD" "EUR" Sample.f100 Sample.f92).
  - reflexivity.
  - destruct (in_range_spec 6 7 Sample.f100 eq_refl) as (_ & H6 & H7).
    pose proof (bpow_pos 6). pose proof (bpow_le 7 30 ltac:(lia)).
    rewrite Rabs_pos_eq; lra.
  - vm_compute. reflexivity.
Defined.

(** ** Accuracy of [POST /convert_temp] *)

(** X10. From Celsius to Fahrenheit, for a finite value of magnitude at most
    [2^780], the result is within 0.005 of [value * 9 / 5 + 32] taken over
    the real numbers, up to a relative error of [2^-49]. *)
Theorem convert_temp_c_to_f_accuracy (float_of_str : string -> option float)
    (d : gmap string json) (v : json) (value : float) :
  d !! "from_unit"%string = Some (JStr "C") ->
  d !! "to_unit"%string = Some (JStr "F") ->
  d !! "value"%string = Some v ->
  Py.float_ float_of_str v = Ok value ->
  is_finite value = true ->
  (Rabs (F2R value) <= bpow 780)%R ->
  exists result,
    Rest.convert_temp float_of_str (JObj d) =
      Ok (mkResponse 200
            (Py.dict [ ("from_unit"%string, JStr "C"); ("to_unit"%string, JStr "F");
                       ("value"%string, JFloat value);
                       ("result"%string, JFloat result) ])) /\
    is_finite result = true /\
    (Rabs (F2R result - (F2R value * 9 / 5 + 32))
     <= 1 / 200 + bpow (-49) * (Rabs (F2R value) + 9))%R.
Proof.
  intros Hfrom Hto Hv Hvalue Hfin Hmag.
  destruct (convert_temp_eq float_of_str d _ _ v value Hfrom Hto Hv Hvalue)
    as (Heq & _ & _).
  rewrite (Heq eq_refl eq_refl). clear Heq.
  destruct (celsius_formula_error value 780 Hfin Hmag ltac:(lia)) as (Htfin & Hterr & Htmag).
  cbv zeta in Htfin, Hterr, Htmag. change (780 + 6)%Z with 786%Z in Htmag.
  set (t := PyFloat.add _ PyFloat.lit_32) in *.
  destruct (round2_error t 786 Htfin Htmag ltac:(lia)) as (c & Hc & Hcfin & Hcerr).
  rewrite Hc. cbn [bind]. exists c. split; [reflexivity|]. split; [exact Hcfin|].
  destruct roundoff_consts as (Hu & Hu49 & _ & Heta0 & Heta).
  rewrite Hu in Hterr, Hcerr. rewrite Hu49.
  pose proof (Rabs_pos (F2R value)) as Ha0. set (a := Rabs (F2R value)) in *.
  set (eta := bpow (-1074)) in *.
  assert (HVa : (- a <= F2R value <= a)%R) by (apply Rabs_le_between; unfold a; lra).
  apply Rabs_le_between in Hterr.
  assert (HT : (Rabs (F2R t) <= 9 / 5 * a + 32 + / 1000000000000 * (a + 1))%R)
    by (apply Rabs_le; lra).
  apply Rabs_le_between in Hcerr. apply Rabs_le. lra.
Qed.

(** X11. From Fahrenheit to Celsius, for a finite value of magnitude at most
    [2^780], the result is within 0.005 of [(value - 32) * 5 / 9] taken
    over the real numbers, up to a relative error of [2^-50]. *)
Theorem convert_temp_f_to_c_accuracy (float_of_str : string -> option float)
    (d : gmap string json) (v : json) (value : float) :
  d !! "from_unit"%string = Some (JStr "F") ->
  d !! "to_unit"%string = Some (JStr "C") ->
  d !! "value"%string = Some v ->
  Py.float_ float_of_str v = Ok value ->
  is_finite value = true ->
  (Rabs (F2R value) <= bpow 780)%R ->
  exists result,
    Rest.convert_temp float_of_str (JObj d) =
      Ok (mkResponse 200
            (Py.dict [ ("from_unit"%string, JStr "F"); ("to_unit"%string, JStr "C");
                       ("value"%string, JFloat value);
                       ("result"%string, JFloat result) ])) /\
    is_finite result = true /\
    (Rabs (F2R result - (F2R value - 32) * 5 / 9)
     <= 1 / 200 + bpow (-50) * (Rabs (F2R value - 32) + 1))%R.
Proof.
  intros Hfrom Hto Hv Hvalue Hfin Hmag.
  destruct (convert_temp_eq float_of_str d _ _ v value Hfrom Hto Hv Hvalue)
    as (_ & Heq & _).
  rewrite (Heq eq_refl eq_refl). clear Heq.
  destruct (fahrenheit_formula_error value 780 Hfin Hmag ltac:(lia))
    as (Hqfin & Hqerr & Hqmag).
  cbv zeta in Hqfin, Hqerr, Hqmag. change (780 + 6)%Z with 786%Z in Hqmag.
  set (q := SFdiv PyFloat.prec PyFloat.emax _ PyFloat.lit_9) in *.
  destruct (round2_error q 786 Hqfin Hqmag ltac:(lia)) as (c & Hc & Hcfin & Hcerr).
  rewrite Hc. cbn [bind]. exists c. split; [reflexivity|]. split; [exact Hcfin|].
  destruct roundoff_consts as (Hu & _ & Hu50 & Heta0 & Heta).
  rewrite Hu in Hqerr, Hcerr. rewrite Hu50.
  pose proof (Rabs_pos (F2R value - 32)) as Hw0. set (w := Rabs (F2R value - 32)) in *.
  set (eta := bpow (-1074)) in *.
  assert (HVw : (- w <= F2R value - 32 <= w)%R) by (apply Rabs_le_between; unfold w; lra).
  apply Rabs_le_between in Hqerr.
  assert (HQ : (Rabs (F2R q) <= 5 / 9 * w + / 1000000000000 * (w + 1))%R)
    by (apply Rabs_le; lra).
  apply Rabs_le_between in Hcerr. apply Rabs_le. lra.
Qed.

(** X12. A temperature written with two decimals survives the way from
    Celsius to Fahrenheit and back: for [|n| <= 10^12], converting
    [n / 100] degrees Celsius and converting the answer back returns
    [n / 100] exactly. *)
Theorem convert_temp_round_trip (float_of_str : string -> option float)
    (n : Z) (d1 : gmap string json) :
  Z.abs n <= 10 ^ 12 ->
  d1 !! "from_unit"%string = Some (JStr "C") ->
  d1 !! "to_unit"%string = Some (JStr "F") ->
  d1 !! "value"%string = Some (JFloat (hundredths n)) ->
  exists f,
    Rest.convert_temp float_of_str (JObj d1) =
      Ok (mkResponse 200
            (Py.dict [ ("from_unit"%string, JStr "C"); ("to_unit"%string, JStr "F");
                       ("value"%string, JFloat (hundredths n));
                       ("result"%string, JFloat f) ])) /\
    forall d2 : gmap string json,
      d2 !! "from_unit"%string = Some (JStr "F") ->
      d2 !! "to_unit"%string = Some (JStr "C") ->
      d2 !! "value"%string = Some (JFloat f) ->
      Rest.convert_temp float_of_str (JObj d2) =
        Ok (mkResponse 200
              (Py.dict [ ("from_unit"%string, JStr "F"); ("to_unit"%string, JStr "C");
                         ("value"%string, JFloat f);
                         ("result"%string, JFloat (hundredths n)) ])).
Proof.
  intros Hn Hfrom Hto Hv.
  destruct (temperature_round_trip n Hn) as (f & Hf & Hback).
  exists f. split.
  - destruct (convert_temp_eq float_of_str d1 _ _ _ (hundredths n) Hfrom Hto Hv eq_refl)
      as (Heq & _ & _).
    rewrite (Heq eq_refl eq_refl), Hf. reflexivity.
  - intros d2 Hfrom2 Hto2 Hv2.
    destruct (convert_temp_eq float_of_str d2 _ _ _ f Hfrom2 Hto2 Hv2 eq_refl)
      as (_ & Heq & _).
    rewrite (Heq eq_refl eq_refl), Hback. reflexivity.
Qed.

(** ** [POST /calculate]: exact quotients *)

(** X13. When [intB] divides [intA] and the quotient has at most 53 bits,
    [divide] answers with the quotient itself. *)
Theorem calculate_divide_exact (int_of_str : string -> option Z)
    (d : gmap string json) (av bv : json) (a b q : Z) :
  d !! "operation"%string = Some (JStr "divide") ->
  d !! "intA"%string = Some av ->
  d !! "intB"%string = Some bv ->
  Py.int_ int_of_str av = Ok a ->
  Py.int_ int_of_str bv = Ok b ->
  b <> 0 -> a = q * b -> Z.abs q < 2 ^ 53 ->
  exists r,
    Rest.calculate int_of_str (JObj d) =
      Ok (mkResponse 200
            (Py.dict [ ("operation"%string, JStr "divide"); ("intA"%string, JInt a);
                       ("intB"%string, JInt b); ("result"%string, JFloat r) ])) /\
    is_finite r = true /\ F2R r = IZR q.
Proof.
  intros Hop Ha Hb Hia Hib Hb0 Hq Hsize.
  rewrite (calculate_fields int_of_str d _ av bv a b Hop Ha Hb Hia Hib).
  cbn [Py.eq_str]. rewrite !bool_decide_eq_false_2 by discriminate.
  rewrite bool_decide_eq_true_2 by reflexivity.
  apply Z.eqb_neq in Hb0 as Hb0'. rewrite Hb0'. cbn [negb].
  destruct (int_truediv_exact a b q Hb0 Hq Hsize) as (r & -> & Hfin & Hval).
  exists r. split; [reflexivity|]. split; assumption.
Qed.

(** ** [POST /convert]: an amount too large for a float *)

(** X14. An integer amount of magnitude [2^1024] or more makes
    [POST /convert] raise [OverflowError], whatever the currency codes:
    the amount is converted before the codes are looked at. *)
Theorem convert_amount_overflow (float_of_str : string -> option float)
    (d : gmap string json) (n : Z) :
  d !! "amount"%string = Some (JInt n) ->
  2 ^ 1024 <= Z.abs n ->
  Rest.convert float_of_str (JObj d) = Raise OverflowError.
Proof.
  intros Hamount Hn. unfold Rest.convert. cbn [Py.get bind].
  rewrite Hamount. cbn [default from_option Datatypes.id Py.float_].
  rewrite (of_int_overflow n Hn). reflexivity.
Qed.

(** ** Witnesses *)

Lemma convert_temp_response_inv_witness :
  exists (d : gmap string json) (from_unit to_unit v : json) (value : float),
    JObj Sample.temp_same_body = JObj d /\
    d !! "from_unit"%string = Some from_unit /\
    d !! "to_unit"%string = Some to_unit /\
    d !! "value"%string = Some v /\
    Py.float_ Sample.no_float v = Ok value /\
    ((status (mkResponse 400
                (Py.dict [ ("error"%string, JStr "Invalid conversion units") ])) = 200 /\
      ((from_unit = JStr "C" /\ to_unit = JStr "F") \/
       (from_unit = JStr "F" /\ to_unit = JStr "C")) /\
      exists result,
        body (mkResponse 400
                (Py.dict [ ("error"%string, JStr "Invalid conversion units") ]))
        = Py.dict [ ("from_unit"%string, from_unit); ("to_unit"%string, to_unit);
                    ("value"%string, JFloat value);
                    ("result"%string, JFloat result) ]) \/
     (mkResponse 400 (Py.dict [ ("error"%string, JStr "Invalid conversion units") ])
      = mkResponse 400
          (Py.dict [ ("error"%string, JStr "Invalid conversion units") ]) /\
      ~ (from_unit = JStr "C" /\ to_unit = JStr "F") /\
      ~ (from_unit = JStr "F" /\ to_unit = JStr "C"))).
Proof.
  apply (convert_temp_response_inv Sample.no_float (JObj Sample.temp_same_body)).
  vm_compute. reflexivity.
Defined.

Lemma calculate_response_inv_witness :
  exists (d : gmap string json) (op av bv : json) (a b : Z),
    JObj (Sample.calc_body "power" 2 3) = JObj d /\
    d !! "operation"%string = Some op /\
    d !! "intA"%string = Some av /\
    d !! "intB"%string = Some bv /\
    Py.int_ Sample.no_int av = Ok a /\
    Py.int_ Sample.no_int bv = Ok b /\
    ((status (mkResponse 400 (Py.dict [ ("error"%string, JStr "Invalid operation") ]))
      = 200 /\
      (op = JStr "add" \/ op = JStr "subtract" \/
       op = JStr "multiply" \/ op = JStr "divide") /\
      exists result,
        body (mkResponse 400 (Py.dict [ ("error"%string, JStr "Invalid operation") ]))
        = Py.dict [ ("operation"%string, op); ("intA"%string, JInt a);
                    ("intB"%string, JInt b); ("result"%string, result) ]) \/
     (mkResponse 400 (Py.dict [ ("error"%string, JStr "Invalid operation") ])
      = mkResponse 400 (Py.dict [ ("error"%string, JStr "Invalid operation") ]) /\
      op <> JStr "add" /\ op <> JStr "subtract" /\
      op <> JStr "multiply" /\ op <> JStr "divide")).
Proof.
  apply (calculate_response_inv Sample.no_int (JObj (Sample.calc_body "power" 2 3))).
  vm_compute. reflexivity.
Defined.

Lemma convert_temp_c_to_f_accuracy_witness :
  exists result,
    Rest.convert_temp Sample.no_float (JObj Sample.temp_body) =
      Ok (mkResponse 200
            (Py.dict [ ("from_unit"%string, JStr "C"); ("to_unit"%string, JStr "F");
                       ("value"%string, JFloat (S754_zero false));
                       ("result"%string, JFloat result) ])) /\
    is_finite result = true /\
    (Rabs (F2R result - (F2R (S754_zero false) * 9 / 5 + 32))
     <= 1 / 200 + bpow (-49) * (Rabs (F2R (S754_zero false)) + 9))%R.
Proof.
  apply (convert_temp_c_to_f_accuracy Sample.no_float Sample.temp_body (JInt 0)).
  - reflexivity.
  - reflexivity.
  - reflexivity.
  - reflexivity.
  - reflexivity.
  - cbn [F2R]. rewrite Rabs_R0. apply Rlt_le, bpow_pos.
Defined.

Lemma convert_temp_f_to_c_accuracy_witness :
  exists result,
    Rest.convert_temp Sample.no_float (JObj Sample.temp_back_body) =
      Ok (mkResponse 200
            (Py.dict [ ("from_unit"%string, JStr "F"); ("to_unit"%string, JStr "C");
                       ("value"%string, JFloat Sample.f212);
                       ("result"%string, JFloat result) ])) /\
    is_finite result = true /\
    (Rabs (F2R result - (F2R Sample.f212 - 32) * 5 / 9)
     <= 1 / 200 + bpow (-50) * (Rabs (F2R Sample.f212 - 32) + 1))%R.
Proof.
  apply (convert_temp_f_to_c_accuracy Sample.no_float Sample.temp_back_body (JInt 212)).
  - reflexivity.
  - reflexivity.
  - reflexivity.
  - reflexivity.
  - reflexivity.
  - destruct (in_range_spec 7 8 Sample.f212 eq_refl) as (_ & H7 & H8).
    pose proof (bpow_pos 7). pose proof (bpow_le 8 780 ltac:(lia)).
    rewrite Rabs_pos_eq; lra.
Defined.

Lemma convert_temp_round_trip_witness :
  exists f,
    Rest.convert_temp Sample.no_float
      (JObj (list_to_map [ ("from_unit"%string, JStr "C"); ("to_unit"%string, JStr "F");
                           ("value"%string, JFloat (hundredths 3678)) ])) =
      Ok (mkResponse 200
            (Py.dict [ ("from_unit"%string, JStr "C"); ("to_unit"%string, JStr "F");
                       ("value"%string, JFloat (hundredths 3678));
                       ("result"%string, JFloat f) ])) /\
    forall d2 : gmap string json,
      d2 !! "from_unit"%string = Some (JStr "F") ->
      d2 !! "to_unit"%string = Some (JStr "C") ->
      d2 !! "value"%string = Some (JFloat f) ->
      Rest.convert_temp Sample.no_float (JObj d2) =
        Ok (mkResponse 200
              (Py.dict [ ("from_unit"%string, JStr "F"); ("to_unit"%string, JStr "C");
                         ("value"%string, JFloat f);
                         ("result"%string, JFloat (hundredths 3678)) ])).
Proof.
  apply (convert_temp_round_trip Sample.no_float 3678).
  - apply Z.leb_le. reflexivity.
  - reflexivity.
  - reflexivity.
  - reflexivity.
Defined.

Lemma calculate_divide_exact_witness :
  exists r,
    Rest.calculate Sample.no_int (JObj (Sample.calc_body "divide" (-84) 7)) =
      Ok (mkResponse 200
            (Py.dict [ ("operation"%string, JStr "divide"); ("intA"%string, JInt (-84));
                       ("intB"%string, JInt 7); ("result"%string, JFloat r) ])) /\
    is_finite r = true /\ F2R r = IZR (-12).
Proof.
  apply (calculate_divide_exact Sample.no_int (Sample.calc_body "divide" (-84) 7)
           (JInt (-84)) (JInt 7)).
  - reflexivity.
  - reflexivity.
  - reflexivity.
  - reflexivity.
  - reflexivity.
  - discriminate.
  - reflexivity.
  - reflexivity.
Defined.

Lemma convert_amount_overflow_witness :
  Rest.convert Sample.no_float
    (JObj (list_to_map [ ("from_currency"%string, JStr "XXX");
                         ("amount"%string, JInt (2 ^ 1024)) ]))
  = Raise OverflowError.
Proof.
  apply (convert_amount_overflow Sample.no_float _ (2 ^ 1024)).
  - reflexivity.
  - apply Z.leb_le. vm_compute. reflexivity.
Defined.

(** ** Accuracy of [get_rates] *)

Section RateErrors.
Local Open Scope R_scope.

Lemma scaled_value_3 (m : positive) (e : Z) :
  IZR (Zpos m * 2 ^ Z.max e 0 * 1000) / IZR (2 ^ Z.max (- e) 0 * 1)
  = 1000 * (IZR (Zpos m) * bpow e).
Proof.
  rewrite !mult_IZR, <- !bpow_IZR by lia.
  pose proof (bpow_pos (Z.max (- e) 0)).
  replace (bpow e) with (bpow (Z.max e 0) / bpow (Z.max (- e) 0)).
  - field. lra.
  - apply Rmult_eq_reg_r with (bpow (Z.max (- e) 0)); [|lra].
    replace (bpow (Z.max e 0) / bpow (Z.max (- e) 0) * bpow (Z.max (- e) 0))
      with (bpow (Z.max e 0)) by (field; lra).
    rewrite <- bpow_add. f_equal. lia.
Qed.

(** [round(x, 3)] on a finite float of moderate size returns a finite float
    within half a thousandth of [x], up to the final conversion to binary. *)
Lemma round3_error (x : float) (kx : Z) :
  is_finite x = true -> Rabs (F2R x) <= bpow kx -> (kx <= 800)%Z ->
  exists c,
    PyFloat.round x 3 = Ok c /\ is_finite c = true /\
    Rabs (F2R c - F2R x)
      <= 1 / 2000 + bpow (-52) * (Rabs (F2R x) + 1 / 2000) + bpow (-1074).
Proof.
  intros Hfin Hx Hkx.
  pose proof (bpow_pos (-52)) as Hb52. pose proof (bpow_pos (-1074)) as Hbmin.
  destruct x as [s|s| |s m e]; try discriminate.
  { exists (S754_zero s). split; [reflexivity|]. split; [reflexivity|].
    cbn [F2R]. rewrite Rminus_diag, Rabs_R0. lra. }
  rewrite F2R_abs in *. cbn [PyFloat.round].
  change (3 >? PyFloat.NDIGITS_MAX)%Z with false.
  change (3 <? PyFloat.NDIGITS_MIN)%Z with false. cbv iota.
  unfold PyFloat.double_round.
  change (10 ^ Z.max 3 0)%Z with 1000%Z.
  change (10 ^ Z.max (Z.opp 3) 0)%Z with 1%Z.
  change (Z.to_pos 1) with 1%positive. change (Z.to_pos 1000) with 1000%positive.
  set (num := (Zpos m * 2 ^ Z.max e 0 * 1000)%Z).
  set (den := (2 ^ Z.max (- e) 0 * 1)%Z).
  assert (Hnum : (0 <= num)%Z).
  { unfold num. pose proof (Z.pow_pos_nonneg 2 (Z.max e 0)). nia. }
  assert (Hden : (0 < den)%Z).
  { unfold den. pose proof (Z.pow_pos_nonneg 2 (Z.max (- e) 0)). lia. }
  destruct (div_half_even_error num den Hnum Hden) as [Hk0 Hk].
  assert (Hsv : IZR num / IZR den = 1000 * (IZR (Zpos m) * bpow e))
    by apply scaled_value_3.
  rewrite Hsv in Hk.
  set (k := PyFloat.div_half_even num den) in *.
  set (X := IZR (Zpos m) * bpow e) in *.
  assert (HX : 0 < X).
  { unfold X. pose proof (bpow_pos e).
    assert (0 < IZR (Zpos m)) by (apply IZR_lt; lia). nra. }
  apply Rabs_le_between in Hk as [Hk1 Hk2].
  assert (HF : F2R (S754_finite s m e) = sign_R s * X).
  { cbn [F2R]. unfold X. ring. }
  destruct k as [|p|p] eqn:Hkeq; [| |lia].
  - exists (S754_zero s). split; [reflexivity|]. split; [reflexivity|].
    rewrite HF. cbn [F2R]. rewrite Rminus_0_l, Rabs_Ropp, sign_R_abs, Rabs_pos_eq by lra.
    assert (0 < bpow (-52) * (X + 1 / 2000)) by (apply Rmult_lt_0_compat; lra). lra.
  - rewrite Pos.mul_1_r.
    assert (Hp : (Zpos p <= 1000 * 2 ^ 900)%Z).
    { assert (Hb : bpow kx <= bpow 800) by (apply bpow_le; lia).
      rewrite (bpow_IZR 800) in Hb by lia.
      set (K := (2 ^ 800)%Z) in *.
      assert (HK : (0 < K)%Z) by (apply Z.pow_pos_nonneg; lia).
      assert (IZR (Zpos p) < IZR (1000 * K + 1)).
      { rewrite plus_IZR, mult_IZR. lra. }
      apply lt_IZR in H.
      assert (K <= 2 ^ 900)%Z by (apply Z.pow_le_mono_r; lia). lia. }
    destruct (of_ratio_error s p 1000 Hp) as (Hcfin & Hcerr).
    set (c := PyFloat.of_ratio s p 1000) in *.
    assert (Hinf : PyFloat.is_inf c = false) by (destruct c; try discriminate; reflexivity).
    rewrite Hinf. exists c. split; [reflexivity|]. split; [exact Hcfin|].
    rewrite HF.
    replace (F2R c - sign_R s * X)
      with ((F2R c - sign_R s * (IZR (Zpos p) / 1000))
            + sign_R s * (IZR (Zpos p) / 1000 - X)) by lra.
    eapply Rle_trans; [apply Rabs_triang|].
    rewrite sign_R_abs.
    assert (Rabs (IZR (Zpos p) / 1000 - X) <= 1 / 2000) by (apply Rabs_le; lra).
    assert (bpow (-52) * (IZR (Zpos p) / 1000) <= bpow (-52) * (X + 1 / 2000))
      by (apply Rmult_le_compat_l; lra).
    lra.
Qed.

(** One entry of the listing: the quotient of two rates of the table,
    rounded to three decimals. *)
Lemma rate_error (r base : float) :
  in_range (-1) 8 r = true -> in_range (-1) 8 base = true ->
  exists v,
    PyFloat.round (SFdiv PyFloat.prec PyFloat.emax r base) 3 = Ok v /\
    is_finite v = true /\
    Rabs (F2R v - F2R r / F2R base) <= 1 / 2000 + bpow (-50) * (F2R r / F2R base + 1).
Proof.
  intros Hr Hbase.
  apply in_range_spec in Hr as (Hrfin & Hr1 & Hr2).
  apply in_range_spec in Hbase as (Hbfin & Hb1 & Hb2).
  destruct roundoff_consts as (Hu & _ & Hu50 & Heta0 & Heta).
  assert (Hb1' : bpow (-1) = / 2) by exact (bpow_opp 1 ltac:(lia)).
  assert (Hb8 : bpow 8 = 256) by (now rewrite bpow_IZR by lia).
  assert (Hb10 : bpow 10 = 1024) by (now rewrite bpow_IZR by lia).
  rewrite Hb1', Hb8 in *.
  set (g := F2R r / F2R base).
  assert (Hg : / 512 <= g <= 512).
  { unfold g. split.
    - apply Rmult_le_reg_r with (F2R base); [lra|].
      replace (F2R r / F2R base * F2R base) with (F2R r) by (field; lra). lra.
    - apply Rmult_le_reg_r with (F2R base); [lra|].
      replace (F2R r / F2R base * F2R base) with (F2R r) by (field; lra). nra. }
  destruct (div_error r base 8 (-1)) as (Hqfin & Hqerr);
    [assumption | assumption | lra | rewrite Rabs_const, Hb8; lra
    | rewrite Rabs_const, Hb1'; lra | lia |].
  fold g in Hqerr. rewrite (Rabs_const g), Hu in Hqerr by lra.
  set (q := SFdiv PyFloat.prec PyFloat.emax r base) in *.
  set (eta := bpow (-1074)) in *.
  apply Rabs_le_between in Hqerr.
  assert (HQ : Rabs (F2R q) <= 1024) by (apply Rabs_le; lra).
  destruct (round3_error q 10 Hqfin ltac:(rewrite Hb10; exact HQ) ltac:(lia))
    as (v & Hv & Hvfin & Hverr).
  fold eta in Hverr. rewrite Hu in Hverr.
  exists v. split; [exact Hv|]. split; [exact Hvfin|].
  rewrite Hu50.
  assert (HQ' : Rabs (F2R q) <= g + (/ 4503599627370496 * g + eta)) by (apply Rabs_le; lra).
  apply Rabs_le_between in Hverr. apply Rabs_le. lra.
Qed.

End RateErrors.

(** X15. For a base of the rate table, every record yielded by [get_rates]
    holds a finite rate within 0.0005 of [table[code] / table[base]] taken
    over the real numbers, up to a relative error of [2^-50]. *)
Theorem get_rates_accuracy (base : string) (b : float) :
  lookup_rate base fallback_rates = Some b ->
  exists rs,
    get_rates (JStr base) = Ok rs /\
    Forall2
      (fun (r : Rate) (kv : string * float) =>
         currency r = kv.1 /\ is_finite (rate r) = true /\
         (Rabs (F2R (rate r) - F2R kv.2 / F2R b)
          <= 1 / 2000 + bpow (-50) * (F2R kv.2 / F2R b + 1))%R)
      rs fallback_rates.
Proof.
  intros Hb.
  destruct (get_rates_succeeds base) as [rs Hrs]; [eauto|].
  exists rs. split; [exact Hrs|].
  assert (Hent : Forall2 (rate_entry b) rs fallback_rates).
  { revert Hrs. unfold get_rates. rewrite not_in_rates_str, Hb. cbn [bind].
    unfold rate_of. rewrite Hb. cbn [bind]. intros Hloop.
    apply get_rates_loop_spec in Hloop as (ys & -> & Hys);
      [exact Hys | exact (lookup_rate_nonzero _ _ Hb)]. }
  assert (Htable : Forall (fun kv : string * float => in_range (-1) 8 kv.2 = true)
                     fallback_rates).
  { repeat constructor. }
  pose proof (table_rate_range _ _ Hb) as Hbr.
  clear Hrs Hb. revert Hent Htable. generalize fallback_rates as items.
  induction rs as [|r rs IH]; intros items Hent Htable.
  - apply Forall2_nil_inv_l in Hent as ->. constructor.
  - apply Forall2_cons_inv_l in Hent as (kv & items' & [Hc Hv] & Hrest & ->).
    apply Forall_cons in Htable as [Hkv Htable].
    constructor; [|apply IH; assumption].
    destruct (rate_error kv.2 b Hkv Hbr) as (v & Hv' & Hvfin & Hverr).
    rewrite Hv in Hv'. injection Hv' as <-.
    split; [exact Hc|]. split; assumption.
Qed.

Lemma get_rates_accuracy_witness :
  exists rs,
    get_rates (JStr "GBP") = Ok rs /\
    Forall2
      (fun (r : Rate) (kv : string * float) =>
         currency r = kv.1 /\ is_finite (rate r) = true /\
         (Rabs (F2R (rate r) - F2R kv.2 / F2R PyFloat.lit_0_78)
          <= 1 / 2000 + bpow (-50) * (F2R kv.2 / F2R PyFloat.lit_0_78 + 1))%R)
      rs fallback_rates.
Proof.
  apply (get_rates_accuracy "GBP" PyFloat.lit_0_78). reflexivity.
Defined.

(** ** Converting through a third currency *)

Section ViaErrors.
Local Open Scope R_scope.

Lemma conversion_via_error (amt rA rB rC : float) :
  in_range (-1) 8 rA = true -> in_range (-1) 8 rB = true -> in_range (-1) 8 rC = true ->
  is_finite amt = true -> Rabs (F2R amt) <= bpow 690 ->
  exists c1 c2 d,
    PyFloat.round (PyFloat.mul amt (SFdiv PyFloat.prec PyFloat.emax rB rA)) 2 = Ok c1 /\
    PyFloat.round (PyFloat.mul c1 (SFdiv PyFloat.prec PyFloat.emax rC rB)) 2 = Ok c2 /\
    PyFloat.round (PyFloat.mul amt (SFdiv PyFloat.prec PyFloat.emax rC rA)) 2 = Ok d /\
    Rabs (F2R c2 - F2R d)
      <= 1 / 100 + 1 / 200 * (F2R rC / F2R rB)
         + bpow (-48) * (Rabs (F2R amt) * (F2R rC / F2R rA) + F2R rC / F2R rB + 1).
Proof.
  intros HA HB HC Hfin Hamt.
  destruct roundoff_consts as (_ & _ & Hu50 & _ & _).
  assert (Hu48 : bpow (-48) = / 281474976710656) by exact (bpow_opp 48 ltac:(lia)).
  assert (Hb1 : bpow (-1) = / 2) by exact (bpow_opp 1 ltac:(lia)).
  assert (Hb8 : bpow 8 = 256) by (now rewrite bpow_IZR by lia).
  pose proof (bpow_plus_const 690 10 ltac:(lia)) as HK10.
  change (IZR (2 ^ 10)) with 1024 in HK10. change (690 + 10)%Z with 700%Z in HK10.
  pose proof (bpow_pos 690) as HK0.
  assert (HK1 : 1 <= bpow 690) by (change 1 with (bpow 0); apply bpow_le; lia).
  assert (H700 : Rabs (F2R amt) <= bpow 700) by lra.
  destruct (conversion_error amt rA rB HA HB Hfin H700) as (c1 & Hc1 & Hc1fin & Hc1err).
  destruct (conversion_error amt rA rC HA HC Hfin H700) as (d & Hd & Hdfin & Hderr).
  apply in_range_spec in HA as (_ & HA1 & HA2).
  pose proof HB as HB'. apply in_range_spec in HB' as (_ & HB1 & HB2).
  pose proof HC as HC'. apply in_range_spec in HC' as (_ & HC1 & HC2).
  rewrite Hb1, Hb8 in *. rewrite Hu50 in *.
  set (g1 := F2R rB / F2R rA) in *. set (g2 := F2R rC / F2R rB) in *.
  set (g3 := F2R rC / F2R rA) in *.
  assert (Hg3 : g3 = g1 * g2) by (unfold g1, g2, g3; field; lra).
  assert (Hg1 : 0 < g1 <= 512).
  { unfold g1. split; [apply Rdiv_lt_0_compat; lra|].
    apply Rmult_le_reg_r with (F2R rA); [lra|].
    replace (F2R rB / F2R rA * F2R rA) with (F2R rB) by (field; lra). nra. }
  assert (Hg2 : 0 < g2) by (unfold g2; apply Rdiv_lt_0_compat; lra).
  pose proof (Rabs_pos (F2R amt)) as Ha0. set (a := Rabs (F2R amt)) in *.
  set (W1 := a * g1) in *. set (W3 := a * g3) in *.
  assert (HW1 : 0 <= W1) by (unfold W1; apply Rmult_le_pos; lra).
  assert (HW13 : W3 = W1 * g2) by (unfold W1, W3; rewrite Hg3; ring).
  assert (HW1K : W1 <= 512 * bpow 690).
  { unfold W1. rewrite (Rmult_comm 512). apply Rmult_le_compat; lra. }
  (* the intermediate amount *)
  assert (Hc1abs : Rabs (F2R c1)
                <= W1 + (1 / 200 + / 1125899906842624 * (W1 + 1))).
  { eapply Rle_trans; [apply (Rabs_le_add _ (F2R amt * g1))|].
    rewrite (Rabs_mult (F2R amt)), (Rabs_const g1) by lra. fold a W1. lra. }
  destruct (conversion_error c1 rB rC HB HC Hc1fin ltac:(lra))
    as (c2 & Hc2 & Hc2fin & Hc2err).
  rewrite Hu50 in Hc2err. fold g2 in Hc2err.
  exists c1, c2, d. split; [exact Hc1|]. split; [exact Hc2|]. split; [exact Hd|].
  rewrite Hu48.
  (* the three errors, in terms of the two products *)
  assert (E1 : g2 * Rabs (F2R c1 - F2R amt * g1)
               <= 1 / 200 * g2 + / 1125899906842624 * (W3 + g2)).
  { replace (1 / 200 * g2 + / 1125899906842624 * (W3 + g2))
      with (g2 * (1 / 200 + / 1125899906842624 * (W1 + 1))) by (rewrite HW13; ring).
    apply Rmult_le_compat_l; lra. }
  assert (E2 : Rabs (F2R c1) * g2
               <= W3 + (1 / 200 * g2 + / 1125899906842624 * (W3 + g2))).
  { replace (W3 + (1 / 200 * g2 + / 1125899906842624 * (W3 + g2)))
      with ((W1 + (1 / 200 + / 1125899906842624 * (W1 + 1))) * g2) by (rewrite HW13; ring).
    apply Rmult_le_compat_r; lra. }
  assert (HW3 : 0 <= W3) by (rewrite HW13; apply Rmult_le_pos; lra).
  replace (F2R c2 - F2R d)
    with ((F2R c2 - F2R c1 * g2)
          + (g2 * (F2R c1 - F2R amt * g1) + (F2R amt * g3 - F2R d)))
    by (rewrite Hg3; ring).
  eapply Rle_trans; [apply Rabs_triang|].
  eapply Rle_trans; [apply Rplus_le_compat_l, Rabs_triang|].
  rewrite (Rabs_mult g2), (Rabs_const g2), (Rabs_minus_sym (F2R amt * g3)) by lra.
  lra.
Qed.

End ViaErrors.

(** X16. Converting through a third currency agrees with the direct
    conversion: for codes [A], [B], [C] of the table and a finite amount of
    magnitude at most [2^690], the three conversions succeed and
    [convert(B, C, convert(A, B, amt))] differs from [convert(A, C, amt)] by
    at most one cent plus half a cent times [table[C] / table[B]], up to a
    relative error of [2^-48]. *)
Theorem convert_currency_via (A B C : string) (amt rA rB rC : float) :
  lookup_rate A fallback_rates = Some rA ->
  lookup_rate B fallback_rates = Some rB ->
  lookup_rate C fallback_rates = Some rC ->
  is_finite amt = true ->
  (Rabs (F2R amt) <= bpow 690)%R ->
  exists c1 c2 d,
    convert_currency (JStr A) (JStr B) amt = Ok c1 /\
    convert_currency (JStr B) (JStr C) c1 = Ok c2 /\
    convert_currency (JStr A) (JStr C) amt = Ok d /\
    (Rabs (F2R c2 - F2R d)
     <= 1 / 100 + 1 / 200 * (F2R rC / F2R rB)
        + bpow (-48) * (Rabs (F2R amt) * (F2R rC / F2R rA) + F2R rC / F2R rB + 1))%R.
Proof.
  intros HA HB HC Hfin Hamt.
  destruct (conversion_via_error amt rA rB rC) as (c1 & c2 & d & H1 & H2 & H3 & Herr);
    [eapply table_rate_range; eassumption | eapply table_rate_range; eassumption
    | eapply table_rate_range; eassumption | assumption | assumption |].
  exists c1, c2, d. rewrite !convert_currency_eq, HA, HB, HC.
  split; [exact H1|]. split; [exact H2|]. split; [exact H3 | exact Herr].
Qed.

Lemma convert_currency_via_witness :
  exists c1 c2 d,
    convert_currency (JStr "USD") (JStr "EUR") Sample.f100 = Ok c1 /\
    convert_currency (JStr "EUR") (JStr "JPY") c1 = Ok c2 /\
    convert_currency (JStr "USD") (JStr "JPY") Sample.f100 = Ok d /\
    (Rabs (F2R c2 - F2R d)
     <= 1 / 100 + 1 / 200 * (F2R PyFloat.lit_150_0 / F2R PyFloat.lit_0_92)
        + bpow (-48)
          * (Rabs (F2R Sample.f100) * (F2R PyFloat.lit_150_0 / F2R PyFloat.lit_1_0)
             + F2R PyFloat.lit_150_0 / F2R PyFloat.lit_0_92 + 1))%R.
Proof.
  apply (convert_currency_via "USD" "EUR" "JPY" Sample.f100).
  - reflexivity.
  - reflexivity.
  - reflexivity.
  - reflexivity.
  - destruct (in_range_spec 6 7 Sample.f100 eq_refl) as (_ & H6 & H7).
    pose proof (bpow_pos 6). pose proof (bpow_le 7 690 ltac:(lia)).
    rewrite Rabs_pos_eq; lra.
Defined.
